(** * A shallow embedding of the resource monitor (monitor.py)

    The monitor samples CPU, memory, disk, network and reachability
    figures once per tick, hands each category to a logger as a dict and
    writes a textual summary.  The functions below follow monitor.py (and,
    in [Legacy], the older single-format copy of the script) line by line.

    Conventions of the embedding:
    - Python [str] is [string]; an [ascii] stands for a code point below 256.
    - Python [int] is [Z]; Python [float] is idealised as [Q].
    - A raised exception is the [Raise] case of [res]; [try/except
      Exception] is a [match] on it.
    - What the operating system, psutil and the ping subprocess answer in a
      tick is an input of the model (a [reading]). *)

From Stdlib Require Import ZArith QArith Qround Lqa Bool List String Ascii Lia.
From Stdlib Require Import Sorting.Sorted Sorting.Permutation DecimalString.
From stdpp Require Import gmap strings.
Import ListNotations.

Local Open Scope string_scope.
Local Open Scope list_scope.
Local Open Scope Z_scope.

(* String concatenation unfolds on a constructor, as list append does. *)
Local Arguments String.append !s1 s2 : simpl nomatch.

(** ** Exceptions and results *)

(** An exception object: its class name and what [str(e)] yields. *)
Record exn := Exn { exn_class : string; exn_str : string }.

Inductive res (A : Type) : Type :=
| Ok (a : A)
| Raise (e : exn).
Arguments Ok {A} a.
Arguments Raise {A} e.

Definition res_bind {A B} (m : res A) (k : A -> res B) : res B :=
  match m with
  | Ok a => k a
  | Raise e => Raise e
  end.

Definition IndexError : exn := Exn "IndexError" "list index out of range".
Definition KeyError (k : string) : exn :=
  Exn "KeyError" (String "'"%char k +:+ "'").
Definition TypeError (m : string) : exn := Exn "TypeError" m.
Definition ZeroDivisionError : exn := Exn "ZeroDivisionError" "division by zero".
Definition AttributeError (m : string) : exn := Exn "AttributeError" m.
Definition ValueError (m : string) : exn := Exn "ValueError" m.
Definition OverflowError (m : string) : exn := Exn "OverflowError" m.

(** [l[i]] for a non-negative literal index. *)
Definition py_index {A} (l : list A) (i : nat) : res A :=
  match nth_error l i with
  | Some a => Ok a
  | None => Raise IndexError
  end.

(** ** Python string operations used by the script *)

Definition nl : string := String (ascii_of_nat 10) "".

(** [str.isspace] on code points below 256. *)
Definition is_space (c : ascii) : bool :=
  let n := nat_of_ascii c in
  ((9 <=? n)%nat && (n <=? 13)%nat) || ((28 <=? n)%nat && (n <=? 32)%nat)
  || (n =? 133)%nat || (n =? 160)%nat.

(** [sub in s]. *)
Fixpoint py_in (sub s : string) : bool :=
  if String.prefix sub s then true
  else match s with
       | EmptyString => false
       | String _ s' => py_in sub s'
       end.

(** [s.split(sep)] for a non-empty separator: the pieces between the
    non-overlapping occurrences of [sep], found left to right.  [skip]
    counts the characters of a separator still to be dropped. *)
Fixpoint split_go (sep : string) (skip : nat) (s : string) : list string :=
  match s with
  | EmptyString => [EmptyString]
  | String c s' =>
      match skip with
      | S k => split_go sep k s'
      | O =>
          if String.prefix sep s
          then EmptyString :: split_go sep (String.length sep - 1) s'
          else match split_go sep 0 s' with
               | p :: ps => String c p :: ps
               | [] => [String c EmptyString]
               end
      end
  end.

Definition py_split (sep s : string) : list string := split_go sep 0 s.

(** [s.split()]: the maximal runs of non-whitespace characters. *)
Fixpoint py_split_ws (s : string) : list string :=
  match s with
  | EmptyString => []
  | String c s' =>
      if is_space c then py_split_ws s'
      else match s' with
           | EmptyString => [String c EmptyString]
           | String c' _ =>
               if is_space c' then String c EmptyString :: py_split_ws s'
               else match py_split_ws s' with
                    | p :: ps => String c p :: ps
                    | [] => [String c EmptyString]
                    end
           end
  end.

(** A non-empty string without whitespace: what [s.split()] yields. *)
Fixpoint no_space (t : string) : bool :=
  match t with
  | EmptyString => true
  | String c t' => negb (is_space c) && no_space t'
  end.

Definition tokenb (t : string) : bool :=
  match t with
  | EmptyString => false
  | String _ _ => no_space t
  end.

(** The text a token is followed by: nothing, or a whitespace character. *)
Definition ends_tokenb (rest : string) : bool :=
  match rest with
  | EmptyString => true
  | String c _ => is_space c
  end.

(** A token of [s.split()] is not empty and holds no whitespace. *)
Definition is_token (t : string) : Prop :=
  t <> "" /\ forall a c b, t = a +:+ String c b -> is_space c = false.

(** The text after a token: empty, or beginning with whitespace. *)
Definition ends_token (rest : string) : Prop := ends_tokenb rest = true.

(** No occurrence of [sep] starts inside [a] when [a] is followed by [t]. *)
Definition no_start (sep a t : string) : Prop :=
  forall a1 a2, a = a1 +:+ a2 -> a2 <> "" -> String.prefix sep (a2 +:+ t) = false.

(** ** The reachability probe: [ping_network] *)

(** What [subprocess.run(..., capture_output=True, text=True, timeout=t)]
    does: it returns a completed process, or raises (the executable is
    missing, the timeout expires, a pipe fails). *)
Inductive run_result :=
| Completed (returncode : Z) (stdout : string)
| RunRaised (e : exn).

(** The dict returned by [ping_network]; a key the dict literal does not
    have is [None]. *)
Record ping_dict := {
  ping_status : string;
  ping_latency_ms : option string;
  ping_error : option string;
  ping_host : string }.

(** The [for line in ...] loop with its early [return]: [Ok None] when the
    loop runs to its end. *)
Fixpoint ping_scan (host : string) (lines : list string) : res (option ping_dict) :=
  match lines with
  | [] => Ok None
  | line :: rest =>
      if py_in "time=" line then
        res_bind (py_index (py_split "time=" line) 1) (fun after =>
        res_bind (py_index (py_split_ws after) 0) (fun time_ms =>
        Ok (Some {| ping_status := "success"; ping_latency_ms := Some time_ms;
                    ping_error := None; ping_host := host |})))
      else ping_scan host rest
  end.

(** The body of the [try]. *)
Definition ping_try (host : string) (run : run_result) : res ping_dict :=
  match run with
  | RunRaised e => Raise e
  | Completed returncode stdout =>
      res_bind (if returncode =? 0 then ping_scan host (py_split nl stdout)
                else Ok None) (fun found =>
      match found with
      | Some d => Ok d
      | None => Ok {| ping_status := "failed"; ping_latency_ms := None;
                      ping_error := None; ping_host := host |}
      end)
  end.

Definition ping_network (host : string) (run : run_result) : ping_dict :=
  match ping_try host run with
  | Ok d => d
  | Raise e => {| ping_status := "error"; ping_latency_ms := None;
                  ping_error := Some (exn_str e); ping_host := host |}
  end.

(** The three dict shapers of [ping_network], named for the statements. *)
Definition ping_success (host time_ms : string) : ping_dict :=
  {| ping_status := "success"; ping_latency_ms := Some time_ms;
     ping_error := None; ping_host := host |}.
Definition ping_failed (host : string) : ping_dict :=
  {| ping_status := "failed"; ping_latency_ms := None;
     ping_error := None; ping_host := host |}.
Definition ping_errored (host detail : string) : ping_dict :=
  {| ping_status := "error"; ping_latency_ms := None;
     ping_error := Some detail; ping_host := host |}.

(** ** Effects: the calls the script makes, in order *)

(** What a logger is handed: a dict for the category loggers, a string for
    the main logger. *)
Inductive scalar :=
| SNone
| SInt (z : Z)
| SFloat (q : Q)
| SStr (s : string).

#[warnings="-register-all"] Inductive pyval :=
| PNone
| PInt (z : Z)
| PFloat (q : Q)
| PStr (s : string)
| PList (l : list pyval)
| PDict (d : list (string * pyval)).

Definition of_scalar (v : scalar) : pyval :=
  match v with
  | SNone => PNone
  | SInt z => PInt z
  | SFloat q => PFloat q
  | SStr s => PStr s
  end.

Inductive message :=
| MDict (d : list (string * pyval))
| MStr (s : string).

Inductive event :=
| CpuPercent (interval : option Q) (percpu : bool)  (* psutil.cpu_percent(interval, percpu) *)
| Psutil (fn : string)                              (* another psutil call *)
| RunPing (argv : list string) (timeout : Z)        (* subprocess.run(argv, timeout=...) *)
| LogRecord (logger levelname : string) (m : message) (* loggers[logger].info/error(m) *)
| SetupLogging (mode : string)                      (* setup_logging(mode) *)
| Print (line : string)                             (* print(line) *)
| Sleep (secs : Z).                                 (* time.sleep(secs) *)

(** A computation: the calls it made, and its result or the exception
    that ended it. *)
Definition M (A : Type) : Type := (list event * res A)%type.

Definition ret {A} (a : A) : M A := ([], Ok a).

Definition bind {A B} (m : M A) (k : A -> M B) : M B :=
  match m with
  | (t, Ok a) => let (t', r) := k a in (t ++ t', r)
  | (t, Raise e) => (t, Raise e)
  end.

Definition emit (e : event) : M unit := ([e], Ok tt).
Definition lift {A} (r : res A) : M A := ([], r).
Definition call {A} (e : event) (answer : res A) : M A := ([e], answer).

(** [try: m except Exception as e: handler e]. *)
Definition try_except {A} (m : M A) (handler : exn -> M A) : M A :=
  match m with
  | (t, Ok a) => (t, Ok a)
  | (t, Raise e) => let (t', r) := handler e in (t ++ t', r)
  end.

Definition trace {A} (m : M A) : list event := fst m.
Definition result {A} (m : M A) : res A := snd m.

Notation "'let*' x ':=' m 'in' k" := (bind m (fun x => k))
  (at level 10, x name, m at level 100, k at level 200).
Notation "'perform' m 'in' k" := (bind m (fun _ => k))
  (at level 10, m at level 100, k at level 200).

(** A dict field as the script reads it: the key may be missing, hold
    [None], or hold a value.  [d.get(k, default)] and [d[k]] follow. *)
Inductive slot (A : Type) : Type :=
| Missing
| IsNone
| Has (a : A).
Arguments Missing {A}.
Arguments IsNone {A}.
Arguments Has {A} a.

Definition slot_get {A} (s : slot A) (inj : A -> scalar) (default : scalar) : scalar :=
  match s with
  | Missing => default
  | IsNone => SNone
  | Has a => inj a
  end.

Definition slot_item {A} (k : string) (s : slot A) (inj : A -> scalar) : res scalar :=
  match s with
  | Missing => Raise (KeyError k)
  | IsNone => Ok SNone
  | Has a => Ok (inj a)
  end.

(** ** Numbers *)

(** [round(x)] to an integer, ties to even. *)
Definition round_half_even (x : Q) : Z :=
  let f := Qfloor x in
  match Qcompare (x - inject_Z f) (1 # 2) with
  | Lt => f
  | Gt => f + 1
  | Eq => if Z.even f then f else f + 1
  end.

(** [round(x, 2)], on the rationals. *)
Definition round2 (x : Q) : Q := Qmake (round_half_even (x * 100)) 100.

Definition MiB : Z := 1024 ^ 2.
Definition GiB : Z := 1024 ^ 3.

(** [x / y] on ints: true division, [ZeroDivisionError] on a zero divisor. *)
Definition py_div (x y : Z) : res Q :=
  if y =? 0 then Raise ZeroDivisionError else Ok (inject_Z x / inject_Z y)%Q.

(** [round(x / (1024**2), 2)] and [round(x / (1024**3), 2)]. *)
Definition to_mb (x : Z) : Q := round2 (inject_Z x / inject_Z MiB).
Definition to_gb (x : Z) : Q := round2 (inject_Z x / inject_Z GiB).

(** ** Sorting and slicing *)

(** [sorted(l, key=..., reverse=True)] when all keys compare: a stable sort,
    largest key first, equal keys in their original order.  [ltb a b] says
    that the key of [a] is below the key of [b]. *)
Fixpoint insert_desc {A} (ltb : A -> A -> bool) (x : A) (l : list A) : list A :=
  match l with
  | [] => [x]
  | y :: ys => if ltb x y then y :: insert_desc ltb x ys else x :: y :: ys
  end.

Definition sorted_desc {A} (ltb : A -> A -> bool) (l : list A) : list A :=
  fold_right (insert_desc ltb) [] l.

(** [l[:n]]: the first [n] items, or all but the last [-n] for [n < 0]. *)
Definition py_take {A} (n : Z) (l : list A) : list A :=
  if 0 <=? n then firstn (Z.to_nat n) l
  else firstn (length l - Z.to_nat (- n)) l.

(** ** What psutil reports *)

Record pmem := { rss : Z; vms : Z }.

(** [proc.info] of a process yielded by [psutil.process_iter(attrs)]. *)
Record proc := {
  info_pid : slot Z;
  info_name : slot string;
  info_cpu_percent : slot Q;
  info_memory_info : slot pmem }.

Record svmem := { vm_total : Z; vm_used : Z; vm_available : Z; vm_percent : Q }.
(** psutil's [sdiskio] and [snetio] tuples; the fields carry the prefix
    [io_] here, the returned dicts keep the plain names. *)
Record sdiskio := {
  io_read_bytes : Z; io_write_bytes : Z; io_read_count : Z; io_write_count : Z }.
Record snetio := {
  io_bytes_sent : Z; io_bytes_recv : Z; io_packets_sent : Z; io_packets_recv : Z }.

(** The answers of psutil and of the ping subprocess during one tick. *)
Record reading := {
  os_now : string;                          (* datetime.now().strftime(...) *)
  os_cpu_percent : Q;                       (* cpu_percent(interval=None) *)
  os_cpu_count : option Z;                  (* cpu_count(), None if undetermined *)
  os_per_cpu : list Q;                      (* cpu_percent(interval=None, percpu=True) *)
  os_procs_cpu : list proc;                 (* process_iter(['pid','name','cpu_percent']) *)
  os_virtual_memory : res svmem;            (* virtual_memory() *)
  os_procs_mem : list proc;                 (* process_iter(['pid','name','memory_info']) *)
  os_disk_io : res (option sdiskio);        (* disk_io_counters(), None without disks *)
  os_per_disk : res (list (string * sdiskio)); (* disk_io_counters(perdisk=True) *)
  os_net_io : res snetio;                   (* net_io_counters() *)
  os_ping : run_result }.                   (* subprocess.run(['ping', ...]) *)

(** ** [get_cpu_stats] *)

(** The sort key [p.info.get('cpu_percent', 0)]: [None] is Python's None. *)
Definition cpu_key (p : proc) : option Q :=
  match info_cpu_percent p with
  | Missing => Some 0%Q
  | IsNone => None
  | Has q => Some q
  end.

Definition key_ltb (a b : option Q) : bool :=
  match a, b with
  | Some x, Some y => negb (Qle_bool y x)
  | _, _ => false
  end.

Definition is_none {A} (o : option A) : bool :=
  match o with None => true | Some _ => false end.

(** [sorted] compares every item of a list of two or more with another
    one, and comparing [None] with anything raises [TypeError]. *)
Definition sorted_by_cpu (l : list proc) : res (list proc) :=
  if (2 <=? length l)%nat && existsb (fun p => is_none (cpu_key p)) l
  then Raise (TypeError "'<' not supported between instances of 'NoneType' and 'float'")
  else Ok (sorted_desc (fun a b => key_ltb (cpu_key a) (cpu_key b)) l).

Record cpu_entry := {
  ce_pid : scalar;
  ce_name : scalar;
  ce_cpu_percent : scalar }.

Definition cpu_entry_of (p : proc) : cpu_entry :=
  {| ce_pid := slot_get (info_pid p) SInt (SStr "N/A");
     ce_name := slot_get (info_name p) SStr (SStr "N/A");
     ce_cpu_percent := slot_get (info_cpu_percent p) SFloat (SFloat 0) |}.

Record cpu_stats := {
  cpu_percent : Q;
  cpu_count : option Z;
  per_cpu : list Q;
  cpu_top_processes : list cpu_entry }.

Definition get_cpu_stats (PROCESS_COUNT : Z) (r : reading) : M cpu_stats :=
  let* cpu_percent := call (CpuPercent None false) (Ok (os_cpu_percent r)) in
  let* cpu_count := call (Psutil "cpu_count") (Ok (os_cpu_count r)) in
  let* procs := call (Psutil "process_iter") (Ok (os_procs_cpu r)) in
  let* ranked := lift (sorted_by_cpu procs) in
  let top_procs := map cpu_entry_of (py_take PROCESS_COUNT ranked) in
  let* per_cpu := call (CpuPercent None true) (Ok (os_per_cpu r)) in
  ret {| cpu_percent := cpu_percent;
         cpu_count := cpu_count;
         per_cpu := per_cpu;
         cpu_top_processes := top_procs |}.

(** ** [get_memory_stats] *)

(** The sort key [p.info['memory_info'].rss if p.info.get('memory_info')
    else 0]; a [pmem] tuple is always truthy. *)
Definition mem_key (p : proc) : Z :=
  match info_memory_info p with
  | Has m => rss m
  | _ => 0
  end.

Record mem_entry := {
  me_pid : scalar;
  me_name : scalar;
  me_rss_mb : Q;
  me_vms_mb : Q;
  me_percent : Q }.

(** The body of the [for] loop: only a process with [memory_info] is
    appended. *)
Fixpoint mem_entries (total : Z) (ranked : list proc) : res (list mem_entry) :=
  match ranked with
  | [] => Ok []
  | p :: rest =>
      match info_memory_info p with
      | Has m =>
          res_bind (slot_item "pid" (info_pid p) SInt) (fun pid =>
          res_bind (slot_item "name" (info_name p) SStr) (fun name =>
          res_bind (py_div (rss m) total) (fun share =>
          res_bind (mem_entries total rest) (fun more =>
          Ok ({| me_pid := pid; me_name := name;
                 me_rss_mb := to_mb (rss m); me_vms_mb := to_mb (vms m);
                 me_percent := round2 (share * 100) |} :: more)))))
      | _ => mem_entries total rest
      end
  end.

Record mem_stats := {
  total_gb : Q;
  used_gb : Q;
  available_gb : Q;
  mem_percent : Q;
  mem_top_processes : list mem_entry }.

Definition get_memory_stats (PROCESS_COUNT : Z) (r : reading) : M mem_stats :=
  let* mem := call (Psutil "virtual_memory") (os_virtual_memory r) in
  let* procs := call (Psutil "process_iter") (Ok (os_procs_mem r)) in
  let ranked := sorted_desc (fun a b => mem_key a <? mem_key b) procs in
  let* top_procs := lift (mem_entries (vm_total mem) (py_take PROCESS_COUNT ranked)) in
  ret {| total_gb := to_gb (vm_total mem);
         used_gb := to_gb (vm_used mem);
         available_gb := to_gb (vm_available mem);
         mem_percent := vm_percent mem;
         mem_top_processes := top_procs |}.

(** ** Text of numbers and case mapping *)

(** [str(z)] for an int. *)
Definition str_int (z : Z) : string := NilZero.string_of_int (Z.to_int z).

Definition digit_char (d : Z) : ascii := ascii_of_nat (48 + Z.to_nat d).

(** The digits after the decimal point, until the expansion ends. *)
Fixpoint frac_digits (fuel : nat) (num den : Z) : string :=
  match fuel with
  | O => EmptyString
  | S fuel' =>
      let d := (num * 10) / den in
      let rest := (num * 10) mod den in
      String (digit_char d)
             (if rest =? 0 then EmptyString else frac_digits fuel' rest den)
  end.

(** [repr(x)] for a float with a short decimal expansion, such as the
    results of [round(x, 2)]: sign, integer part, point, fraction. *)
Definition float_repr (q : Q) : string :=
  let n := Qnum q in
  let d := Zpos (Qden q) in
  (if n <? 0 then "-" else "") +:+ str_int (Z.abs n / d) +:+ "."
  +:+ frac_digits 17 (Z.abs n mod d) d.

(** [str(v)], as an f-string field renders it. *)
Definition py_str (v : scalar) : string :=
  match v with
  | SNone => "None"
  | SInt z => str_int z
  | SFloat q => float_repr q
  | SStr s => s
  end.

Definition map_string (f : ascii -> ascii) : string -> string :=
  fix go (s : string) : string :=
    match s with
    | EmptyString => EmptyString
    | String c s' => String (f c) (go s')
    end.

(** [str.lower] on code points below 256. *)
Definition lower_char (c : ascii) : ascii :=
  let n := nat_of_ascii c in
  if ((65 <=? n)%nat && (n <=? 90)%nat)
     || ((192 <=? n)%nat && (n <=? 222)%nat && negb (n =? 215)%nat)
  then ascii_of_nat (n + 32) else c.
Definition py_lower : string -> string := map_string lower_char.

(** [str.upper] on ASCII text. *)
Definition upper_char (c : ascii) : ascii :=
  let n := nat_of_ascii c in
  if (97 <=? n)%nat && (n <=? 122)%nat then ascii_of_nat (n - 32) else c.
Definition py_upper : string -> string := map_string upper_char.

(** ["-" * n]. *)
Fixpoint dashes (n : nat) : string :=
  match n with
  | O => EmptyString
  | S n' => String "-"%char (dashes n')
  end.

(** ** [get_disk_io] and [get_network_stats] *)

Record disk_entry := {
  de_read_mb : Q; de_write_mb : Q; de_read_count : Z; de_write_count : Z }.

Record disk_stats := {
  read_mb : Q;
  write_mb : Q;
  read_count : Z;
  write_count : Z;
  per_disk_io : list (string * disk_entry) }.

Definition disk_entry_of (io : sdiskio) : disk_entry :=
  {| de_read_mb := to_mb (io_read_bytes io);
     de_write_mb := to_mb (io_write_bytes io);
     de_read_count := io_read_count io;
     de_write_count := io_write_count io |}.

Definition get_disk_io (r : reading) : M disk_stats :=
  let* disk_io := call (Psutil "disk_io_counters") (os_disk_io r) in
  let* per_disk_io :=
    try_except
      (let* per_disk_counters :=
         call (Psutil "disk_io_counters(perdisk=True)") (os_per_disk r) in
       ret (map (fun '(disk, io) => (disk, disk_entry_of io)) per_disk_counters))
      (fun _ => ret []) in
  match disk_io with
  | None =>
      lift (Raise (AttributeError "'NoneType' object has no attribute 'read_bytes'"))
  | Some io =>
      ret {| read_mb := to_mb (io_read_bytes io);
             write_mb := to_mb (io_write_bytes io);
             read_count := io_read_count io;
             write_count := io_write_count io;
             per_disk_io := per_disk_io |}
  end.

Record net_stats := {
  sent_mb : Q;
  recv_mb : Q;
  packets_sent : Z;
  packets_recv : Z }.

Definition get_network_stats (r : reading) : M net_stats :=
  let* net_io := call (Psutil "net_io_counters") (os_net_io r) in
  ret {| sent_mb := to_mb (io_bytes_sent net_io);
         recv_mb := to_mb (io_bytes_recv net_io);
         packets_sent := io_packets_sent net_io;
         packets_recv := io_packets_recv net_io |}.

(** ** The main loop *)

(** The environment the script reads, with the integers already parsed. *)
Record config := {
  LOG_DIR : string;
  MONITOR_MODE : string;
  MONITOR_INTERVAL : Z;
  PING_HOST : string;
  CONSOLE_OUTPUT : string;
  PROCESS_COUNT : Z;
  LOG_FORMAT : string }.

Definition default_config : config :=
  {| LOG_DIR := "/var/log/monitor";
     MONITOR_MODE := "container"; MONITOR_INTERVAL := 5; PING_HOST := "8.8.8.8";
     CONSOLE_OUTPUT := "true"; PROCESS_COUNT := 5; LOG_FORMAT := "both" |}.

(** A configuration whose LOG_FORMAT names no known format. *)
Definition json_config : config :=
  {| LOG_DIR := "/var/log/monitor";
     MONITOR_MODE := "host"; MONITOR_INTERVAL := 5; PING_HOST := "8.8.8.8";
     CONSOLE_OUTPUT := "true"; PROCESS_COUNT := 5; LOG_FORMAT := "JSON" |}.

(** [os.getenv('CONSOLE_OUTPUT', 'true').lower() == 'true']. *)
Definition console_output (cfg : config) : bool :=
  String.eqb (py_lower (CONSOLE_OUTPUT cfg)) "true".

Definition log_info (logger : string) (m : message) : M unit :=
  emit (LogRecord logger "INFO" m).
Definition log_error (logger : string) (m : message) : M unit :=
  emit (LogRecord logger "ERROR" m).

Definition opt_int (o : option Z) : scalar :=
  match o with
  | Some z => SInt z
  | None => SNone
  end.

Definition cpu_entry_dict (e : cpu_entry) : pyval :=
  PDict [("pid", of_scalar (ce_pid e)); ("name", of_scalar (ce_name e));
         ("cpu_percent", of_scalar (ce_cpu_percent e))].

Definition mem_entry_dict (e : mem_entry) : pyval :=
  PDict [("pid", of_scalar (me_pid e)); ("name", of_scalar (me_name e));
         ("rss_mb", PFloat (me_rss_mb e)); ("vms_mb", PFloat (me_vms_mb e));
         ("percent", PFloat (me_percent e))].

Definition disk_entry_dict (e : disk_entry) : pyval :=
  PDict [("read_mb", PFloat (de_read_mb e)); ("write_mb", PFloat (de_write_mb e));
         ("read_count", PInt (de_read_count e)); ("write_count", PInt (de_write_count e))].

(** The dicts handed to the category loggers. *)
Definition cpu_record (cpu : cpu_stats) : message :=
  MDict [("cpu_percent", PFloat (cpu_percent cpu));
         ("cpu_count", of_scalar (opt_int (cpu_count cpu)));
         ("per_cpu", PList (map PFloat (per_cpu cpu)));
         ("top_processes", PList (map cpu_entry_dict (cpu_top_processes cpu)))].

Definition memory_record (mem : mem_stats) : message :=
  MDict [("total_gb", PFloat (total_gb mem)); ("used_gb", PFloat (used_gb mem));
         ("available_gb", PFloat (available_gb mem));
         ("percent", PFloat (mem_percent mem));
         ("top_processes", PList (map mem_entry_dict (mem_top_processes mem)))].

Definition disk_record (disk : disk_stats) : message :=
  MDict [("read_mb", PFloat (read_mb disk)); ("write_mb", PFloat (write_mb disk));
         ("read_count", PInt (read_count disk)); ("write_count", PInt (write_count disk));
         ("per_disk_io",
          PDict (map (fun '(d, e) => (d, disk_entry_dict e)) (per_disk_io disk)))].

Definition network_record (ping_host : string) (net : net_stats) (ping : ping_dict)
  : message :=
  MDict [("sent_mb", PFloat (sent_mb net)); ("recv_mb", PFloat (recv_mb net));
         ("packets_sent", PInt (packets_sent net));
         ("packets_recv", PInt (packets_recv net));
         ("ping_status", PStr (ping_status ping));
         ("ping_latency",
          PStr (match ping_latency_ms ping with Some t => t | None => "N/A" end));
         ("ping_host", PStr ping_host)].

(** The summary lines. *)
Definition cpu_summary (n : Z) (cpu : cpu_stats) (top : cpu_entry) : string :=
  "CPU Usage: " +:+ float_repr (cpu_percent cpu) +:+ "% | Cores: "
  +:+ py_str (opt_int (cpu_count cpu)) +:+ " | Top " +:+ str_int n +:+ ": "
  +:+ py_str (ce_name top) +:+ " (" +:+ py_str (ce_cpu_percent top) +:+ "%)".

Definition mem_summary (n : Z) (mem : mem_stats) (top : mem_entry) : string :=
  "Memory: " +:+ float_repr (used_gb mem) +:+ "/" +:+ float_repr (total_gb mem)
  +:+ " GB | " +:+ float_repr (mem_percent mem) +:+ "% | Available: "
  +:+ float_repr (available_gb mem) +:+ " GB | Top " +:+ str_int n +:+ ": "
  +:+ py_str (me_name top) +:+ " (" +:+ float_repr (me_percent top) +:+ "%)".

Definition disk_summary (disk : disk_stats) : string :=
  "Disk I/O: Read " +:+ float_repr (read_mb disk) +:+ " MB ("
  +:+ str_int (read_count disk) +:+ " ops) | Write " +:+ float_repr (write_mb disk)
  +:+ " MB (" +:+ str_int (write_count disk) +:+ " ops)".

Definition net_summary (net : net_stats) : string :=
  "Network: Sent " +:+ float_repr (sent_mb net) +:+ " MB ("
  +:+ str_int (packets_sent net) +:+ " pkts) | Recv " +:+ float_repr (recv_mb net)
  +:+ " MB (" +:+ str_int (packets_recv net) +:+ " pkts)".

Definition ping_summary (ping : ping_dict) : string :=
  "Ping to " +:+ ping_host ping +:+ ": "
  +:+ match ping_latency_ms ping with Some t => t | None => ping_status ping end
  +:+ " ms - " +:+ py_upper (ping_status ping).

Definition stamped (timestamp line : string) : string :=
  "[" +:+ timestamp +:+ "] " +:+ line.

(** The body of the [try] in the loop of [main]. *)
Definition tick_try (cfg : config) (r : reading) : M unit :=
  let timestamp := os_now r in
  let* cpu := get_cpu_stats (PROCESS_COUNT cfg) r in
  let* mem := get_memory_stats (PROCESS_COUNT cfg) r in
  let* disk := get_disk_io r in
  let* net := get_network_stats r in
  let* ping := call (RunPing ["ping"; "-c"; "1"; "-W"; "1"; PING_HOST cfg] 2)
                    (Ok (ping_network (PING_HOST cfg) (os_ping r))) in
  perform log_info "cpu" (cpu_record cpu) in
  perform log_info "memory" (memory_record mem) in
  perform log_info "disk" (disk_record disk) in
  perform log_info "network" (network_record (PING_HOST cfg) net ping) in
  let* cpu_top := lift (py_index (cpu_top_processes cpu) 0) in
  let cpu_line := cpu_summary (PROCESS_COUNT cfg) cpu cpu_top in
  let* mem_top := lift (py_index (mem_top_processes mem) 0) in
  let mem_line := mem_summary (PROCESS_COUNT cfg) mem mem_top in
  let disk_line := disk_summary disk in
  let net_line := net_summary net in
  let ping_line := ping_summary ping in
  perform log_info "main" (MStr cpu_line) in
  perform log_info "main" (MStr mem_line) in
  perform log_info "main" (MStr disk_line) in
  perform log_info "main" (MStr net_line) in
  perform log_info "main" (MStr ping_line) in
  if console_output cfg then
    perform emit (Print (stamped timestamp cpu_line)) in
    perform emit (Print (stamped timestamp mem_line)) in
    perform emit (Print (stamped timestamp disk_line)) in
    perform emit (Print (stamped timestamp net_line)) in
    perform emit (Print (stamped timestamp ping_line)) in
    emit (Print (dashes 80))
  else ret tt.

(** The handler of the loop: [except Exception as e]. *)
Definition tick_except (e : exn) : M unit :=
  let error_msg := "Error in monitoring loop: " +:+ exn_str e in
  perform log_error "main" (MStr error_msg) in
  emit (Print ("ERROR: " +:+ error_msg)).

(** [time.sleep(secs)] for an int.  The length is first turned into a
    clock value, a signed 64-bit count of nanoseconds: a number of seconds
    beyond [sleep_limit] on either side raises [OverflowError].  A negative
    length then raises [ValueError]. *)
Definition sleep_limit : Z := 9223372036.

Definition sleep_error (secs : Z) : exn :=
  if (secs <? - sleep_limit) || (sleep_limit <? secs)
  then OverflowError "timestamp too large to convert to C _PyTime_t"
  else ValueError "sleep length must be non-negative".

Definition sleep_returns (secs : Z) : bool := (0 <=? secs) && (secs <=? sleep_limit).

Definition time_sleep (secs : Z) : M unit :=
  call (Sleep secs)
       (if sleep_returns secs then Ok tt else Raise (sleep_error secs)).

(** One pass through the body of [while True]: the [try] with its handler,
    then [time.sleep(interval)], which no handler covers. *)
Definition tick (cfg : config) (r : reading) : M unit :=
  perform try_except (tick_try cfg r) tick_except in
  time_sleep (MONITOR_INTERVAL cfg).

(** [while True] over the readings of the ticks observed so far. *)
Fixpoint loop (cfg : config) (rs : list reading) : M unit :=
  match rs with
  | [] => ret tt
  | r :: rs' => perform tick cfg r in loop cfg rs'
  end.

Definition log_format (cfg : config) : string := py_lower (LOG_FORMAT cfg).

Definition enabled_word (b : bool) : string := if b then "ENABLED" else "DISABLED".

Definition string_in (x : string) (l : list string) : bool :=
  existsb (String.eqb x) l.

(** [main], up to the ticks in [rs]. *)
Definition main (cfg : config) (rs : list reading) : M unit :=
  let mode := MONITOR_MODE cfg in
  perform call (CpuPercent None true) (Ok tt) in
  perform call (Psutil "disk_io_counters") (Ok tt) in
  perform emit (SetupLogging mode) in
  perform log_info "main" (MStr ("Starting monitor in " +:+ mode +:+ " mode")) in
  perform log_info "main"
    (MStr ("Logging Format Set To: " +:+ py_upper (log_format cfg))) in
  perform log_info "main"
    (MStr ("CSV Logging: "
           +:+ enabled_word (string_in (log_format cfg) ["csv"; "both"]))) in
  perform log_info "main"
    (MStr ("Flat Logging: "
           +:+ enabled_word (string_in (log_format cfg) ["log"; "both"]))) in
  perform log_info "main" (MStr (dashes 80)) in
  perform emit (Print ("Starting monitor in " +:+ mode +:+ " mode")) in
  perform emit (Print ("Logging Format Set To: " +:+ py_upper (log_format cfg))) in
  perform emit (Print (dashes 80)) in
  loop cfg rs.

(** ** [setup_logging] *)

(** A [RotatingFileHandler(filename, maxBytes=..., backupCount=...)]. *)
Record rotating := {
  filename : string;
  maxBytes : Z;
  backupCount : nat }.

Inductive handler :=
| FlatHandler (file : rotating) (fmt : string)          (* logging.Formatter(fmt) *)
| CsvHandler (file : rotating) (fields : list string)   (* CSVFormatter(fields) *)
| ConsoleHandler (fmt : string).                        (* logging.StreamHandler() *)

Definition is_file_handler (h : handler) : bool :=
  match h with
  | ConsoleHandler _ => false
  | _ => true
  end.

Definition log_fields : list (string * list string) :=
  [ ("main", ["timestamp"; "level"; "message"]);
    ("cpu", ["timestamp"; "level"; "cpu_percent"; "cpu_count"; "per_cpu"; "top_processes"]);
    ("memory", ["timestamp"; "level"; "total_gb"; "used_gb"; "available_gb"; "percent";
                "top_processes"]);
    ("disk", ["timestamp"; "level"; "read_mb"; "write_mb"; "read_count"; "write_count";
              "per_disk_io"]);
    ("network", ["timestamp"; "level"; "sent_mb"; "recv_mb"; "packets_sent";
                 "packets_recv"; "ping_status"; "ping_latency"; "ping_host"]) ].

(** [f'{LOG_DIR}/{name}-{mode}.ext']. *)
Definition log_path (cfg : config) (name ext : string) : string :=
  LOG_DIR cfg +:+ "/" +:+ name +:+ "-" +:+ MONITOR_MODE cfg +:+ ext.

Definition rotating_file (path : string) : rotating :=
  {| filename := path; maxBytes := 10 * 1024 * 1024; backupCount := 5 |}.

(** The handlers [setup_logging] adds to the logger [name]. *)
Definition handlers_for (cfg : config) (name : string) (fields : list string)
  : list handler :=
  let should_log := string_in (log_format cfg) ["log"; "both"] in
  let should_csv := string_in (log_format cfg) ["csv"; "both"] in
  (if should_log
   then [FlatHandler (rotating_file (log_path cfg name ".log"))
           (if String.eqb name "main"
            then "%(asctime)s - %(levelname)s - %(message)s"
            else "%(asctime)s - %(message)s")]
   else [])
  ++ (if should_csv && negb (String.eqb name "main")
      then [CsvHandler (rotating_file (log_path cfg name ".csv")) fields]
      else [])
  ++ (if String.eqb name "main" && console_output cfg
      then [ConsoleHandler "%(asctime)s - %(name)s - %(message)s"]
      else []).

(** The dict of loggers [setup_logging] returns, each with its handlers. *)
Definition setup_logging (cfg : config) : list (string * list handler) :=
  map (fun '(name, fields) => (name, handlers_for cfg name fields)) log_fields.

(** ** Rotating files: [RotatingFileHandler] of the standard library *)

(** The handlers open their files in text mode with no [encoding]
    argument, which is UTF-8 on the systems the monitor runs on: a code
    point below 128 is written as one byte, one from 128 to 255 as two. *)
Definition utf8_bytes (c : ascii) : Z :=
  match c with
  | Ascii _ _ _ _ _ _ _ b7 => if b7 then 2 else 1
  end.

Fixpoint utf8_length (s : string) : Z :=
  match s with
  | EmptyString => 0
  | String c s' => utf8_bytes c + utf8_length s'
  end.

(** The files of one handler, by generation: generation 0 is
    [baseFilename], generation [i] is [baseFilename.i].  A file is the list
    of the texts written to it, oldest first; each write is followed by a
    newline.  [file_size] is the size of the file in bytes, which is what
    [stream.tell()] returns at the end of the file. *)
Definition file_size (f : list string) : Z :=
  fold_right (fun text acc => utf8_length text + 1 + acc) 0 f.

Definition active (fs : gmap nat (list string)) : list string :=
  match fs !! 0%nat with
  | Some f => f
  | None => []
  end.

(** One pass of the loop of [doRollover]: if [base.i] exists, remove
    [base.(i+1)] and rename [base.i] to it. *)
Definition shift_step (i : nat) (fs : gmap nat (list string)) : gmap nat (list string) :=
  match fs !! i with
  | Some f => <[S i := f]> (delete i (delete (S i) fs))
  | None => fs
  end.

(** [for i in range(k, 0, -1)]. *)
Fixpoint shift_from (k : nat) (fs : gmap nat (list string)) : gmap nat (list string) :=
  match k with
  | O => fs
  | S k' => shift_from k' (shift_step (S k') fs)
  end.

(** Opening a file for appending creates it when it is not there. *)
Definition open_append (fs : gmap nat (list string)) : gmap nat (list string) :=
  match fs !! 0%nat with
  | Some _ => fs
  | None => <[0%nat := []]> fs
  end.

Definition doRollover (h : rotating) (fs : gmap nat (list string))
  : gmap nat (list string) :=
  open_append
    (if (0 <? backupCount h)%nat then
       let fs1 := delete 1%nat (shift_from (backupCount h - 1) fs) in
       match fs1 !! 0%nat with
       | Some f => <[1%nat := f]> (delete 0%nat fs1)
       | None => fs1
       end
     else fs).

(** [stream.tell() + len(msg + "\n") >= maxBytes], for [maxBytes > 0]: the
    position in the file is in bytes, the length of the record in
    characters. *)
Definition shouldRollover (h : rotating) (fs : gmap nat (list string)) (msg : string)
  : bool :=
  (0 <? maxBytes h)
  && (maxBytes h <=? file_size (active fs) + (Z.of_nat (String.length msg) + 1)).

(** [emit]: roll over if the record would reach the limit, then write it. *)
Definition emit_file (h : rotating) (fs : gmap nat (list string)) (msg : string)
  : gmap nat (list string) :=
  let fs1 := if shouldRollover h fs msg then doRollover h fs else fs in
  <[0%nat := active fs1 ++ [msg]]> fs1.

(** The CSV branch of [setup_logging] for one category: the handler opens
    the file for appending, then the header is written when the file is
    empty ([not os.path.exists(...)] cannot hold any more). *)
Definition csv_header (fields : list string) : string := String.concat "," fields.

Definition open_csv_file (fields : list string) (fs : gmap nat (list string))
  : gmap nat (list string) :=
  let fs1 := open_append fs in
  if negb (bool_decide (is_Some (fs1 !! 0%nat))) || (file_size (active fs1) =? 0)
  then <[0%nat := [csv_header fields]]> fs1
  else fs1.

(** No generation beyond [n] exists. *)
Definition bounded (n : nat) (fs : gmap nat (list string)) : Prop :=
  map_Forall (fun k _ => (k <= n)%nat) fs.

(** [n] rollovers in a row. *)
Definition rollovers (h : rotating) (n : nat) (fs : gmap nat (list string))
  : gmap nat (list string) :=
  Nat.iter n (doRollover h) fs.

(** The first text of the active file. *)
Definition first_line (fs : gmap nat (list string)) : option string :=
  head (active fs).

(** A CSV file of the CPU category that is a few bytes short of 10 MiB. *)
Definition cpu_fields : list string :=
  ["timestamp"; "level"; "cpu_percent"; "cpu_count"; "per_cpu"; "top_processes"].

Definition a_row : string := "2024-05-01 12:00:00,INFO,12.5,4,[],[]".

Definition nearly_full : gmap nat (list string) :=
  {[ 0%nat := csv_header cpu_fields :: repeat a_row (Z.to_nat 275939) ]}.

(** ** JSON and CSV text *)

Definition dquote : ascii := ascii_of_nat 34.
Definition backslash : ascii := ascii_of_nat 92.
Definition comma : ascii := ascii_of_nat 44.
Definition cr : ascii := ascii_of_nat 13.
Definition lf : ascii := ascii_of_nat 10.

Definition hex_digit (n : nat) : ascii :=
  if (n <? 10)%nat then ascii_of_nat (48 + n) else ascii_of_nat (87 + n).

(** One character inside a JSON string, with [ensure_ascii]. *)
Definition json_escape_char (c : ascii) : string :=
  let n := nat_of_ascii c in
  if (n =? 34)%nat then String backslash (String dquote EmptyString)
  else if (n =? 92)%nat then String backslash (String backslash EmptyString)
  else if (n =? 10)%nat then String backslash "n"
  else if (n =? 13)%nat then String backslash "r"
  else if (n =? 9)%nat then String backslash "t"
  else if (n =? 8)%nat then String backslash "b"
  else if (n =? 12)%nat then String backslash "f"
  else if (n <? 32)%nat || (126 <? n)%nat
       then String backslash ("u00" +:+ String (hex_digit (n / 16))
                                       (String (hex_digit (n mod 16)) EmptyString))
  else String c EmptyString.

Fixpoint json_escape (s : string) : string :=
  match s with
  | EmptyString => EmptyString
  | String c s' => json_escape_char c +:+ json_escape s'
  end.

Definition json_string (s : string) : string :=
  String dquote (json_escape s +:+ String dquote EmptyString).

(** [json.dumps(v)] with the default separators. *)
Fixpoint json_dumps (v : pyval) : string :=
  match v with
  | PNone => "null"
  | PInt z => str_int z
  | PFloat q => float_repr q
  | PStr s => json_string s
  | PList l =>
      "[" +:+ (fix items (l : list pyval) : string :=
                 match l with
                 | [] => EmptyString
                 | [x] => json_dumps x
                 | x :: rest => json_dumps x +:+ ", " +:+ items rest
                 end) l +:+ "]"
  | PDict d =>
      "{" +:+ (fix items (d : list (string * pyval)) : string :=
                 match d with
                 | [] => EmptyString
                 | [(k, x)] => json_string k +:+ ": " +:+ json_dumps x
                 | (k, x) :: rest =>
                     json_string k +:+ ": " +:+ json_dumps x +:+ ", " +:+ items rest
                 end) d +:+ "}"
  end.

(** [s.strip()]. *)
Fixpoint py_lstrip (s : string) : string :=
  match s with
  | EmptyString => EmptyString
  | String c s' => if is_space c then py_lstrip s' else s
  end.

Fixpoint py_rstrip (s : string) : string :=
  match s with
  | EmptyString => EmptyString
  | String c s' =>
      match py_rstrip s' with
      | EmptyString => if is_space c then EmptyString else String c EmptyString
      | r => String c r
      end
  end.

Definition py_strip (s : string) : string := py_rstrip (py_lstrip s).

(** What [csv.writer] writes for one field: [None] is empty, a number is
    its [str], a string is itself. *)
Definition csv_field_text (v : scalar) : string :=
  match v with
  | SNone => EmptyString
  | SInt z => str_int z
  | SFloat q => float_repr q
  | SStr s => s
  end.

(** A character that makes [QUOTE_MINIMAL] quote the field: the delimiter,
    the quote character, or a character of the line terminator. *)
Definition csv_special (c : ascii) : bool :=
  Ascii.eqb c comma || Ascii.eqb c dquote || Ascii.eqb c cr || Ascii.eqb c lf.

Fixpoint needs_quotes (s : string) : bool :=
  match s with
  | EmptyString => false
  | String c s' => csv_special c || needs_quotes s'
  end.

(** The field with every quote character doubled. *)
Fixpoint double_quotes (s : string) : string :=
  match s with
  | EmptyString => EmptyString
  | String c s' =>
      if Ascii.eqb c dquote then String dquote (String dquote (double_quotes s'))
      else String c (double_quotes s')
  end.

Definition csv_quote (s : string) : string :=
  if needs_quotes s
  then String dquote (double_quotes s +:+ String dquote EmptyString)
  else s.

Fixpoint csv_join (cells : list string) : string :=
  match cells with
  | [] => EmptyString
  | [c] => csv_quote c
  | c :: rest => csv_quote c +:+ String comma (csv_join rest)
  end.

(** [writer.writerow(data)] into an empty [StringIO]: the joined fields and
    the line terminator.  A row of one empty field is written as a pair of
    quotes. *)
Definition csv_writerow (data : list scalar) : string :=
  match map csv_field_text data with
  | [EmptyString] => String dquote (String dquote EmptyString)
  | cells => csv_join cells
  end +:+ String cr (String lf EmptyString).

(** ** [CSVFormatter.format] *)

(** [d.get(k)] on a dict given by its items. *)
Fixpoint dict_get (d : list (string * pyval)) (k : string) : option pyval :=
  match d with
  | [] => None
  | (k', v) :: rest => if String.eqb k' k then Some v else dict_get rest k
  end.

(** The cell of a field: a list or dict as its JSON text, another value as
    it is, a missing key as ['N/A']. *)
Definition csv_cell (d : list (string * pyval)) (field : string) : scalar :=
  match dict_get d field with
  | None => SStr "N/A"
  | Some (PList l) => SStr (json_dumps (PList l))
  | Some (PDict m) => SStr (json_dumps (PDict m))
  | Some PNone => SNone
  | Some (PInt z) => SInt z
  | Some (PFloat q) => SFloat q
  | Some (PStr s) => SStr s
  end.

(** The list [data] that [format] hands to the writer.  [asctime] is the
    formatted [record.created]. *)
Definition csv_data (fields : list string) (asctime levelname : string) (m : message)
  : list scalar :=
  [SStr asctime; SStr levelname]
  ++ match m with
     | MDict d => map (csv_cell d) (skipn 2 fields)
     | MStr s => [SStr s]
     end.

Definition CSVFormatter_format (fields : list string) (asctime levelname : string)
  (m : message) : string :=
  py_strip (csv_writerow (csv_data fields asctime levelname m)).

(** ** Reading a CSV record back *)

Inductive reader_state := StartRecord | StartField | InField | InQuoted | QuoteInQuoted.

(** [csv.reader] with the default dialect on the text of one record:
    [cur] is the field being read. *)
Fixpoint csv_read (st : reader_state) (cur : string) (s : string) : list string :=
  match s with
  | EmptyString =>
      match st with
      | StartRecord => []
      | _ => [cur]
      end
  | String c s' =>
      match st with
      | StartRecord | StartField =>
          if Ascii.eqb c dquote then csv_read InQuoted EmptyString s'
          else if Ascii.eqb c comma then EmptyString :: csv_read StartField EmptyString s'
          else if Ascii.eqb c cr || Ascii.eqb c lf
               then match st with StartRecord => [] | _ => [EmptyString] end
          else csv_read InField (String c EmptyString) s'
      | InField =>
          if Ascii.eqb c comma then cur :: csv_read StartField EmptyString s'
          else if Ascii.eqb c cr || Ascii.eqb c lf then [cur]
          else csv_read InField (cur +:+ String c EmptyString) s'
      | InQuoted =>
          if Ascii.eqb c dquote then csv_read QuoteInQuoted cur s'
          else csv_read InQuoted (cur +:+ String c EmptyString) s'
      | QuoteInQuoted =>
          if Ascii.eqb c dquote then csv_read InQuoted (cur +:+ String dquote EmptyString) s'
          else if Ascii.eqb c comma then cur :: csv_read StartField EmptyString s'
          else if Ascii.eqb c cr || Ascii.eqb c lf then [cur]
          else csv_read InField (cur +:+ String c EmptyString) s'
      end
  end.

Definition csv_parse (s : string) : list string := csv_read StartRecord EmptyString s.

(** A text that [strip] leaves alone at its start, at its end. *)
Definition starts_clean (s : string) : bool :=
  match s with
  | EmptyString => false
  | String c _ => negb (is_space c)
  end.

Fixpoint ends_clean (s : string) : bool :=
  match s with
  | EmptyString => false
  | String c EmptyString => negb (is_space c)
  | String _ s' => ends_clean s'
  end.

(** ** Vocabulary of the ranking statements *)

(** The metric an entry of the CPU ranking carries, if it is a number. *)
Definition ce_metric (e : cpu_entry) : option Q :=
  match ce_cpu_percent e with
  | SFloat q => Some q
  | _ => None
  end.

(** [a] may stand before [b] in a ranking: the metric of [b] is not above
    the metric of [a]. *)
Definition cpu_order (a b : cpu_entry) : Prop :=
  key_ltb (ce_metric a) (ce_metric b) = false.

Definition mem_order (a b : mem_entry) : Prop :=
  (me_percent b <= me_percent a)%Q /\ (me_rss_mb b <= me_rss_mb a)%Q.

Definition has_mem (p : proc) : bool :=
  match info_memory_info p with
  | Has _ => true
  | _ => false
  end.

(** Entry [e] of the memory ranking reports process [p], whose
    [memory_info] was read. *)
Definition mem_entry_from (total : Z) (p : proc) (e : mem_entry) : Prop :=
  exists m, info_memory_info p = Has m
            /\ me_rss_mb e = to_mb (rss m)
            /\ me_vms_mb e = to_mb (vms m)
            /\ me_percent e = round2 (inject_Z (rss m) / inject_Z total * 100).

(** ** Sample readings, used by the examples *)

Definition a_proc (pid : Z) (name : string) (cpu : slot Q) (mem : slot pmem) : proc :=
  {| info_pid := Has pid; info_name := Has name;
     info_cpu_percent := cpu; info_memory_info := mem |}.

Definition sample_mem : svmem :=
  {| vm_total := 8 * GiB; vm_used := 3 * GiB; vm_available := 5 * GiB;
     vm_percent := 375 # 10 |}.

Definition sample_disk : sdiskio :=
  {| io_read_bytes := 5 * MiB; io_write_bytes := 7 * MiB;
     io_read_count := 120; io_write_count := 340 |}.

Definition sample_net : snetio :=
  {| io_bytes_sent := 3 * MiB; io_bytes_recv := 9 * MiB;
     io_packets_sent := 2100; io_packets_recv := 4800 |}.

Definition sample_reply : run_result :=
  Completed 0 ("64 bytes from 8.8.8.8: seq=0 ttl=117 time=12.3 ms" +:+ nl).

Definition sample_reading (procs : list proc) : reading :=
  {| os_now := "2024-05-01 12:00:00";
     os_cpu_percent := 125 # 10; os_cpu_count := Some 4;
     os_per_cpu := [10; 15; 5; 20]%Q;
     os_procs_cpu := procs;
     os_virtual_memory := Ok sample_mem;
     os_procs_mem := procs;
     os_disk_io := Ok (Some sample_disk);
     os_per_disk := Ok [("sda", sample_disk)];
     os_net_io := Ok sample_net;
     os_ping := sample_reply |}.

Definition two_procs : list proc :=
  [ a_proc 20 "P2" (Has 10%Q) (Has {| rss := 100 * MiB; vms := 300 * MiB |});
    a_proc 10 "P1" (Has 40%Q) (Has {| rss := 400 * MiB; vms := 900 * MiB |}) ].

(** ** Reading a trace *)

Definition is_log (e : event) : bool :=
  match e with LogRecord _ _ _ => true | _ => false end.

Definition is_print (e : event) : bool :=
  match e with Print _ => true | _ => false end.

Definition is_sleep (e : event) : bool :=
  match e with Sleep _ => true | _ => false end.

Definition is_cpu_percent (e : event) : bool :=
  match e with CpuPercent _ _ => true | _ => false end.

(** The records handed to the logger [name]. *)
Definition rows (name : string) (t : list event) : list message :=
  flat_map (fun e => match e with
                     | LogRecord l _ m => if String.eqb l name then [m] else []
                     | _ => []
                     end) t.

(** [psutil.cpu_percent] sleeps for [interval] seconds when [interval] is
    a positive number, and compares with the previous call otherwise. *)
Definition blocking_sample (e : event) : bool :=
  match e with
  | CpuPercent (Some t) _ => negb (Qle_bool t 0)
  | _ => false
  end.

(** A provider of the tick raises. *)
Definition provider_fails (cfg : config) (r : reading) : Prop :=
  (exists e, result (get_cpu_stats (PROCESS_COUNT cfg) r) = Raise e)
  \/ (exists e, result (get_memory_stats (PROCESS_COUNT cfg) r) = Raise e)
  \/ (exists e, result (get_disk_io r) = Raise e)
  \/ (exists e, result (get_network_stats r) = Raise e).

(** The report of the loop's handler for exception [e]. *)
Definition error_report (e : exn) : list event :=
  [ LogRecord "main" "ERROR" (MStr ("Error in monitoring loop: " +:+ exn_str e));
    Print ("ERROR: Error in monitoring loop: " +:+ exn_str e) ].

(** A reading in which [psutil.virtual_memory()] raises. *)
Definition memory_down (r : reading) : reading :=
  {| os_now := os_now r;
     os_cpu_percent := os_cpu_percent r; os_cpu_count := os_cpu_count r;
     os_per_cpu := os_per_cpu r; os_procs_cpu := os_procs_cpu r;
     os_virtual_memory := Raise (Exn "OSError" "cannot read /proc/meminfo");
     os_procs_mem := os_procs_mem r;
     os_disk_io := os_disk_io r; os_per_disk := os_per_disk r;
     os_net_io := os_net_io r; os_ping := os_ping r |}.

(** [str(l)] for a list of floats. *)
Definition float_list_repr (l : list Q) : string :=
  "[" +:+ String.concat ", " (map float_repr l) +:+ "]".

Definition log_warning (logger : string) (m : message) : M unit :=
  emit (LogRecord logger "WARNING" m).

(** ** The older copy of the script *)

Module Legacy.
(** [get_cpu_stats] of the single-format copy: two measurements of one
    second each. *)
Definition get_cpu_stats (r : reading) : M (Q * option Z * list Q) :=
  let* cpu_percent := call (CpuPercent (Some 1%Q) false) (Ok (os_cpu_percent r)) in
  let* cpu_count := call (Psutil "cpu_count") (Ok (os_cpu_count r)) in
  let* per_cpu := call (CpuPercent (Some 1%Q) true) (Ok (os_per_cpu r)) in
  ret (cpu_percent, cpu_count, per_cpu).

Record mem_stats := {
  total_gb : Q;
  used_gb : Q;
  available_gb : Q;
  percent : Q }.

Definition get_memory_stats (r : reading) : M mem_stats :=
  let* mem := call (Psutil "virtual_memory") (os_virtual_memory r) in
  ret {| total_gb := to_gb (vm_total mem);
         used_gb := to_gb (vm_used mem);
         available_gb := to_gb (vm_available mem);
         percent := vm_percent mem |}.

Record disk_stats := {
  read_mb : Q;
  write_mb : Q;
  read_count : Z;
  write_count : Z }.

Definition get_disk_io (r : reading) : M disk_stats :=
  let* disk_io := call (Psutil "disk_io_counters") (os_disk_io r) in
  match disk_io with
  | None =>
      lift (Raise (AttributeError "'NoneType' object has no attribute 'read_bytes'"))
  | Some io =>
      ret {| read_mb := to_mb (io_read_bytes io);
             write_mb := to_mb (io_write_bytes io);
             read_count := io_read_count io;
             write_count := io_write_count io |}
  end.

Definition get_network_stats (r : reading) : M net_stats :=
  let* net_io := call (Psutil "net_io_counters") (os_net_io r) in
  ret {| sent_mb := to_mb (io_bytes_sent net_io);
         recv_mb := to_mb (io_bytes_recv net_io);
         packets_sent := io_packets_sent net_io;
         packets_recv := io_packets_recv net_io |}.

(** [setup_logging]: five loggers, each with one rotating flat file; the
    main logger also gets the console handler when console output is on. *)
Definition setup_logging (cfg : config) : list (string * list handler) :=
  let log_dir := LOG_DIR cfg in
  let mode := MONITOR_MODE cfg in
  [ ("main",
     FlatHandler {| filename := log_dir +:+ "/monitor-" +:+ mode +:+ ".log";
                    maxBytes := 10 * 1024 * 1024; backupCount := 5 |}
                 "%(asctime)s - %(levelname)s - %(message)s"
     :: (if console_output cfg
         then [ConsoleHandler "%(asctime)s - %(name)s - %(message)s"]
         else []));
    ("cpu",
     [FlatHandler {| filename := log_dir +:+ "/cpu-" +:+ mode +:+ ".log";
                     maxBytes := 10 * 1024 * 1024; backupCount := 5 |}
                  "%(asctime)s - %(message)s"]);
    ("memory",
     [FlatHandler {| filename := log_dir +:+ "/memory-" +:+ mode +:+ ".log";
                     maxBytes := 10 * 1024 * 1024; backupCount := 5 |}
                  "%(asctime)s - %(message)s"]);
    ("disk",
     [FlatHandler {| filename := log_dir +:+ "/disk-" +:+ mode +:+ ".log";
                     maxBytes := 10 * 1024 * 1024; backupCount := 5 |}
                  "%(asctime)s - %(message)s"]);
    ("network",
     [FlatHandler {| filename := log_dir +:+ "/network-" +:+ mode +:+ ".log";
                     maxBytes := 10 * 1024 * 1024; backupCount := 5 |}
                  "%(asctime)s - %(message)s"]) ].

(** The messages of the loop. *)
Definition cpu_msg (cpu : Q * option Z * list Q) : string :=
  let '(percent, count, per_cpu) := cpu in
  "CPU Usage: " +:+ float_repr percent +:+ "% | Cores: " +:+ py_str (opt_int count)
  +:+ " | Per-Core: " +:+ float_list_repr per_cpu.

Definition mem_msg (mem : mem_stats) : string :=
  "Memory: " +:+ float_repr (used_gb mem) +:+ "/" +:+ float_repr (total_gb mem)
  +:+ " GB | " +:+ float_repr (percent mem) +:+ "% | Available: "
  +:+ float_repr (available_gb mem) +:+ " GB".

Definition disk_msg (disk : disk_stats) : string :=
  "Disk I/O: Read " +:+ float_repr (read_mb disk) +:+ " MB ("
  +:+ str_int (read_count disk) +:+ " ops) | Write " +:+ float_repr (write_mb disk)
  +:+ " MB (" +:+ str_int (write_count disk) +:+ " ops)".

Definition net_msg (net : net_stats) : string :=
  "Network: Sent " +:+ float_repr (sent_mb net) +:+ " MB ("
  +:+ str_int (packets_sent net) +:+ " pkts) | Recv " +:+ float_repr (recv_mb net)
  +:+ " MB (" +:+ str_int (packets_recv net) +:+ " pkts)".

(** The inner [try] of the loop, around the disk figures, and its handler. *)
Definition disk_try (cfg : config) (r : reading) : M unit :=
  let* disk := get_disk_io r in
  perform log_info "disk" (MStr (disk_msg disk)) in
  perform log_info "main" (MStr (disk_msg disk)) in
  if console_output cfg then emit (Print (stamped (os_now r) (disk_msg disk)))
  else ret tt.

Definition disk_except (e : exn) : M unit :=
  let error_msg := "Disk I/O: Error - " +:+ exn_str e in
  perform log_error "disk" (MStr error_msg) in
  log_error "main" (MStr error_msg).

(** The ping test of the loop: [ping] is the dict [ping_network] returned. *)
Definition ping_report (cfg : config) (r : reading) (ping : ping_dict) : M unit :=
  if String.eqb (ping_status ping) "success" then
    let* latency_ms :=
      lift (match ping_latency_ms ping with
            | Some t => Ok t
            | None => Raise (KeyError "latency_ms")
            end) in
    let ping_msg := "Ping to " +:+ ping_host ping +:+ ": " +:+ latency_ms
                    +:+ " ms - SUCCESS" in
    perform log_info "network" (MStr ping_msg) in
    perform log_info "main" (MStr ping_msg) in
    if console_output cfg then emit (Print (stamped (os_now r) ping_msg)) else ret tt
  else
    let ping_msg := "Ping to " +:+ ping_host ping +:+ ": " +:+ ping_status ping in
    perform log_warning "network" (MStr ping_msg) in
    perform log_warning "main" (MStr ping_msg) in
    if console_output cfg then emit (Print (stamped (os_now r) ping_msg)) else ret tt.

(** The body of the outer [try] of the loop. *)
Definition tick_try (cfg : config) (r : reading) : M unit :=
  let timestamp := os_now r in
  let* cpu := get_cpu_stats r in
  perform log_info "cpu" (MStr (cpu_msg cpu)) in
  perform log_info "main" (MStr (cpu_msg cpu)) in
  perform (if console_output cfg then emit (Print (stamped timestamp (cpu_msg cpu)))
           else ret tt) in
  let* mem := get_memory_stats r in
  perform log_info "memory" (MStr (mem_msg mem)) in
  perform log_info "main" (MStr (mem_msg mem)) in
  perform (if console_output cfg then emit (Print (stamped timestamp (mem_msg mem)))
           else ret tt) in
  perform try_except (disk_try cfg r) disk_except in
  let* net := get_network_stats r in
  perform log_info "network" (MStr (net_msg net)) in
  perform log_info "main" (MStr (net_msg net)) in
  perform (if console_output cfg then emit (Print (stamped timestamp (net_msg net)))
           else ret tt) in
  let* ping := call (RunPing ["ping"; "-c"; "1"; "-W"; "2"; PING_HOST cfg] 3)
                    (Ok (ping_network (PING_HOST cfg) (os_ping r))) in
  perform ping_report cfg r ping in
  if console_output cfg then emit (Print (dashes 60)) else ret tt.

Definition tick (cfg : config) (r : reading) : M unit :=
  perform try_except (tick_try cfg r) tick_except in
  time_sleep (MONITOR_INTERVAL cfg).

Fixpoint loop (cfg : config) (rs : list reading) : M unit :=
  match rs with
  | [] => ret tt
  | r :: rs' => perform tick cfg r in loop cfg rs'
  end.

(** [main], up to the ticks in [rs]. *)
Definition main (cfg : config) (rs : list reading) : M unit :=
  let mode := MONITOR_MODE cfg in
  perform emit (SetupLogging mode) in
  perform log_info "main" (MStr ("Starting monitor in " +:+ mode +:+ " mode")) in
  perform log_info "main"
    (MStr ("Monitoring interval: " +:+ str_int (MONITOR_INTERVAL cfg) +:+ " seconds")) in
  perform log_info "main" (MStr ("Ping target: " +:+ PING_HOST cfg)) in
  perform log_info "main" (MStr (dashes 60)) in
  perform emit (Print ("Starting monitor in " +:+ mode +:+ " mode")) in
  perform emit (Print ("Monitoring interval: " +:+ str_int (MONITOR_INTERVAL cfg)
                       +:+ " seconds")) in
  perform emit (Print ("Ping target: " +:+ PING_HOST cfg)) in
  perform emit (Print ("Logs directory: " +:+ LOG_DIR cfg)) in
  perform emit (Print (dashes 60)) in
  loop cfg rs.
End Legacy.

(** What a tick hands to the category loggers, and its summary. *)
Definition category_logs (cfg : config) (r : reading) (cpu : cpu_stats)
  (mem : mem_stats) (disk : disk_stats) (net : net_stats) : list event :=
  [ LogRecord "cpu" "INFO" (cpu_record cpu);
    LogRecord "memory" "INFO" (memory_record mem);
    LogRecord "disk" "INFO" (disk_record disk);
    LogRecord "network" "INFO"
      (network_record (PING_HOST cfg) net (ping_network (PING_HOST cfg) (os_ping r))) ].

Definition summary_lines (cfg : config) (r : reading) (cpu : cpu_stats)
  (mem : mem_stats) (disk : disk_stats) (net : net_stats)
  (cpu_top : cpu_entry) (mem_top : mem_entry) : list string :=
  [ cpu_summary (PROCESS_COUNT cfg) cpu cpu_top;
    mem_summary (PROCESS_COUNT cfg) mem mem_top;
    disk_summary disk;
    net_summary net;
    ping_summary (ping_network (PING_HOST cfg) (os_ping r)) ].

Definition summary_events (cfg : config) (r : reading) (lines : list string)
  : list event :=
  map (fun l => LogRecord "main" "INFO" (MStr l)) lines
  ++ (if console_output cfg
      then map (fun l => Print (stamped (os_now r) l)) lines ++ [Print (dashes 80)]
      else []).

(** The provider calls of a tick in which no provider raises. *)
Definition provider_calls (cfg : config) (r : reading) : list event :=
  trace (get_cpu_stats (PROCESS_COUNT cfg) r)
  ++ trace (get_memory_stats (PROCESS_COUNT cfg) r)
  ++ trace (get_disk_io r)
  ++ trace (get_network_stats r)
  ++ [RunPing ["ping"; "-c"; "1"; "-W"; "1"; PING_HOST cfg] 2].

(** An event that writes nothing and does not wait. *)
Definition quiet (e : event) : bool :=
  negb (is_log e || is_print e || is_sleep e || blocking_sample e).

(** The rows the specification describes for the cumulative counters: the
    totals since boot as read from the OS, converted to MB, and nothing
    else. *)
Definition disk_totals_dict (io : sdiskio) : pyval :=
  PDict [("read_mb", PFloat (to_mb (io_read_bytes io)));
         ("write_mb", PFloat (to_mb (io_write_bytes io)));
         ("read_count", PInt (io_read_count io));
         ("write_count", PInt (io_write_count io))].

Definition disk_totals_row (io : sdiskio) (per_disk : res (list (string * sdiskio)))
  : message :=
  MDict [("read_mb", PFloat (to_mb (io_read_bytes io)));
         ("write_mb", PFloat (to_mb (io_write_bytes io)));
         ("read_count", PInt (io_read_count io));
         ("write_count", PInt (io_write_count io));
         ("per_disk_io",
          PDict (match per_disk with
                 | Ok l => map (fun '(d, x) => (d, disk_totals_dict x)) l
                 | Raise _ => []
                 end))].

Definition network_totals_row (host : string) (io : snetio) (ping : ping_dict)
  : message :=
  MDict [("sent_mb", PFloat (to_mb (io_bytes_sent io)));
         ("recv_mb", PFloat (to_mb (io_bytes_recv io)));
         ("packets_sent", PInt (io_packets_sent io));
         ("packets_recv", PInt (io_packets_recv io));
         ("ping_status", PStr (ping_status ping));
         ("ping_latency",
          PStr (match ping_latency_ms ping with Some t => t | None => "N/A" end));
         ("ping_host", PStr host)].

(** [x] counts [bytes] in MB with two decimals: a multiple of 0.01 within
    0.005 of [bytes / 1024**2]. *)
Definition is_megabytes (bytes : Z) (x : Q) : Prop :=
  (exists k : Z, x = k # 100)
  /\ (inject_Z bytes / 1048576 - (1 # 200) <= x)%Q
  /\ (x <= inject_Z bytes / 1048576 + (1 # 200))%Q.

(** [v] is the dict of the totals [io] of one disk. *)
Definition holds_totals (io : sdiskio) (v : pyval) : Prop :=
  exists rd wr,
    v = PDict [("read_mb", PFloat rd); ("write_mb", PFloat wr);
               ("read_count", PInt (io_read_count io));
               ("write_count", PInt (io_write_count io))]
    /\ is_megabytes (io_read_bytes io) rd
    /\ is_megabytes (io_write_bytes io) wr.

(** [m] is the disk row of the totals [io] and of the per-disk totals. *)
Definition holds_disk_totals (io : sdiskio) (per_disk : res (list (string * sdiskio)))
  (m : message) : Prop :=
  exists rd wr per,
    m = MDict [("read_mb", PFloat rd); ("write_mb", PFloat wr);
               ("read_count", PInt (io_read_count io));
               ("write_count", PInt (io_write_count io));
               ("per_disk_io", PDict per)]
    /\ is_megabytes (io_read_bytes io) rd
    /\ is_megabytes (io_write_bytes io) wr
    /\ Forall2 (fun dx dv => fst dv = fst dx /\ holds_totals (snd dx) (snd dv))
               (match per_disk with Ok l => l | Raise _ => [] end) per.

(** [m] is the network row of the totals [io] and of the probe's answer. *)
Definition holds_network_totals (host : string) (io : snetio) (ping : ping_dict)
  (m : message) : Prop :=
  exists sent recv,
    m = MDict [("sent_mb", PFloat sent); ("recv_mb", PFloat recv);
               ("packets_sent", PInt (io_packets_sent io));
               ("packets_recv", PInt (io_packets_recv io));
               ("ping_status", PStr (ping_status ping));
               ("ping_latency",
                PStr (match ping_latency_ms ping with Some t => t | None => "N/A" end));
               ("ping_host", PStr host)]
    /\ is_megabytes (io_bytes_sent io) sent
    /\ is_megabytes (io_bytes_recv io) recv.

Definition writes (e : event) : bool := is_log e || is_print e.

(** The record of the CPU category for the sample reading. *)
Definition sample_cpu_record : list (string * pyval) :=
  [("cpu_percent", PFloat (125 # 10)); ("cpu_count", PInt 4);
   ("per_cpu", PList [PFloat 10; PFloat 15; PFloat 5; PFloat 20]);
   ("top_processes",
    PList [PDict [("pid", PInt 10); ("name", PStr "P1"); ("cpu_percent", PFloat 40)];
           PDict [("pid", PInt 20); ("name", PStr "P2"); ("cpu_percent", PFloat 10)]])].

(** The reader has not begun a field. *)
Definition fresh (st : reader_state) : Prop := st = StartRecord \/ st = StartField.

(** A text that ends the record: nothing, or a line terminator. *)
Definition line_end (rest : string) : bool :=
  match rest with
  | EmptyString => true
  | String c _ => Ascii.eqb c cr || Ascii.eqb c lf
  end.

(** The records handed to the logger [name], each with its level. *)
Definition logged (name : string) (t : list event) : list (string * message) :=
  flat_map (fun e => match e with
                     | LogRecord l lvl m => if String.eqb l name then [(lvl, m)] else []
                     | _ => []
                     end) t.

(** A reading in which [psutil.disk_io_counters()] finds no disk. *)
Definition diskless (r : reading) : reading :=
  {| os_now := os_now r;
     os_cpu_percent := os_cpu_percent r; os_cpu_count := os_cpu_count r;
     os_per_cpu := os_per_cpu r; os_procs_cpu := os_procs_cpu r;
     os_virtual_memory := os_virtual_memory r;
     os_procs_mem := os_procs_mem r;
     os_disk_io := Ok None; os_per_disk := Ok [];
     os_net_io := os_net_io r; os_ping := os_ping r |}.

(** A reading whose ping subprocess answers [run]. *)
Definition with_ping (run : run_result) (r : reading) : reading :=
  {| os_now := os_now r;
     os_cpu_percent := os_cpu_percent r; os_cpu_count := os_cpu_count r;
     os_per_cpu := os_per_cpu r; os_procs_cpu := os_procs_cpu r;
     os_virtual_memory := os_virtual_memory r;
     os_procs_mem := os_procs_mem r;
     os_disk_io := os_disk_io r; os_per_disk := os_per_disk r;
     os_net_io := os_net_io r; os_ping := run |}.

(** A configuration with the flat format only. *)
Definition flat_config : config :=
  {| LOG_DIR := "/var/log/monitor";
     MONITOR_MODE := "host"; MONITOR_INTERVAL := 5; PING_HOST := "8.8.8.8";
     CONSOLE_OUTPUT := "true"; PROCESS_COUNT := 5; LOG_FORMAT := "log" |}.

(** The configuration with CONSOLE_OUTPUT set to [s]. *)
Definition with_console (s : string) (cfg : config) : config :=
  {| LOG_DIR := LOG_DIR cfg;
     MONITOR_MODE := MONITOR_MODE cfg; MONITOR_INTERVAL := MONITOR_INTERVAL cfg;
     PING_HOST := PING_HOST cfg; CONSOLE_OUTPUT := s;
     PROCESS_COUNT := PROCESS_COUNT cfg; LOG_FORMAT := LOG_FORMAT cfg |}.

(** The line the handler of the loop logs for exception [e]. *)
Definition loop_error (e : exn) : string := "Error in monitoring loop: " +:+ exn_str e.

(** Two processes, the first with a CPU figure of [None]. *)
Definition unread_procs : list proc :=
  [ a_proc 7 "ghost" IsNone Missing; a_proc 1 "init" (Has (5 # 2)) Missing ].


(** The files a logger's handlers write to. *)
Definition handler_files (hs : list handler) : list string :=
  flat_map (fun h => match h with
                     | FlatHandler file _ => [filename file]
                     | CsvHandler file _ => [filename file]
                     | ConsoleHandler _ => []
                     end) hs.

Definition log_files (loggers : list (string * list handler)) : list string :=
  flat_map (fun '(_, hs) => handler_files hs) loggers.

Definition is_csv_handler (h : handler) : bool :=
  match h with CsvHandler _ _ => true | _ => false end.

Definition is_flat_handler (h : handler) : bool :=
  match h with FlatHandler _ _ => true | _ => false end.

(** Some logger has a handler of the kind [kind]. *)
Definition has_handler (kind : handler -> bool) (loggers : list (string * list handler))
  : bool :=
  existsb (fun '(_, hs) => existsb kind hs) loggers.

(** A text without a line break: no carriage return, no line feed. *)
Fixpoint no_break (s : string) : bool :=
  match s with
  | EmptyString => true
  | String c s' => negb (Ascii.eqb c cr || Ascii.eqb c lf) && no_break s'
  end.

(** A CPU record whose ranking holds a process name with a line break. *)
Definition odd_name_record : list (string * pyval) :=
  [("cpu_percent", PFloat (125 # 10)); ("cpu_count", PInt 4);
   ("per_cpu", PList [PFloat 10; PFloat 15]);
   ("top_processes",
    PList [PDict [("pid", PInt 10); ("name", PStr ("a" +:+ nl +:+ "b"));
                  ("cpu_percent", PFloat 40)]])].

(** The readings whose tick runs: [time.sleep] ends the loop in the first
    tick when it raises (the interval is negative, or too long for the
    clock). *)
Definition ticks_run (cfg : config) (rs : list reading) : list reading :=
  if sleep_returns (MONITOR_INTERVAL cfg) then rs else firstn 1 rs.

(** The calls of the ticks of [rs], one tick after the other. *)
Definition ticks (cfg : config) (rs : list reading) : list event :=
  flat_map (fun r => trace (tick cfg r)) rs.



(** [str.isascii]: every code point is below 128. *)
Fixpoint isascii (s : string) : bool :=
  match s with
  | EmptyString => true
  | String c s' => (N_of_ascii c <? 128)%N && isascii s'
  end.

(** A handler with a limit of eight bytes, and a record of two characters
    that take two bytes each. *)
Definition tiny_handler : rotating :=
  {| filename := "logs/tiny.log"; maxBytes := 8; backupCount := 5 |}.

Definition two_wide : string :=
  String (ascii_of_nat 233) (String (ascii_of_nat 233) EmptyString).

(** The memory ranking is in order of the resident size it reports. *)
Definition rss_order (a b : mem_entry) : Prop := (me_rss_mb b <= me_rss_mb a)%Q.

(** A tick in which the metrics of one process could not be read (psutil
    stores [None] for an attribute it may not read): the table of the CPU
    provider and the table of the memory provider, each with the keys that
    its [process_iter] call asks for. *)
Definition unread_reading : reading :=
  {| os_now := "2024-05-01 12:00:00";
     os_cpu_percent := 125 # 10; os_cpu_count := Some 4;
     os_per_cpu := [10; 15; 5; 20]%Q;
     os_procs_cpu :=
       [ a_proc 7 "ghost" IsNone Missing; a_proc 1 "init" (Has (5 # 2)) Missing ];
     os_virtual_memory := Ok sample_mem;
     os_procs_mem :=
       [ a_proc 7 "ghost" Missing IsNone;
         a_proc 1 "init" Missing (Has {| rss := 3 * MiB; vms := 9 * MiB |}) ];
     os_disk_io := Ok (Some sample_disk);
     os_per_disk := Ok [("sda", sample_disk)];
     os_net_io := Ok sample_net;
     os_ping := sample_reply |}.

(** The text that [line.split('time=')[1]] yields when [s] is what follows
    the first [time=] of the output: [s] up to the next [time=] or the end
    of the line, and what is left of [s] from there. *)
Fixpoint latency_segment (s : string) : string * string :=
  match s with
  | EmptyString => (EmptyString, EmptyString)
  | String c s' =>
      if String.prefix "time=" s || Ascii.eqb c (ascii_of_nat 10)
      then (EmptyString, s)
      else let '(seg, stop) := latency_segment s' in (String c seg, stop)
  end.

(** Where a latency segment stops: at the end of the output, at the end
    of the line, or at the next [time=]. *)
Definition segment_stop (stop : string) : Prop :=
  stop = "" \/ String.prefix nl stop = true \/ String.prefix "time=" stop = true.

(** What the probe makes of the segment: its first token is the latency,
    and a segment without a token fails the indexing. *)
Definition ping_of_segment (host seg : string) : ping_dict :=
  match py_split_ws seg with
  | tok :: _ => ping_success host tok
  | [] => ping_errored host "list index out of range"
  end.



(** ** The file a handler opens: [os.path.abspath] of its file name *)

(** [s.endswith('/')]. *)
Fixpoint ends_with_slash (s : string) : bool :=
  match s with
  | EmptyString => false
  | String c EmptyString => Ascii.eqb c "/"
  | String _ s' => ends_with_slash s'
  end.

(** [os.path.join(a, b)] of [posixpath]. *)
Definition path_join (a b : string) : string :=
  if String.prefix "/" b then b
  else if String.eqb a "" || ends_with_slash a then a +:+ b
  else a +:+ "/" +:+ b.

(** The body of the loop of [posixpath.normpath]: an empty component and
    [.] are skipped, [..] removes the component before it where there is
    one to remove, anything else is kept. *)
Definition norm_step (initial : bool) (acc : list string) (comp : string) : list string :=
  if String.eqb comp "" || String.eqb comp "." then acc
  else if negb (String.eqb comp "..")
          || (negb initial && match acc with [] => true | _ :: _ => false end)
          || match acc with
             | [] => false
             | _ :: _ => String.eqb (List.last acc "") ".."
             end
       then acc ++ [comp]
       else removelast acc.

(** One leading slash, or two when the path begins with exactly two. *)
Definition initial_slashes (path : string) : nat :=
  if String.prefix "/" path
  then if String.prefix "//" path && negb (String.prefix "///" path) then 2 else 1
  else 0.

Definition normpath (path : string) : string :=
  if String.eqb path "" then "."
  else
    let k := initial_slashes path in
    let comps := fold_left (norm_step (0 <? k)%nat) (py_split "/" path) [] in
    let p := match k with
             | O => ""
             | S O => "/"
             | _ => "//"
             end +:+ String.concat "/" comps in
    if String.eqb p "" then "." else p.

(** [os.path.abspath(path)], [cwd] being [os.getcwd()]: the file that
    [RotatingFileHandler] opens for the name [path]. *)
Definition abspath (cwd path : string) : string :=
  normpath (if String.prefix "/" path then path else path_join cwd path).

(** A MONITOR_MODE that climbs out of its file name. *)
Definition climbing_config : config :=
  {| LOG_DIR := "/var/log/monitor";
     MONITOR_MODE := "/../x"; MONITOR_INTERVAL := 5; PING_HOST := "8.8.8.8";
     CONSOLE_OUTPUT := "true"; PROCESS_COUNT := 5; LOG_FORMAT := "both" |}.

(* ================================================================== *)
(** * Properties *)

Example ping_example_reply :
  ping_network "8.8.8.8"
    (Completed 0 ("PING 8.8.8.8: 56 data bytes" +:+ nl +:+
                  "64 bytes from 8.8.8.8: icmp_seq=0 ttl=117 time=12.3 ms" +:+ nl))
  = {| ping_status := "success"; ping_latency_ms := Some "12.3";
       ping_error := None; ping_host := "8.8.8.8" |}.
Proof. reflexivity. Qed.

(** ** Strings *)

Lemma prefix_iff (x s : string) :
  String.prefix x s = true <-> exists b, s = x +:+ b.
Proof.
  revert s; induction x as [|c x IH]; intros s.
  - split; [intros _; exists s; reflexivity | intros _; now destruct s].
  - destruct s as [|d s]; simpl.
    + split; [discriminate | intros [b Hb]; discriminate].
    + destruct (ascii_dec c d) as [->|Hne].
      * rewrite IH. split; intros [b Hb]; exists b.
        -- now rewrite Hb.
        -- now injection Hb.
      * split; [discriminate | intros [b Hb]; injection Hb as Hcd _; congruence].
Qed.

Lemma append_assoc (a b c : string) : (a +:+ b) +:+ c = a +:+ (b +:+ c).
Proof. induction a as [|x a IH]; simpl; [reflexivity | now rewrite IH]. Qed.

Lemma append_nil_r (a : string) : a +:+ "" = a.
Proof. induction a as [|x a IH]; simpl; [reflexivity | now rewrite IH]. Qed.

(** [py_in] is the substring relation. *)
Lemma py_in_iff (x s : string) :
  py_in x s = true <-> exists a b, s = a +:+ x +:+ b.
Proof.
  induction s as [|c s IH]; cbn [py_in].
  - destruct (String.prefix x "") eqn:Hp.
    + split; [intros _ | reflexivity].
      apply prefix_iff in Hp as [b Hb]. exists "", b. exact Hb.
    + split; [discriminate |].
      intros (a & b & Hab). destruct a as [|? ?]; [|discriminate].
      simpl in Hab. assert (String.prefix x "" = true) by (apply prefix_iff; eauto).
      congruence.
  - destruct (String.prefix x (String c s)) eqn:Hp.
    + split; [intros _ | reflexivity].
      apply prefix_iff in Hp as [b Hb]. exists "", b. exact Hb.
    + rewrite IH. split.
      * intros (a & b & ->). exists (String c a), b. reflexivity.
      * intros (a & b & Hab). destruct a as [|d a].
        -- simpl in Hab. assert (String.prefix x (String c s) = true)
             by (apply prefix_iff; eauto). congruence.
        -- simpl in Hab. injection Hab as -> ->. eauto.
Qed.

Lemma py_in_false_sub (x a m b : string) :
  py_in x (a +:+ m +:+ b) = false -> py_in x m = false.
Proof.
  intros H. destruct (py_in x m) eqn:Hm; [|reflexivity].
  apply py_in_iff in Hm as (a' & b' & ->).
  assert (py_in x (a +:+ (a' +:+ x +:+ b') +:+ b) = true) as Hc.
  { apply py_in_iff. exists (a +:+ a'), (b' +:+ b).
    now rewrite !append_assoc. }
  congruence.
Qed.

(** Under [skip = 0] the first piece of a split is a prefix of the text. *)
Lemma split_go_head (sep s p : string) (ps : list string) :
  split_go sep 0 s = p :: ps -> exists b, s = p +:+ b.
Proof.
  revert p ps; induction s as [|c s IH]; intros p ps; cbn [split_go].
  - intros [= <- <-]. exists "". reflexivity.
  - destruct (String.prefix sep (String c s)).
    + intros [= <- <-]. eexists; reflexivity.
    + destruct (split_go sep 0 s) as [|q qs] eqn:Hq.
      * intros [= <- <-]. exists s. reflexivity.
      * intros [= <- <-]. destruct (IH _ _ eq_refl) as [b ->].
        exists b. reflexivity.
Qed.

(** Every piece of a split is a substring of the text. *)
Lemma split_go_piece (sep : string) (s : string) :
  forall skip piece, In piece (split_go sep skip s) ->
  exists a b, s = a +:+ piece +:+ b.
Proof.
  induction s as [|c s IH]; intros skip piece; cbn [split_go].
  - intros [<-|[]]. exists "", "". reflexivity.
  - destruct skip as [|k].
    + destruct (String.prefix sep (String c s)).
      * intros [<-|Hin].
        -- exists "", (String c s). reflexivity.
        -- destruct (IH _ _ Hin) as (a & b & ->). exists (String c a), b. reflexivity.
      * destruct (split_go sep 0 s) as [|q qs] eqn:Hq.
        -- intros [<-|[]]. exists "", s. reflexivity.
        -- intros [<-|Hin].
           ++ destruct (split_go_head _ _ _ _ Hq) as [b ->].
              exists "", b. reflexivity.
           ++ destruct (IH 0%nat piece) as (a & b & ->).
              { rewrite Hq. now right. }
              exists (String c a), b. reflexivity.
    + intros Hin. destruct (IH _ _ Hin) as (a & b & ->).
      exists (String c a), b. reflexivity.
Qed.

Lemma py_split_ws_tokens (s : string) :
  Forall is_token (py_split_ws s).
Proof.
  induction s as [|c s IH]; cbn [py_split_ws]; [constructor|].
  destruct (is_space c) eqn:Hc; [exact IH|].
  assert (is_token (String c "")) as Hone.
  { split; [discriminate|]. intros [|? [|? ?]] d b [=]; congruence. }
  destruct s as [|c' s']; [repeat constructor; apply Hone|].
  destruct (is_space c') eqn:Hc'.
  - constructor; [exact Hone | exact IH].
  - destruct (py_split_ws (String c' s')) as [|p ps]; [repeat constructor; apply Hone|].
    inversion IH as [|? ? [Hp1 Hp2] Hps]; subst.
    constructor; [|exact Hps].
    split; [discriminate|]. intros [|x a] d b [=]; subst; [exact Hc|].
    eapply Hp2; reflexivity.
Qed.

Lemma tokenb_iff (t : string) : tokenb t = true <-> is_token t.
Proof.
  assert (forall t, no_space t = true <->
                    forall a c b, t = a +:+ String c b -> is_space c = false) as Hns.
  { clear t. induction t as [|d t IH]; cbn [no_space].
    - split; [intros _ [|? ?] c b [=] | reflexivity].
    - rewrite andb_true_iff, negb_true_iff, IH. split.
      + intros [Hd Ht] [|x a] c b [=]; subst; [exact Hd | eapply Ht; reflexivity].
      + intros H. split; [apply (H "" d t eq_refl)|].
        intros a c b ->. apply (H (String d a) c b eq_refl). }
  unfold is_token. destruct t as [|d t]; cbn [tokenb].
  - split; [discriminate | intros [H _]; congruence].
  - rewrite Hns. split; [intros H; split; [discriminate | exact H] | intros [_ H]; exact H].
Qed.

Lemma ends_token_prefix (p b : string) : ends_token (p +:+ b) -> ends_token p.
Proof. unfold ends_token. destruct p; simpl; auto. Qed.

Lemma py_split_ws_first (tok rest : string) :
  is_token tok -> ends_token rest ->
  exists more, py_split_ws (tok +:+ rest) = tok :: more.
Proof.
  intros [Hne Hns]. revert Hne Hns.
  induction tok as [|c tok IH]; intros Hne Hns Hrest; [congruence|].
  assert (is_space c = false) as Hc by (apply (Hns "" c tok); reflexivity).
  cbn [py_split_ws String.append]. rewrite Hc.
  destruct tok as [|c' tok'].
  - simpl. destruct rest as [|r rest']; [eauto|].
    unfold ends_token in Hrest. simpl in Hrest. rewrite Hrest. eauto.
  - assert (is_space c' = false) as Hc'
      by (apply (Hns (String c "") c' tok'); reflexivity).
    cbn [String.append]. rewrite Hc'.
    destruct IH as [more Hmore]; [discriminate| |exact Hrest|].
    { intros a d b Heq. apply (Hns (String c a) d b). now rewrite Heq. }
    cbn [String.append] in Hmore. rewrite Hmore. eauto.
Qed.

Lemma no_start_tail (sep : string) (c : ascii) (a t : string) :
  no_start sep (String c a) t -> no_start sep a t.
Proof. intros H a1 a2 ->. apply (H (String c a1) a2). reflexivity. Qed.

Lemma split_go_nonempty (sep s : string) (skip : nat) : split_go sep skip s <> [].
Proof.
  revert skip; induction s as [|c s IH]; intros skip; cbn [split_go]; [discriminate|].
  destruct skip; [|apply IH].
  destruct (String.prefix sep (String c s)); [discriminate|].
  destruct (split_go sep 0 s); discriminate.
Qed.

Lemma split_go_skip (sep x rest : string) :
  split_go sep (String.length x) (x +:+ rest) = split_go sep 0 rest.
Proof. induction x as [|c x IH]; simpl; [reflexivity | exact IH]. Qed.

Lemma split_go_sep (sep rest : string) :
  sep <> "" -> split_go sep 0 (sep +:+ rest) = "" :: split_go sep 0 rest.
Proof.
  intros Hne. destruct sep as [|c sep']; [congruence|].
  change (String c sep' +:+ rest) with (String c (sep' +:+ rest)).
  cbn [split_go].
  assert (String.prefix (String c sep') (String c (sep' +:+ rest)) = true) as ->
    by (apply prefix_iff; exists rest; reflexivity).
  replace (String.length (String c sep') - 1)%nat with (String.length sep')
    by (simpl; lia).
  now rewrite split_go_skip.
Qed.

Lemma split_go_glue (sep a t p : string) (ps : list string) :
  no_start sep a t -> split_go sep 0 t = p :: ps ->
  split_go sep 0 (a +:+ t) = (a +:+ p) :: ps.
Proof.
  intros Hns Ht. induction a as [|c a IH]; [exact Ht|].
  change (String c a +:+ t) with (String c (a +:+ t)).
  cbn [split_go].
  assert (String.prefix sep (String c (a +:+ t)) = false) as ->
    by (apply (Hns "" (String c a) eq_refl); discriminate).
  rewrite (IH (no_start_tail _ _ _ _ Hns)). reflexivity.
Qed.

Lemma py_split_at_sep (sep a rest : string) :
  sep <> "" -> no_start sep a (sep +:+ rest) ->
  py_split sep (a +:+ sep +:+ rest) = a :: py_split sep rest.
Proof.
  intros Hne Hns. unfold py_split.
  rewrite (split_go_glue _ _ _ _ _ Hns (split_go_sep _ _ Hne)).
  now rewrite append_nil_r.
Qed.

(** A one-character separator cannot straddle. *)
Lemma no_start_char (c : ascii) (a t : string) :
  py_in (String c "") a = false -> no_start (String c "") a t.
Proof.
  intros Hin a1 [|d a2] -> Hne; [congruence|].
  simpl. destruct (ascii_dec c d) as [->|]; [|reflexivity].
  assert (py_in (String d "") (a1 +:+ String d a2) = true) as Hc
    by (apply py_in_iff; exists a1, a2; reflexivity).
  congruence.
Qed.

(** ["time="] has no border: an occurrence starting in [a] lies in [a]
    unless the text after [a] continues it. *)
Lemma no_start_marker (a t : string) :
  py_in "time=" a = false ->
  String.prefix "ime=" t = false -> String.prefix "me=" t = false ->
  String.prefix "e=" t = false -> String.prefix "=" t = false ->
  no_start "time=" a t.
Proof.
  intros Hin H1 H2 H3 H4 a1 a2 -> Hne.
  destruct (String.prefix "time=" (a2 +:+ t)) eqn:Hp; [|reflexivity].
  exfalso. apply prefix_iff in Hp as [b Hb].
  assert (forall x, t = x +:+ b -> String.prefix x t = true) as Hpre
    by (intros x Hx; apply prefix_iff; eauto).
  destruct a2 as [|c1 a2]; [congruence|]. injection Hb as -> Hb.
  destruct a2 as [|c2 a2]; [rewrite (Hpre "ime=" Hb) in H1; discriminate|].
  injection Hb as -> Hb.
  destruct a2 as [|c3 a2]; [rewrite (Hpre "me=" Hb) in H2; discriminate|].
  injection Hb as -> Hb.
  destruct a2 as [|c4 a2]; [rewrite (Hpre "e=" Hb) in H3; discriminate|].
  injection Hb as -> Hb.
  destruct a2 as [|c5 a2]; [rewrite (Hpre "=" Hb) in H4; discriminate|].
  injection Hb as -> Hb.
  assert (py_in "time=" (a1 +:+ "time=" +:+ a2) = true) as Hc
    by (apply py_in_iff; exists a1, a2; reflexivity).
  simpl in Hc, Hin. congruence.
Qed.

Lemma no_start_marker_marker (a rest : string) :
  py_in "time=" a = false -> no_start "time=" a ("time=" +:+ rest).
Proof. intros H. apply no_start_marker; [exact H|reflexivity..]. Qed.

Lemma prefix_space (c : ascii) (x t : string) :
  is_space c = false -> ends_token t -> String.prefix (String c x) t = false.
Proof.
  intros Hc Ht. destruct (String.prefix (String c x) t) eqn:Hp; [|reflexivity].
  apply prefix_iff in Hp as [b ->]. unfold ends_token in Ht. simpl in Ht. congruence.
Qed.

Lemma no_start_marker_ws (a t : string) :
  py_in "time=" a = false -> ends_token t -> no_start "time=" a t.
Proof.
  intros H Ht.
  apply no_start_marker; [exact H|..]; now apply prefix_space.
Qed.

(** ** The reachability probe *)

Lemma ping_scan_none (host : string) (lines : list string) :
  Forall (fun line => py_in "time=" line = false) lines ->
  ping_scan host lines = Ok None.
Proof.
  induction 1 as [|line rest Hl _ IH]; simpl; [reflexivity|].
  now rewrite Hl.
Qed.

Lemma ping_no_marker (host out : string) :
  py_in "time=" out = false ->
  ping_network host (Completed 0 out) = ping_failed host.
Proof.
  intros H. unfold ping_network, ping_try. simpl.
  rewrite ping_scan_none; [reflexivity|].
  apply List.Forall_forall. intros line Hin.
  destruct (split_go_piece _ _ _ _ Hin) as (a & b & Hab).
  rewrite Hab in H. exact (py_in_false_sub _ _ _ _ H).
Qed.

Lemma prefix_char (d c : ascii) (s : string) :
  String.prefix (String d "") (String c s) = if ascii_dec d c then true else false.
Proof.
  cbn [String.prefix]. destruct (ascii_dec d c); [now destruct s | reflexivity].
Qed.

Lemma py_in_char_app (d : ascii) (a b : string) :
  py_in (String d "") (a +:+ b) = py_in (String d "") a || py_in (String d "") b.
Proof.
  induction a as [|c a IH]; [reflexivity|].
  change (String c a +:+ b) with (String c (a +:+ b)).
  cbn [py_in]. rewrite !prefix_char.
  destruct (ascii_dec d c); [reflexivity | exact IH].
Qed.

Lemma token_no_newline (tok : string) : is_token tok -> py_in nl tok = false.
Proof.
  intros [_ Hns]. destruct (py_in nl tok) eqn:Hin; [|reflexivity].
  apply py_in_iff in Hin as (a & b & Hab).
  pose proof (Hns a (ascii_of_nat 10) b Hab) as Hsp.
  vm_compute in Hsp. discriminate Hsp.
Qed.

Section PingReply.
Variables (host tok rest : string).
Hypothesis Htok : is_token tok.
Hypothesis Hclean : py_in "time=" tok = false.
Hypothesis Hrest : ends_token rest.

(** The line carrying the reply, once the lines before it are gone. *)
Lemma ping_scan_reply_line (pre : string) :
  py_in nl pre = false -> py_in "time=" pre = false ->
  ping_scan host (py_split nl (pre +:+ "time=" +:+ tok +:+ rest))
  = Ok (Some (ping_success host tok)).
Proof.
  intros Hnl Hpre.
  destruct (split_go nl 0 rest) as [|p ps] eqn:Hsplit;
    [now apply split_go_nonempty in Hsplit|].
  destruct (split_go_head _ _ _ _ Hsplit) as [b Hb].
  assert (ends_token p) as Hp by (apply (ends_token_prefix p b); now rewrite <- Hb).
  assert (py_split nl (pre +:+ "time=" +:+ tok +:+ rest)
          = (pre +:+ "time=" +:+ tok +:+ p) :: ps) as ->.
  { unfold py_split.
    replace (pre +:+ "time=" +:+ tok +:+ rest)
      with ((pre +:+ "time=" +:+ tok) +:+ rest) by now rewrite !append_assoc.
    replace (pre +:+ "time=" +:+ tok +:+ p)
      with ((pre +:+ "time=" +:+ tok) +:+ p) by now rewrite !append_assoc.
    apply split_go_glue; [|exact Hsplit].
    apply no_start_char. rewrite !py_in_char_app. fold nl.
    now rewrite Hnl, (token_no_newline _ Htok). }
  cbn [ping_scan].
  assert (py_in "time=" (pre +:+ "time=" +:+ tok +:+ p) = true) as ->
    by (apply py_in_iff; exists pre, (tok +:+ p); reflexivity).
  rewrite py_split_at_sep;
    [|discriminate | now apply no_start_marker_marker].
  destruct (split_go "time=" 0 p) as [|q qs] eqn:Hq;
    [now apply split_go_nonempty in Hq|].
  destruct (split_go_head _ _ _ _ Hq) as [b' Hb'].
  assert (ends_token q) as Hqe by (apply (ends_token_prefix q b'); now rewrite <- Hb').
  unfold py_split at 1.
  rewrite (split_go_glue _ _ _ _ _ (no_start_marker_ws _ _ Hclean Hp) Hq).
  cbn [py_index nth_error res_bind].
  destruct (py_split_ws_first _ _ Htok Hqe) as [more ->].
  reflexivity.
Qed.

Lemma ping_scan_reply (head : string) :
  forall pre, py_in nl pre = false -> py_in "time=" (pre +:+ head) = false ->
  ping_scan host (py_split nl (pre +:+ head +:+ "time=" +:+ tok +:+ rest))
  = Ok (Some (ping_success host tok)).
Proof.
  induction head as [|c head IH]; intros pre Hnl Hpre.
  - rewrite append_nil_r in Hpre. now apply ping_scan_reply_line.
  - destruct (ascii_dec c (ascii_of_nat 10)) as [->|Hc].
    + change (pre +:+ String (ascii_of_nat 10) head +:+ "time=" +:+ tok +:+ rest)
        with (pre +:+ nl +:+ (head +:+ "time=" +:+ tok +:+ rest)).
      rewrite py_split_at_sep; [|discriminate | now apply no_start_char].
      cbn [ping_scan].
      assert (py_in "time=" pre = false) as ->.
      { apply (py_in_false_sub _ "" pre (String (ascii_of_nat 10) head)). exact Hpre. }
      apply (IH ""); [reflexivity|].
      apply (py_in_false_sub _ (pre +:+ nl) head "").
      rewrite append_nil_r, append_assoc. exact Hpre.
    + replace (pre +:+ String c head +:+ "time=" +:+ tok +:+ rest)
        with ((pre +:+ String c "") +:+ head +:+ "time=" +:+ tok +:+ rest)
        by now rewrite append_assoc.
      apply IH.
      * unfold nl in *. rewrite py_in_char_app, Hnl. cbn [py_in orb].
        rewrite prefix_char. destruct (ascii_dec _ c); [congruence | reflexivity].
      * now rewrite append_assoc.
Qed.

Lemma ping_reply_parsed (head : string) :
  py_in "time=" head = false ->
  ping_network host (Completed 0 (head +:+ "time=" +:+ tok +:+ rest))
  = ping_success host tok.
Proof.
  intros Hhead. unfold ping_network, ping_try.
  change (0 =? 0) with true. cbv iota.
  pose proof (ping_scan_reply head "" eq_refl Hhead) as Hscan.
  change ("" +:+ head +:+ "time=" +:+ tok +:+ rest)
    with (head +:+ "time=" +:+ tok +:+ rest) in Hscan.
  now rewrite Hscan.
Qed.
End PingReply.

(** The reply as the code cuts it: the segment after the first [time=]. *)
Section PingSegment.
Variables (host seg stop : string).
Hypothesis Hseg_nl : py_in nl seg = false.
Hypothesis Hseg_clean : py_in "time=" seg = false.
Hypothesis Hstop : segment_stop stop.

(** The piece of [stop] on the line of the segment is empty or begins with
    the next [time=]. *)
Lemma segment_stop_piece :
  exists p ps, split_go nl 0 stop = p :: ps
               /\ (p = "" \/ exists p', p = "time=" +:+ p').
Proof.
  destruct Hstop as [->|[Hnl|Hmark]].
  - exists "", []. split; [reflexivity | now left].
  - apply prefix_iff in Hnl as [b ->].
    exists "", (split_go nl 0 b). split; [|now left].
    apply split_go_sep. discriminate.
  - apply prefix_iff in Hmark as [b ->].
    destruct (split_go nl 0 b) as [|p' ps] eqn:Hb;
      [now apply split_go_nonempty in Hb|].
    exists ("time=" +:+ p'), ps. split; [|right; eauto].
    apply split_go_glue; [|exact Hb]. now apply no_start_char.
Qed.

Lemma ping_scan_segment_line (pre : string) :
  py_in nl pre = false -> py_in "time=" pre = false ->
  ping_scan host (py_split nl (pre +:+ "time=" +:+ seg +:+ stop))
  = match py_split_ws seg with
    | tok :: _ => Ok (Some (ping_success host tok))
    | [] => Raise IndexError
    end.
Proof.
  intros Hnl Hpre.
  destruct segment_stop_piece as (p & ps & Hsplit & Hp).
  assert (py_split nl (pre +:+ "time=" +:+ seg +:+ stop)
          = (pre +:+ "time=" +:+ seg +:+ p) :: ps) as ->.
  { unfold py_split.
    replace (pre +:+ "time=" +:+ seg +:+ stop)
      with ((pre +:+ "time=" +:+ seg) +:+ stop) by now rewrite !append_assoc.
    replace (pre +:+ "time=" +:+ seg +:+ p)
      with ((pre +:+ "time=" +:+ seg) +:+ p) by now rewrite !append_assoc.
    apply split_go_glue; [|exact Hsplit].
    apply no_start_char. rewrite !py_in_char_app. fold nl.
    now rewrite Hnl, Hseg_nl. }
  cbn [ping_scan].
  assert (py_in "time=" (pre +:+ "time=" +:+ seg +:+ p) = true) as ->
    by (apply py_in_iff; exists pre, (seg +:+ p); reflexivity).
  rewrite py_split_at_sep;
    [|discriminate | now apply no_start_marker_marker].
  assert (exists more, py_split "time=" (seg +:+ p) = seg :: more) as [more ->].
  { destruct Hp as [->|[p' ->]].
    - exists []. unfold py_split.
      rewrite (split_go_glue "time=" seg "" "" []); [now rewrite append_nil_r| |reflexivity].
      apply no_start_marker; [exact Hseg_clean|reflexivity..].
    - exists (py_split "time=" p'). apply py_split_at_sep; [discriminate|].
      now apply no_start_marker_marker. }
  cbn [py_index nth_error res_bind].
  now destruct (py_split_ws seg).
Qed.

Lemma ping_scan_segment (head : string) :
  forall pre, py_in nl pre = false -> py_in "time=" (pre +:+ head) = false ->
  ping_scan host (py_split nl (pre +:+ head +:+ "time=" +:+ seg +:+ stop))
  = match py_split_ws seg with
    | tok :: _ => Ok (Some (ping_success host tok))
    | [] => Raise IndexError
    end.
Proof.
  induction head as [|c head IH]; intros pre Hnl Hpre.
  - rewrite append_nil_r in Hpre. now apply ping_scan_segment_line.
  - destruct (ascii_dec c (ascii_of_nat 10)) as [->|Hc].
    + change (pre +:+ String (ascii_of_nat 10) head +:+ "time=" +:+ seg +:+ stop)
        with (pre +:+ nl +:+ (head +:+ "time=" +:+ seg +:+ stop)).
      rewrite py_split_at_sep; [|discriminate | now apply no_start_char].
      cbn [ping_scan].
      assert (py_in "time=" pre = false) as ->.
      { apply (py_in_false_sub _ "" pre (String (ascii_of_nat 10) head)). exact Hpre. }
      apply (IH ""); [reflexivity|].
      apply (py_in_false_sub _ (pre +:+ nl) head "").
      rewrite append_nil_r, append_assoc. exact Hpre.
    + replace (pre +:+ String c head +:+ "time=" +:+ seg +:+ stop)
        with ((pre +:+ String c "") +:+ head +:+ "time=" +:+ seg +:+ stop)
        by now rewrite append_assoc.
      apply IH.
      * unfold nl in *. rewrite py_in_char_app, Hnl. cbn [py_in orb].
        rewrite prefix_char. destruct (ascii_dec _ c); [congruence | reflexivity].
      * now rewrite append_assoc.
Qed.

Lemma ping_segment_parsed (head : string) :
  py_in "time=" head = false ->
  ping_network host (Completed 0 (head +:+ "time=" +:+ seg +:+ stop))
  = ping_of_segment host seg.
Proof.
  intros Hhead. unfold ping_network, ping_try, ping_of_segment.
  change (0 =? 0) with true. cbv iota.
  pose proof (ping_scan_segment head "" eq_refl Hhead) as Hscan.
  change ("" +:+ head +:+ "time=" +:+ seg +:+ stop)
    with (head +:+ "time=" +:+ seg +:+ stop) in Hscan.
  rewrite Hscan. now destruct (py_split_ws seg).
Qed.
End PingSegment.

(** The first occurrence of a marker: nothing before it holds one. *)
Lemma first_marker (x s : string) :
  x <> "" -> py_in x s = true ->
  exists head rest, s = head +:+ x +:+ rest /\ py_in x head = false.
Proof.
  intros Hx.
  assert (py_in x "" = false) as Hempty.
  { cbn [py_in]. destruct (String.prefix x "") eqn:Hp; [|reflexivity].
    apply prefix_iff in Hp as [b Hb]. destruct x; [congruence | discriminate Hb]. }
  induction s as [|c s IH]; [congruence|]. cbn [py_in].
  destruct (String.prefix x (String c s)) eqn:Hp.
  - intros _. apply prefix_iff in Hp as [b Hb].
    exists "", b. split; [exact Hb | exact Hempty].
  - intros Hin. destruct (IH Hin) as (head & rest & -> & Hhead).
    exists (String c head), rest. split; [reflexivity|].
    cbn [py_in]. rewrite Hhead.
    destruct (String.prefix x (String c head)) eqn:Hq; [|reflexivity].
    apply prefix_iff in Hq as [b Hb].
    assert (String.prefix x (String c (head +:+ x +:+ rest)) = true) as Hc.
    { apply prefix_iff. exists (b +:+ x +:+ rest).
      change (String c (head +:+ x +:+ rest)) with (String c head +:+ x +:+ rest).
      now rewrite Hb, append_assoc. }
    congruence.
Qed.

Lemma latency_segment_spec (s : string) :
  s = fst (latency_segment s) +:+ snd (latency_segment s)
  /\ py_in nl (fst (latency_segment s)) = false
  /\ py_in "time=" (fst (latency_segment s)) = false
  /\ segment_stop (snd (latency_segment s)).
Proof.
  induction s as [|c s (IH1 & IH2 & IH3 & IH4)].
  - repeat split. now left.
  - cbn [latency_segment].
    destruct (String.prefix "time=" (String c s)) eqn:Hp; cbn [orb].
    { repeat split. right; right. exact Hp. }
    destruct (Ascii.eqb_spec c (ascii_of_nat 10)) as [->|Hc].
    { repeat split. right; left. cbn [snd]. unfold nl. rewrite prefix_char.
      now destruct (ascii_dec _ _). }
    destruct (latency_segment s) as [seg stop]. cbn [fst snd] in *.
    split; [cbn; now rewrite <- IH1|].
    split; [|split; [|exact IH4]].
    + unfold nl in *. cbn [py_in]. rewrite prefix_char, IH2.
      destruct (ascii_dec _ c); [congruence | reflexivity].
    + cbn [py_in]. rewrite IH3.
      destruct (String.prefix "time=" (String c seg)) eqn:Hq; [|reflexivity].
      apply prefix_iff in Hq as [b Hb].
      assert (String.prefix "time=" (String c s) = true) as Hc'.
      { apply prefix_iff. exists (b +:+ stop). rewrite IH1.
        change (String c (seg +:+ stop)) with (String c seg +:+ stop).
        now rewrite Hb, append_assoc. }
      congruence.
Qed.

Lemma ping_scan_shape (host : string) (lines : list string) :
  ping_scan host lines = Ok None
  \/ (exists tok, tokenb tok = true /\
                  ping_scan host lines = Ok (Some (ping_success host tok)))
  \/ exists e, ping_scan host lines = Raise e.
Proof.
  induction lines as [|line rest IH]; cbn [ping_scan]; [now left|].
  destruct (py_in "time=" line); [|exact IH].
  destruct (py_index (py_split "time=" line) 1) as [after|e]; cbn [res_bind];
    [|right; right; eauto].
  pose proof (py_split_ws_tokens after) as Htoks.
  destruct (py_split_ws after) as [|t ts]; cbn [py_index nth_error res_bind].
  - right; right; eauto.
  - right; left. exists t. split; [|reflexivity].
    apply tokenb_iff. now inversion Htoks.
Qed.

(** C3, as the code has it.  The probe always returns a dict (it is a
    total function: nothing propagates), and
    - when [subprocess.run] raises, the dict has status [error] and carries
      [str(e)] under [error];
    - when the exit code is not zero, or it is zero and no [time=] occurs
      in the output, the status is [failed];
    - when the exit code is zero and the first [time=] of the output is
      followed by a whitespace-free token that holds no [time=] and ends at
      a whitespace character or at the end of the output, the status is
      [success] and [latency_ms] is that token (a unit separated by a blank
      is dropped);
    - every result has one of these three shapes, and a [success] always
      carries a non-empty whitespace-free token;
    - in general, when the exit code is zero and the output holds [time=],
      the result is decided by the segment that follows the first [time=]
      and stops at the end of its line or at the next [time=]: the first
      whitespace-free token of the segment is the latency of a [success],
      and a segment without one gives status [error] with the text of the
      [IndexError]; every output that holds [time=] has such a segment. *)
Theorem ping_network_outcomes (host : string) :
  (forall e, ping_network host (RunRaised e) = ping_errored host (exn_str e))
  /\ (forall rc out, rc <> 0 ->
        ping_network host (Completed rc out) = ping_failed host)
  /\ (forall out, py_in "time=" out = false ->
        ping_network host (Completed 0 out) = ping_failed host)
  /\ (forall head tok rest,
        py_in "time=" head = false -> tokenb tok = true ->
        py_in "time=" tok = false -> ends_tokenb rest = true ->
        ping_network host (Completed 0 (head +:+ "time=" +:+ tok +:+ rest))
        = ping_success host tok)
  /\ (forall run,
        ping_network host run = ping_failed host
        \/ (exists tok, tokenb tok = true /\
                        ping_network host run = ping_success host tok)
        \/ exists detail, ping_network host run = ping_errored host detail)
  /\ (forall head seg stop,
        py_in "time=" head = false ->
        py_in nl seg = false -> py_in "time=" seg = false -> segment_stop stop ->
        ping_network host (Completed 0 (head +:+ "time=" +:+ seg +:+ stop))
        = ping_of_segment host seg)
  /\ (forall out, py_in "time=" out = true ->
        exists head seg stop,
          out = head +:+ "time=" +:+ seg +:+ stop
          /\ py_in "time=" head = false
          /\ py_in nl seg = false /\ py_in "time=" seg = false /\ segment_stop stop
          /\ ping_network host (Completed 0 out) = ping_of_segment host seg).
Proof.
  split; [reflexivity|].
  split.
  { intros rc out Hrc. unfold ping_network, ping_try.
    destruct (Z.eqb_spec rc 0); [congruence | reflexivity]. }
  split; [apply ping_no_marker|].
  split.
  { intros head tok rest Hhead Htok Hclean Hrest.
    apply ping_reply_parsed; [now apply tokenb_iff | assumption..]. }
  split.
  { intros [rc out|e]; [|right; right; eexists; reflexivity].
    unfold ping_network, ping_try.
    destruct (rc =? 0); [|now left].
    destruct (ping_scan_shape host (py_split nl out))
      as [->|[(tok & Htok & ->)|[e ->]]]; cbn [res_bind].
    - now left.
    - right; left; eauto.
    - right; right; eexists; reflexivity. }
  split.
  { intros head seg stop Hhead Hnl Hclean Hstop. now apply ping_segment_parsed. }
  intros out Hin.
  destruct (first_marker "time=" out) as (head & rest & -> & Hhead);
    [discriminate | exact Hin |].
  destruct (latency_segment_spec rest) as (Hrest & Hnl & Hclean & Hstop).
  exists head, (fst (latency_segment rest)), (snd (latency_segment rest)).
  split; [now rewrite <- Hrest|].
  repeat (split; [assumption|]).
  rewrite Hrest at 1. now apply ping_segment_parsed.
Qed.

Lemma ping_network_outcomes_witness :
  ping_network "8.8.8.8"
    (Completed 0 ("PING 8.8.8.8 (8.8.8.8): 56 data bytes" +:+ nl +:+
                  "64 bytes from 8.8.8.8: seq=0 ttl=117 "
                  +:+ "time=" +:+ "12.3" +:+ " ms" +:+ nl))
  = ping_success "8.8.8.8" "12.3".
Proof.
  exact (proj1 (proj2 (proj2 (proj2 (ping_network_outcomes "8.8.8.8"))))
           ("PING 8.8.8.8 (8.8.8.8): 56 data bytes" +:+ nl +:+
            "64 bytes from 8.8.8.8: seq=0 ttl=117 ")
           "12.3" (" ms" +:+ nl) eq_refl eq_refl eq_refl eq_refl).
Defined.

(** C3 as stated fails: the subprocess exits with code 0 and its output
    has [time=] with nothing after it.  No latency can be parsed, so the
    claim gives [failed]; the code indexes an empty list, and the handler
    of the probe turns the [IndexError] into status [error]. *)
Lemma ping_exit_zero_blank_latency_is_error :
  ping_network "8.8.8.8"
    (Completed 0 ("64 bytes from 8.8.8.8: seq=0 ttl=117 time=" +:+ nl))
  = ping_errored "8.8.8.8" "list index out of range"
  /\ ping_status (ping_network "8.8.8.8"
       (Completed 0 ("64 bytes from 8.8.8.8: seq=0 ttl=117 time=" +:+ nl)))
     <> "failed".
Proof. split; [reflexivity | discriminate]. Qed.

(** A second [time=] right after the first leaves an empty segment. *)
Example ping_marker_twice :
  ping_network "h" (Completed 0 "x time=time=5 ms")
  = ping_errored "h" "list index out of range".
Proof. reflexivity. Qed.

(** A unit glued to the number stays in the latency. *)
Example ping_unit_without_blank :
  ping_network "h" (Completed 0 "Reply from h: bytes=32 time=12ms TTL=117")
  = ping_success "h" "12ms".
Proof. reflexivity. Qed.

(** ** Rounding *)

Lemma round_half_even_bounds (x : Q) :
  Qfloor x <= round_half_even x <= Qfloor x + 1.
Proof.
  unfold round_half_even.
  destruct (Qcompare _ _); [destruct (Z.even _)|..]; lia.
Qed.

Lemma round_half_even_mono (x y : Q) :
  (x <= y)%Q -> round_half_even x <= round_half_even y.
Proof.
  intros Hxy.
  pose proof (Qfloor_resp_le _ _ Hxy) as Hf.
  pose proof (round_half_even_bounds x) as Hx.
  pose proof (round_half_even_bounds y) as Hy.
  destruct (Z.eq_dec (Qfloor x) (Qfloor y)) as [Heq|Hne]; [|lia].
  clear Hx Hy Hf. unfold round_half_even. cbv zeta. rewrite <- Heq.
  destruct (Qcompare (x - inject_Z (Qfloor x)) (1 # 2)) eqn:Cx;
    destruct (Qcompare (y - inject_Z (Qfloor x)) (1 # 2)) eqn:Cy;
    try (destruct (Z.even (Qfloor x))); try lia; exfalso;
    repeat match goal with
           | H : Qcompare _ _ = Eq |- _ => apply Qeq_alt in H
           | H : Qcompare _ _ = Lt |- _ => apply Qlt_alt in H
           | H : Qcompare _ _ = Gt |- _ => apply Qgt_alt in H
           end; lra.
Qed.

Lemma round_half_even_close (y : Q) :
  (inject_Z (round_half_even y) - (1 # 2) <= y
   /\ y <= inject_Z (round_half_even y) + (1 # 2))%Q.
Proof.
  pose proof (Qfloor_le y) as Hlo.
  pose proof (Qlt_floor y) as Hhi.
  rewrite inject_Z_plus in Hhi. change (inject_Z 1) with 1%Q in Hhi.
  unfold round_half_even. cbv zeta.
  destruct (Qcompare (y - inject_Z (Qfloor y)) (1 # 2)) eqn:C;
    [apply Qeq_alt in C | apply Qlt_alt in C | apply Qgt_alt in C];
    try destruct (Z.even (Qfloor y));
    rewrite ?inject_Z_plus; change (inject_Z 1) with 1%Q; split; lra.
Qed.

Lemma round2_close (x : Q) :
  (x - (1 # 200) <= round2 x /\ round2 x <= x + (1 # 200))%Q.
Proof.
  destruct (round_half_even_close (x * 100)) as [Hlo Hhi].
  unfold round2. rewrite (Qmake_Qdiv (round_half_even (x * 100)) 100).
  change (inject_Z (Z.pos 100)) with 100%Q.
  split.
  - apply Qle_shift_div_l; [reflexivity|]. lra.
  - apply Qle_shift_div_r; [reflexivity|]. lra.
Qed.

Lemma round2_mono (x y : Q) : (x <= y)%Q -> (round2 x <= round2 y)%Q.
Proof.
  intros Hxy. unfold round2, Qle. cbn [Qnum Qden].
  assert (round_half_even (x * 100) <= round_half_even (y * 100))
    by (apply round_half_even_mono; lra).
  lia.
Qed.

Lemma share_mono (a b total : Z) :
  0 < total -> a <= b ->
  (inject_Z a / inject_Z total * 100 <= inject_Z b / inject_Z total * 100)%Q.
Proof.
  intros Ht Hab.
  assert (0 < inject_Z total)%Q by (unfold Qlt; simpl; lia).
  assert (inject_Z a <= inject_Z b)%Q by (unfold Qle; simpl; lia).
  apply Qmult_le_compat_r; [|lra].
  apply Qmult_le_compat_r; [assumption|].
  apply Qlt_le_weak, Qinv_lt_0_compat. assumption.
Qed.

(** ** Sorting *)

Section SortedDesc.
Context {A : Type} (ltb : A -> A -> bool) (P : A -> Prop).
Hypothesis ltb_asym : forall x y, P x -> P y -> ltb x y = true -> ltb y x = false.
Hypothesis ltb_trans : forall x y z, P x -> P y -> P z ->
  ltb x y = false -> ltb y z = false -> ltb x z = false.

(** [a] may stand before [b]: [b]'s key is not above [a]'s. *)
Definition not_below (a b : A) : Prop := ltb a b = false.

Lemma insert_desc_perm (x : A) (l : list A) :
  Permutation (insert_desc ltb x l) (x :: l).
Proof.
  induction l as [|y ys IH]; cbn [insert_desc]; [reflexivity|].
  destruct (ltb x y); [|reflexivity].
  rewrite IH. apply perm_swap.
Qed.

Lemma sorted_desc_perm (l : list A) : Permutation (sorted_desc ltb l) l.
Proof.
  induction l as [|x l IH]; [reflexivity|].
  cbn [sorted_desc fold_right]. fold (sorted_desc ltb l).
  rewrite insert_desc_perm. now constructor.
Qed.

Lemma insert_desc_sorted (x : A) (l : list A) :
  P x -> List.Forall P l -> StronglySorted not_below l ->
  StronglySorted not_below (insert_desc ltb x l).
Proof.
  intros Px. induction l as [|y ys IH]; intros HP Hs; cbn [insert_desc].
  - repeat constructor.
  - inversion HP as [|? ? Py HPys]; subst.
    inversion Hs as [|? ? Hys Hy]; subst.
    destruct (ltb x y) eqn:Hxy.
    + constructor; [now apply IH|].
      apply (Permutation_Forall (x := x :: ys));
        [symmetry; apply insert_desc_perm|].
      constructor; [now apply ltb_asym | exact Hy].
    + constructor; [exact Hs|].
      constructor; [exact Hxy|].
      rewrite List.Forall_forall in *. intros z Hz.
      apply (ltb_trans x y z); [exact Px | exact Py | now apply HPys
                               | exact Hxy | now apply Hy].
Qed.

Lemma sorted_desc_sorted (l : list A) :
  List.Forall P l -> StronglySorted not_below (sorted_desc ltb l).
Proof.
  induction 1 as [|x l Px HP IH]; [constructor|].
  cbn [sorted_desc fold_right]. fold (sorted_desc ltb l).
  apply insert_desc_sorted; [exact Px | | exact IH].
  apply (Permutation_Forall (x := l)); [symmetry; apply sorted_desc_perm | exact HP].
Qed.
End SortedDesc.

Lemma StronglySorted_firstn {A} (R : A -> A -> Prop) (n : nat) (l : list A) :
  StronglySorted R l -> StronglySorted R (firstn n l).
Proof.
  intros Hs. revert n. induction Hs as [|x l Hs IH Hx]; intros [|n];
    cbn [firstn]; try constructor; [apply IH|].
  rewrite List.Forall_forall in *. intros y Hy. apply Hx.
  rewrite <- (firstn_skipn n l). apply in_or_app. now left.
Qed.

Lemma py_take_prefix {A} (n : Z) (l : list A) :
  exists k, py_take n l = firstn k l /\ (0 <= n -> k = Z.to_nat n).
Proof.
  unfold py_take. destruct (Z.leb_spec 0 n); eexists; split; eauto; lia.
Qed.

Lemma StronglySorted_impl {A} (R R' : A -> A -> Prop) (l : list A) :
  (forall a b, R a b -> R' a b) -> StronglySorted R l -> StronglySorted R' l.
Proof.
  intros HR. induction 1 as [|x l Hs IH Hx]; constructor; [exact IH|].
  rewrite List.Forall_forall in *. auto.
Qed.

Lemma StronglySorted_map {A B} (R : B -> B -> Prop) (f : A -> B) (l : list A) :
  StronglySorted (fun a b => R (f a) (f b)) l -> StronglySorted R (map f l).
Proof.
  induction 1 as [|x l Hs IH Hx]; cbn [map]; constructor; [exact IH|].
  rewrite List.Forall_forall in *. intros y Hy.
  apply in_map_iff in Hy as (z & <- & Hz). now apply Hx.
Qed.

Lemma StronglySorted_filter {A} (R : A -> A -> Prop) (f : A -> bool) (l : list A) :
  StronglySorted R l -> StronglySorted R (List.filter f l).
Proof.
  induction 1 as [|x l Hs IH Hx]; cbn [List.filter]; [constructor|].
  destruct (f x); [|exact IH]. constructor; [exact IH|].
  rewrite List.Forall_forall in *. intros y Hy.
  apply List.filter_In in Hy as [Hy _]. now apply Hx.
Qed.

Lemma StronglySorted_app_cross {A} (R : A -> A -> Prop) (l1 l2 : list A) :
  StronglySorted R (l1 ++ l2) ->
  forall a b, In a l1 -> In b l2 -> R a b.
Proof.
  induction l1 as [|x l1 IH]; intros Hs a b Ha Hb; [destruct Ha|].
  inversion Hs as [|? ? Hs' Hx]; subst.
  destruct Ha as [<-|Ha]; [|now apply IH].
  rewrite List.Forall_forall in Hx. apply Hx, in_or_app. now right.
Qed.

(** ** The CPU ranking *)

Lemma ce_metric_of (p : proc) : ce_metric (cpu_entry_of p) = cpu_key p.
Proof. unfold ce_metric, cpu_entry_of, cpu_key. now destruct (info_cpu_percent p). Qed.

Lemma key_ltb_asym (x y : option Q) : key_ltb x y = true -> key_ltb y x = false.
Proof.
  destruct x as [x|], y as [y|]; cbn [key_ltb]; try reflexivity; try discriminate.
  rewrite !negb_true_iff, !negb_false_iff. intros H.
  apply Qle_bool_iff. destruct (Qlt_le_dec y x) as [Hlt|Hle].
  - apply Qlt_le_weak in Hlt. apply Qle_bool_iff in Hlt. congruence.
  - exact Hle.
Qed.

Lemma key_ltb_trans (x y z : option Q) :
  y <> None ->
  key_ltb x y = false -> key_ltb y z = false -> key_ltb x z = false.
Proof.
  destruct x as [x|], y as [y|], z as [z|]; cbn [key_ltb];
    try reflexivity; try congruence.
  rewrite !negb_false_iff, !Qle_bool_iff. intros _ H1 H2. lra.
Qed.

Lemma sorted_by_cpu_spec (l ranked : list proc) :
  sorted_by_cpu l = Ok ranked ->
  Permutation ranked l
  /\ StronglySorted (fun a b => key_ltb (cpu_key a) (cpu_key b) = false) ranked.
Proof.
  unfold sorted_by_cpu.
  destruct ((2 <=? length l)%nat && existsb (fun p => is_none (cpu_key p)) l)
    eqn:Hguard; [discriminate|].
  intros [= <-]. split; [apply sorted_desc_perm|].
  apply andb_false_iff in Hguard as [Hshort|Hnone].
  - apply Nat.leb_gt in Hshort.
    destruct l as [|x [|y l]]; cbn in *; try lia; repeat constructor.
  - apply (sorted_desc_sorted _ (fun p => cpu_key p <> None)).
    + intros x y _ _. apply key_ltb_asym.
    + intros x y z _ Hy _. now apply key_ltb_trans.
    + apply List.Forall_forall. intros p Hp Hk.
      assert (existsb (fun p => is_none (cpu_key p)) l = true) as Hc
        by (apply existsb_exists; exists p; rewrite Hk; auto).
      congruence.
Qed.

(** ** The memory ranking *)

Lemma mem_entries_spec (total : Z) (l : list proc) (es : list mem_entry) :
  mem_entries total l = Ok es ->
  Forall2 (mem_entry_from total) (List.filter has_mem l) es.
Proof.
  revert es. induction l as [|p l IH]; intros es; cbn [mem_entries List.filter].
  - intros [= <-]. constructor.
  - unfold has_mem at 1. destruct (info_memory_info p) as [| |m] eqn:Hm;
      [apply IH | apply IH |].
    destruct (slot_item "pid" (info_pid p) SInt); [|discriminate].
    destruct (slot_item "name" (info_name p) SStr); [|discriminate].
    unfold py_div. destruct (total =? 0); [discriminate|].
    cbn [res_bind].
    destruct (mem_entries total l) as [more|]; [|discriminate].
    intros [= <-]. constructor; [|now apply IH].
    exists m. auto.
Qed.

Lemma mem_entries_nonzero (total : Z) (l : list proc) (es : list mem_entry) :
  mem_entries total l = Ok es -> es <> [] -> total <> 0.
Proof.
  revert es. induction l as [|p l IH]; intros es; cbn [mem_entries].
  - intros [= <-]. congruence.
  - destruct (info_memory_info p) as [| |m]; [apply IH | apply IH |].
    destruct (slot_item "pid" (info_pid p) SInt); [|discriminate].
    destruct (slot_item "name" (info_name p) SStr); [|discriminate].
    unfold py_div. destruct (Z.eqb_spec total 0); [discriminate | auto].
Qed.

Lemma to_mb_mono (a b : Z) : a <= b -> (to_mb a <= to_mb b)%Q.
Proof.
  intros Hab. apply round2_mono.
  apply Qmult_le_compat_r; [unfold Qle; simpl; lia | vm_compute; discriminate].
Qed.

Lemma mem_entry_from_order (total : Z) (p q : proc) (e f : mem_entry) :
  0 < total -> has_mem p = true -> has_mem q = true ->
  mem_entry_from total p e -> mem_entry_from total q f ->
  (mem_key p <? mem_key q) = false -> mem_order e f.
Proof.
  intros Ht _ _ (m & Hm & Hr & _ & Hp) (n & Hn & Hr' & _ & Hp') Hk.
  unfold mem_key in Hk. rewrite Hm, Hn in Hk. apply Z.ltb_ge in Hk.
  unfold mem_order. rewrite Hr, Hr', Hp, Hp'.
  split; [apply round2_mono, share_mono | apply to_mb_mono]; assumption.
Qed.

Lemma Forall2_sorted {A B} (Rel : A -> B -> Prop) (R1 : A -> A -> Prop)
      (R2 : B -> B -> Prop) (l : list A) (es : list B) :
  (forall p q e f, In p l -> In q l -> Rel p e -> Rel q f -> R1 p q -> R2 e f) ->
  Forall2 Rel l es -> StronglySorted R1 l -> StronglySorted R2 es.
Proof.
  intros Hmono HF. induction HF as [|p e l es Hpe HF IH]; intros Hs; [constructor|].
  inversion Hs as [|? ? Hs' Hp]; subst.
  constructor.
  - apply IH; [|exact Hs']. intros; eapply Hmono; eauto; now right.
  - rewrite List.Forall_forall in *. intros f Hf.
    assert (exists q, In q l /\ Rel q f) as (q & Hq & Hqf).
    { clear -HF Hf. induction HF as [|a b l es Hab HF IH]; [destruct Hf|].
      destruct Hf as [<-|Hf]; [exists a; split; [now left | exact Hab]|].
      destruct (IH Hf) as (q & Hq & Hqf). exists q. split; [now right | exact Hqf]. }
    eapply Hmono; eauto; [now left | now right].
Qed.

Lemma mem_rank_sorted (l : list proc) :
  StronglySorted (fun a b => (mem_key a <? mem_key b) = false)
    (sorted_desc (fun a b => mem_key a <? mem_key b) l).
Proof.
  apply (sorted_desc_sorted _ (fun _ => True)).
  - intros x y _ _ H. apply Z.ltb_lt in H. apply Z.ltb_ge. lia.
  - intros x y z _ _ _ H1 H2. apply Z.ltb_ge in H1, H2. apply Z.ltb_ge. lia.
  - apply List.Forall_forall. auto.
Qed.

(** The example of the specification: two processes, top 2. *)
Example cpu_top_two :
  option_map (fun c => map ce_name (cpu_top_processes c))
    (match result (get_cpu_stats 2 (sample_reading two_procs)) with
     | Ok c => Some c | Raise _ => None end)
  = Some [SStr "P1"; SStr "P2"].
Proof. reflexivity. Qed.

Lemma mem_entry_from_rss_order (total : Z) (p q : proc) (e f : mem_entry) :
  mem_entry_from total p e -> mem_entry_from total q f ->
  (mem_key p <? mem_key q) = false -> rss_order e f.
Proof.
  intros (m & Hm & Hr & _) (n & Hn & Hr' & _) Hk.
  unfold mem_key in Hk. rewrite Hm, Hn in Hk. apply Z.ltb_ge in Hk.
  unfold rss_order. rewrite Hr, Hr'. now apply to_mb_mono.
Qed.

Lemma mem_entries_returns (total : Z) (l : list proc) :
  total <> 0 ->
  List.Forall (fun p => info_pid p <> Missing /\ info_name p <> Missing) l ->
  exists es, mem_entries total l = Ok es.
Proof.
  intros Ht. induction 1 as [|p l [Hpid Hname] _ [es IH]]; [now exists []|].
  cbn [mem_entries]. destruct (info_memory_info p) as [| |m]; eauto.
  destruct (info_pid p) as [| |pid]; [congruence| |];
    (destruct (info_name p) as [| |name]; [congruence| |]);
    unfold py_div; destruct (Z.eqb_spec total 0) as [|_]; try contradiction;
    cbn [slot_item res_bind]; rewrite IH; cbn [res_bind]; eauto.
Qed.

Lemma get_cpu_stats_result (N : Z) (r : reading) :
  result (get_cpu_stats N r)
  = match sorted_by_cpu (os_procs_cpu r) with
    | Ok ranked =>
        Ok {| cpu_percent := os_cpu_percent r; cpu_count := os_cpu_count r;
              per_cpu := os_per_cpu r;
              cpu_top_processes := map cpu_entry_of (py_take N ranked) |}
    | Raise e => Raise e
    end.
Proof.
  unfold get_cpu_stats, result, bind, call, lift, ret.
  now destruct (sorted_by_cpu (os_procs_cpu r)).
Qed.

(** The CPU ranking, when [sorted] returns. *)
Lemma cpu_ranking_returned (N : Z) (r : reading) (cpu : cpu_stats) :
  0 <= N ->
  result (get_cpu_stats N r) = Ok cpu ->
  (length (cpu_top_processes cpu) <= Z.to_nat N)%nat
  /\ StronglySorted cpu_order (cpu_top_processes cpu)
  /\ exists ranked dropped,
       cpu_top_processes cpu = map cpu_entry_of ranked
       /\ Permutation (ranked ++ dropped) (os_procs_cpu r)
       /\ length ranked = Nat.min (Z.to_nat N) (length (os_procs_cpu r))
       /\ (forall a b, In a ranked -> In b dropped ->
             cpu_order (cpu_entry_of a) (cpu_entry_of b)).
Proof.
  intros HN. rewrite get_cpu_stats_result.
  destruct (sorted_by_cpu (os_procs_cpu r)) as [ranked|] eqn:Hsort; [|discriminate].
  intros [= <-]. cbn [cpu_top_processes].
  destruct (sorted_by_cpu_spec _ _ Hsort) as [Hperm Hsorted].
  destruct (py_take_prefix N ranked) as (k & -> & Hk). specialize (Hk HN). subst k.
  split; [rewrite length_map; apply firstn_le_length|].
  split.
  { apply StronglySorted_map. unfold cpu_order.
    eapply StronglySorted_impl; [|apply StronglySorted_firstn, Hsorted].
    intros a b Hab. cbv beta in Hab. now rewrite !ce_metric_of. }
  exists (firstn (Z.to_nat N) ranked), (skipn (Z.to_nat N) ranked).
  split; [reflexivity|].
  split; [now rewrite firstn_skipn|].
  split; [rewrite length_firstn; now rewrite (Permutation_length Hperm)|].
  intros a b Ha Hb. unfold cpu_order. rewrite !ce_metric_of.
  rewrite <- (firstn_skipn (Z.to_nat N) ranked) in Hsorted.
  exact (StronglySorted_app_cross _ _ _ Hsorted a b Ha Hb).
Qed.

Lemma in_py_take {A} (N : Z) (l : list A) (x : A) : In x (py_take N l) -> In x l.
Proof.
  destruct (py_take_prefix N l) as (k & -> & _). intros Hx.
  rewrite <- (firstn_skipn k l). apply in_or_app. now left.
Qed.

(** C2.  For a configured N >= 0, the memory ranking is as the
    specification has it: at most N entries, in non-increasing order of the
    resident size (and of the share of memory, for a positive total), and
    only processes whose [memory_info] was read, the others being skipped by
    [if mem_info]; it is returned whenever [virtual_memory()] answers with a
    total that is not zero.  The CPU ranking has no such guard.  When every
    [cpu_percent] of the table was read, it returns at most N entries in
    non-increasing order, the first min(N, number of processes) of the
    sorted table, each with its number.  When the table holds two or more
    processes and the [cpu_percent] of one of them is [None], [sorted]
    raises [TypeError] and [get_cpu_stats] returns no ranking at all; a
    table of a single such process is returned with [None] as its metric.
    In no case is a process left out of the CPU ranking for its metric. *)
Theorem top_n_ranking (N : Z) (r : reading) :
  0 <= N ->
  (forall mem, result (get_memory_stats N r) = Ok mem ->
     (length (mem_top_processes mem) <= Z.to_nat N)%nat
     /\ StronglySorted rss_order (mem_top_processes mem)
     /\ (forall vm, os_virtual_memory r = Ok vm -> 0 < vm_total vm ->
           StronglySorted mem_order (mem_top_processes mem))
     /\ exists kept total,
          Forall2 (mem_entry_from total) kept (mem_top_processes mem)
          /\ List.Forall (fun p => has_mem p = true /\ In p (os_procs_mem r)) kept)
  /\ (forall vm, os_virtual_memory r = Ok vm -> vm_total vm <> 0 ->
        List.Forall (fun p => info_pid p <> Missing /\ info_name p <> Missing)
                    (os_procs_mem r) ->
        exists mem, result (get_memory_stats N r) = Ok mem)
  /\ (forall cpu, result (get_cpu_stats N r) = Ok cpu ->
        (length (cpu_top_processes cpu) <= Z.to_nat N)%nat
        /\ StronglySorted cpu_order (cpu_top_processes cpu)
        /\ exists ranked dropped,
             cpu_top_processes cpu = map cpu_entry_of ranked
             /\ Permutation (ranked ++ dropped) (os_procs_cpu r)
             /\ length ranked = Nat.min (Z.to_nat N) (length (os_procs_cpu r))
             /\ (forall a b, In a ranked -> In b dropped ->
                   cpu_order (cpu_entry_of a) (cpu_entry_of b)))
  /\ (List.Forall (fun p => exists q, info_cpu_percent p = Has q) (os_procs_cpu r) ->
        exists cpu, result (get_cpu_stats N r) = Ok cpu
          /\ List.Forall (fun e => exists q, ce_cpu_percent e = SFloat q)
                         (cpu_top_processes cpu))
  /\ ((2 <= length (os_procs_cpu r))%nat ->
      (exists p, In p (os_procs_cpu r) /\ info_cpu_percent p = IsNone) ->
      exists e, result (get_cpu_stats N r) = Raise e /\ exn_class e = "TypeError")
  /\ (forall p, os_procs_cpu r = [p] -> info_cpu_percent p = IsNone -> 0 < N ->
        exists cpu, result (get_cpu_stats N r) = Ok cpu
          /\ map ce_cpu_percent (cpu_top_processes cpu) = [SNone]).
Proof.
  intros HN. split; [|split; [|split; [|split; [|split]]]].
  - intros mem. unfold get_memory_stats, result, bind, call, lift, ret in *.
    destruct (os_virtual_memory r) as [vm|]; [|discriminate].
    set (ranked := sorted_desc _ (os_procs_mem r)).
    destruct (mem_entries (vm_total vm) (py_take N ranked)) as [es|] eqn:Hes;
      [|discriminate].
    cbn [snd]. intros [= <-]. cbn [mem_top_processes].
    pose proof (mem_entries_spec _ _ _ Hes) as HF.
    destruct (py_take_prefix N ranked) as (k & Hk & HkN).
    specialize (HkN HN). subst k. rewrite Hk in *.
    split.
    { rewrite <- (List.Forall2_length HF).
      etransitivity; [apply List.filter_length_le | apply firstn_le_length]. }
    split.
    { eapply (Forall2_sorted _ (fun a b => (mem_key a <? mem_key b) = false));
        [|exact HF|].
      - intros p q e' f' _ _. apply mem_entry_from_rss_order.
      - apply StronglySorted_filter, StronglySorted_firstn, mem_rank_sorted. }
    split.
    { intros vm' [= <-] Hpos.
      eapply (Forall2_sorted _ (fun a b => (mem_key a <? mem_key b) = false));
        [|exact HF|].
      - intros p q e' f' Hp Hq. apply List.filter_In in Hp as [_ Hp], Hq as [_ Hq].
        now apply mem_entry_from_order.
      - apply StronglySorted_filter, StronglySorted_firstn, mem_rank_sorted. }
    exists (List.filter has_mem (firstn (Z.to_nat N) ranked)), (vm_total vm).
    split; [exact HF|].
    apply List.Forall_forall. intros p Hp.
    apply List.filter_In in Hp as [Hp Hm]. split; [exact Hm|].
    apply (Permutation_in (l := ranked)); [apply sorted_desc_perm|].
    rewrite <- (firstn_skipn (Z.to_nat N) ranked). apply in_or_app. now left.
  - intros vm Hvm Htotal Hkeys.
    unfold get_memory_stats, result, bind, call, lift, ret. rewrite Hvm.
    set (ranked := sorted_desc _ (os_procs_mem r)).
    destruct (mem_entries_returns (vm_total vm) (py_take N ranked) Htotal) as [es ->].
    { apply List.Forall_forall. intros p Hp%in_py_take.
      apply (proj1 (List.Forall_forall _ _) Hkeys).
      exact (Permutation_in _ (sorted_desc_perm _ _) Hp). }
    cbn [snd]. eauto.
  - intros cpu. now apply cpu_ranking_returned.
  - intros Hread. rewrite get_cpu_stats_result.
    assert (existsb (fun p => is_none (cpu_key p)) (os_procs_cpu r) = false) as Hnone.
    { apply not_true_is_false. intros (p & Hp & Hk)%existsb_exists.
      destruct (proj1 (List.Forall_forall _ _) Hread p Hp) as [q Hq].
      unfold cpu_key in Hk. rewrite Hq in Hk. discriminate Hk. }
    unfold sorted_by_cpu. rewrite Hnone, andb_false_r.
    eexists. split; [reflexivity|]. cbn [cpu_top_processes].
    apply List.Forall_forall. intros e (p & <- & Hp%in_py_take)%in_map_iff.
    apply (Permutation_in _ (sorted_desc_perm _ _)) in Hp.
    destruct (proj1 (List.Forall_forall _ _) Hread p Hp) as [q Hq].
    exists q. unfold cpu_entry_of. cbn [ce_cpu_percent]. now rewrite Hq.
  - intros Hlen (p & Hp & Hnone). rewrite get_cpu_stats_result.
    unfold sorted_by_cpu.
    assert (existsb (fun p => is_none (cpu_key p)) (os_procs_cpu r) = true) as ->.
    { apply existsb_exists. exists p. split; [exact Hp|].
      unfold cpu_key. now rewrite Hnone. }
    apply Nat.leb_le in Hlen. rewrite Hlen. cbn [andb].
    eexists. split; reflexivity.
  - intros p Hp Hnone Hpos. rewrite get_cpu_stats_result, Hp.
    eexists. split; [reflexivity|]. cbn [cpu_top_processes].
    unfold py_take. destruct (Z.leb_spec 0 N); [|lia].
    destruct (Z.to_nat N) as [|n] eqn:Hn; [lia|].
    cbn [length Nat.leb andb existsb sorted_desc fold_right insert_desc firstn map].
    unfold cpu_entry_of. cbn [ce_cpu_percent]. rewrite Hnone.
    now destruct n.
Qed.

Lemma top_n_ranking_witness :
  (forall mem, result (get_memory_stats 5 unread_reading) = Ok mem ->
     (length (mem_top_processes mem) <= 5)%nat)
  /\ (exists mem, result (get_memory_stats 5 unread_reading) = Ok mem
        /\ map me_name (mem_top_processes mem) = [SStr "init"])
  /\ (exists e, result (get_cpu_stats 5 unread_reading) = Raise e
        /\ exn_class e = "TypeError").
Proof.
  destruct (top_n_ranking 5 unread_reading) as (Hm & _ & _ & _ & Hc & _); [lia|].
  split; [intros mem H; exact (proj1 (Hm mem H))|].
  split; [eexists; split; reflexivity|].
  apply Hc; [cbn; lia|].
  exists (a_proc 7 "ghost" IsNone Missing). split; [now left | reflexivity].
Defined.

(** The memory ranking does drop such a process. *)
Example mem_ranking_drops_unread :
  option_map (fun m => map me_name (mem_top_processes m))
    (match result (get_memory_stats 5 (sample_reading
       [ a_proc 7 "ghost" Missing IsNone;
         a_proc 1 "init" Missing (Has {| rss := 3 * MiB; vms := 9 * MiB |}) ])) with
     | Ok m => Some m | Raise _ => None end)
  = Some [SStr "init"].
Proof. reflexivity. Qed.

(** A negative PROCESS_COUNT slices from the end. *)
Example negative_process_count :
  option_map (fun c => length (cpu_top_processes c))
    (match result (get_cpu_stats (-1) (sample_reading two_procs)) with
     | Ok c => Some c | Raise _ => None end)
  = Some 1%nat.
Proof. reflexivity. Qed.

(** ** Computations *)

Lemma bind_ok {A B} (m : M A) (k : A -> M B) (a : A) :
  result m = Ok a -> bind m k = (trace m ++ trace (k a), result (k a)).
Proof.
  destruct m as [t [a'|e]]; cbn; [|discriminate].
  intros [= ->]. now destruct (k a).
Qed.

Lemma bind_raise {A B} (m : M A) (k : A -> M B) (e : exn) :
  result m = Raise e -> bind m k = (trace m, Raise e).
Proof. destruct m as [t [a'|e']]; cbn; [discriminate | now intros [= ->]]. Qed.

Lemma try_except_ok {A} (m : M A) (h : exn -> M A) (a : A) :
  result m = Ok a -> try_except m h = (trace m, Ok a).
Proof. destruct m as [t [a'|e]]; cbn; [now intros [= ->] | discriminate]. Qed.

Lemma try_except_raise {A} (m : M A) (h : exn -> M A) (e : exn) :
  result m = Raise e -> try_except m h = (trace m ++ trace (h e), result (h e)).
Proof.
  destruct m as [t [a'|e']]; cbn; [discriminate|].
  intros [= ->]. now destruct (h e).
Qed.

(** ** The tick *)

Lemma tick_shape (cfg : config) (r : reading) :
  tick cfg r
  = (trace (tick_try cfg r)
     ++ match result (tick_try cfg r) with
        | Ok _ => []
        | Raise e => error_report e
        end ++ [Sleep (MONITOR_INTERVAL cfg)],
     result (time_sleep (MONITOR_INTERVAL cfg))).
Proof.
  unfold tick, time_sleep, call. destruct (tick_try cfg r) as [t [[]|e]]; cbn.
  - reflexivity.
  - now rewrite <- app_assoc.
Qed.



Lemma time_sleep_ok (secs : Z) :
  sleep_returns secs = true -> result (time_sleep secs) = Ok tt.
Proof. intros H. unfold time_sleep, call, result. cbn [snd]. now rewrite H. Qed.

Lemma time_sleep_raises (secs : Z) :
  sleep_returns secs = false -> result (time_sleep secs) = Raise (sleep_error secs).
Proof. intros H. unfold time_sleep, call, result. cbn [snd]. now rewrite H. Qed.



Lemma tick_result (cfg : config) (r : reading) :
  result (tick cfg r) = result (time_sleep (MONITOR_INTERVAL cfg)).
Proof. now rewrite tick_shape. Qed.

Lemma ticks_cons (cfg : config) (r : reading) (rs : list reading) :
  ticks cfg (r :: rs) = trace (tick cfg r) ++ ticks cfg rs.
Proof. reflexivity. Qed.

Lemma ticks_app (cfg : config) (rs1 rs2 : list reading) :
  ticks cfg (rs1 ++ rs2) = ticks cfg rs1 ++ ticks cfg rs2.
Proof. unfold ticks. apply flat_map_app. Qed.

(** The loop runs the ticks of [ticks_run], one after the other. *)
Lemma loop_unroll (cfg : config) (rs : list reading) :
  trace (loop cfg rs) = ticks cfg (ticks_run cfg rs).
Proof.
  unfold ticks_run. destruct (sleep_returns (MONITOR_INTERVAL cfg)) eqn:Hsleep.
  - induction rs as [|r rs IH]; [reflexivity|].
    cbn [loop]. rewrite ticks_cons, <- IH.
    now rewrite (bind_ok _ _ tt (eq_trans (tick_result cfg r) (time_sleep_ok _ Hsleep))).
  - destruct rs as [|r rs]; [reflexivity|].
    cbn [loop firstn]. rewrite ticks_cons. cbn [ticks flat_map]. rewrite app_nil_r.
    rewrite (bind_raise _ _ _ (eq_trans (tick_result cfg r)
                                 (time_sleep_raises _ Hsleep))).
    reflexivity.
Qed.



Lemma get_cpu_stats_quiet (N : Z) (r : reading) :
  forallb quiet (trace (get_cpu_stats N r)) = true.
Proof.
  unfold get_cpu_stats, bind, call, lift, ret.
  now destruct (sorted_by_cpu (os_procs_cpu r)).
Qed.

Lemma get_memory_stats_quiet (N : Z) (r : reading) :
  forallb quiet (trace (get_memory_stats N r)) = true.
Proof.
  unfold get_memory_stats, bind, call, lift, ret.
  destruct (os_virtual_memory r); [|reflexivity].
  now destruct (mem_entries _ _).
Qed.

Lemma get_disk_io_quiet (r : reading) :
  forallb quiet (trace (get_disk_io r)) = true.
Proof.
  unfold get_disk_io, bind, call, lift, ret, try_except.
  destruct (os_disk_io r) as [[io|]|]; destruct (os_per_disk r); reflexivity.
Qed.

Lemma get_network_stats_quiet (r : reading) :
  forallb quiet (trace (get_network_stats r)) = true.
Proof.
  unfold get_network_stats, bind, call, lift, ret.
  now destruct (os_net_io r).
Qed.

Lemma provider_calls_quiet (cfg : config) (r : reading) :
  forallb quiet (provider_calls cfg r) = true.
Proof.
  unfold provider_calls.
  now rewrite !forallb_app, get_cpu_stats_quiet, get_memory_stats_quiet,
    get_disk_io_quiet, get_network_stats_quiet.
Qed.

(** A tick whose providers all return. *)
Lemma tick_try_sampled (cfg : config) (r : reading) (cpu : cpu_stats)
      (mem : mem_stats) (disk : disk_stats) (net : net_stats) :
  result (get_cpu_stats (PROCESS_COUNT cfg) r) = Ok cpu ->
  result (get_memory_stats (PROCESS_COUNT cfg) r) = Ok mem ->
  result (get_disk_io r) = Ok disk ->
  result (get_network_stats r) = Ok net ->
  tick_try cfg r
  = match cpu_top_processes cpu, mem_top_processes mem with
    | cpu_top :: _, mem_top :: _ =>
        (provider_calls cfg r ++ category_logs cfg r cpu mem disk net
         ++ summary_events cfg r (summary_lines cfg r cpu mem disk net cpu_top mem_top),
         Ok tt)
    | _, _ =>
        (provider_calls cfg r ++ category_logs cfg r cpu mem disk net,
         Raise IndexError)
    end.
Proof.
  intros Hcpu Hmem Hdisk Hnet. unfold tick_try, provider_calls.
  rewrite (bind_ok _ _ _ Hcpu), (bind_ok _ _ _ Hmem), (bind_ok _ _ _ Hdisk),
    (bind_ok _ _ _ Hnet).
  cbn [bind call lift ret emit log_info fst snd trace result app].
  unfold summary_events, summary_lines, category_logs.
  destruct (cpu_top_processes cpu) as [|cpu_top ?];
    cbn [bind call lift ret emit log_info py_index nth_error fst snd trace result app].
  { now rewrite <- !app_assoc. }
  destruct (mem_top_processes mem) as [|mem_top ?];
    cbn [bind call lift ret emit log_info py_index nth_error fst snd trace result app].
  { now rewrite <- !app_assoc. }
  destruct (console_output cfg);
    cbn [bind call lift ret emit log_info fst snd trace result app map];
    now rewrite <- !app_assoc.
Qed.

(** A tick in which a provider raises: the body stops before any record
    is logged. *)
Lemma tick_try_provider_fails (cfg : config) (r : reading) :
  provider_fails cfg r ->
  exists e, result (tick_try cfg r) = Raise e
            /\ forallb quiet (trace (tick_try cfg r)) = true.
Proof.
  intros Hfail. unfold tick_try, provider_fails in *.
  pose proof (get_cpu_stats_quiet (PROCESS_COUNT cfg) r) as Q1.
  pose proof (get_memory_stats_quiet (PROCESS_COUNT cfg) r) as Q2.
  pose proof (get_disk_io_quiet r) as Q3.
  pose proof (get_network_stats_quiet r) as Q4.
  destruct (get_cpu_stats (PROCESS_COUNT cfg) r) as [t1 [cpu|e1]];
    cbn [bind fst snd trace result] in *; [|eauto].
  destruct (get_memory_stats (PROCESS_COUNT cfg) r) as [t2 [mem|e2]];
    cbn [bind fst snd trace result] in *;
    [|exists e2; split; [reflexivity | now rewrite forallb_app, Q1, Q2]].
  destruct (get_disk_io r) as [t3 [disk|e3]];
    cbn [bind fst snd trace result] in *;
    [|exists e3; split; [reflexivity | now rewrite !forallb_app, Q1, Q2, Q3]].
  destruct (get_network_stats r) as [t4 [net|e4]];
    cbn [bind fst snd trace result] in *;
    [|exists e4; split; [reflexivity | now rewrite !forallb_app, Q1, Q2, Q3, Q4]].
  exfalso. destruct Hfail as [[e H]|[[e H]|[[e H]|[e H]]]]; discriminate.
Qed.

Lemma providers_cases (cfg : config) (r : reading) :
  provider_fails cfg r
  \/ exists cpu mem disk net,
       result (get_cpu_stats (PROCESS_COUNT cfg) r) = Ok cpu
       /\ result (get_memory_stats (PROCESS_COUNT cfg) r) = Ok mem
       /\ result (get_disk_io r) = Ok disk
       /\ result (get_network_stats r) = Ok net.
Proof.
  unfold provider_fails.
  destruct (result (get_cpu_stats (PROCESS_COUNT cfg) r)) as [cpu|e]; [|eauto].
  destruct (result (get_memory_stats (PROCESS_COUNT cfg) r)) as [mem|e]; [|eauto].
  destruct (result (get_disk_io r)) as [disk|e]; [|eauto 6].
  destruct (result (get_network_stats r)) as [net|e]; [|eauto 7].
  right. eauto 8.
Qed.

(** Every tick is: calls that write nothing, then log records and console
    lines, then the sleep of the scheduler. *)
Lemma tick_trace_cases (cfg : config) (r : reading) :
  exists calls written,
    trace (tick cfg r) = calls ++ written ++ [Sleep (MONITOR_INTERVAL cfg)]
    /\ forallb quiet calls = true
    /\ forallb writes written = true.
Proof.
  rewrite tick_shape. cbn [trace fst].
  destruct (providers_cases cfg r) as [Hfail|(cpu & mem & disk & net & H1 & H2 & H3 & H4)].
  - destruct (tick_try_provider_fails cfg r Hfail) as (e & -> & Hq).
    exists (trace (tick_try cfg r)), (error_report e). auto.
  - rewrite (tick_try_sampled cfg r cpu mem disk net H1 H2 H3 H4).
    pose proof (provider_calls_quiet cfg r) as Hq.
    assert (forall l, forallb writes
              (map (fun l => LogRecord "main" "INFO" (MStr l)) l) = true) as Hlog
      by (induction l; cbn; auto).
    assert (forall t l, forallb writes (map (fun l => Print (stamped t l)) l) = true)
      as Hprint by (induction l; cbn; auto).
    destruct (cpu_top_processes cpu) as [|ct ?]; [|destruct (mem_top_processes mem) as [|mt ?]];
      cbn [result trace fst snd].
    + exists (provider_calls cfg r),
        (category_logs cfg r cpu mem disk net ++ error_report IndexError).
      rewrite <- !app_assoc. auto.
    + exists (provider_calls cfg r),
        (category_logs cfg r cpu mem disk net ++ error_report IndexError).
      rewrite <- !app_assoc. auto.
    + exists (provider_calls cfg r),
        (category_logs cfg r cpu mem disk net
         ++ summary_events cfg r (summary_lines cfg r cpu mem disk net ct mt)).
      rewrite <- !app_assoc. split; [reflexivity|]. split; [exact Hq|].
      rewrite forallb_app. unfold summary_events.
      rewrite forallb_app, Hlog. destruct (console_output cfg); [|reflexivity].
      now rewrite forallb_app, Hprint.
Qed.

Lemma quiet_filter (f : event -> bool) (t : list event) :
  (forall e, quiet e = true -> f e = false) ->
  forallb quiet t = true -> List.filter f t = [].
Proof.
  intros Hf. induction t as [|e t IH]; cbn [forallb List.filter]; [reflexivity|].
  intros [He Ht]%andb_true_iff. now rewrite (Hf e He), IH.
Qed.

Lemma writes_filter (f : event -> bool) (t : list event) :
  (forall e, writes e = true -> f e = false) ->
  forallb writes t = true -> List.filter f t = [].
Proof.
  intros Hf. induction t as [|e t IH]; cbn [forallb List.filter]; [reflexivity|].
  intros [He Ht]%andb_true_iff. now rewrite (Hf e He), IH.
Qed.

Lemma quiet_rows (name : string) (t : list event) :
  forallb quiet t = true -> rows name t = [].
Proof.
  induction t as [|e t IH]; cbn [forallb rows flat_map]; [reflexivity|].
  intros [He Ht]%andb_true_iff. fold (rows name t). rewrite (IH Ht).
  destruct e; try reflexivity. discriminate He.
Qed.

Lemma rows_app (name : string) (t1 t2 : list event) :
  rows name (t1 ++ t2) = rows name t1 ++ rows name t2.
Proof. unfold rows. apply flat_map_app. Qed.

Lemma tick_sleeps_once (cfg : config) (r : reading) :
  List.filter is_sleep (trace (tick cfg r)) = [Sleep (MONITOR_INTERVAL cfg)].
Proof.
  destruct (tick_trace_cases cfg r) as (calls & written & -> & Hq & Hw).
  rewrite !List.filter_app, (quiet_filter is_sleep calls), (writes_filter is_sleep written);
    [reflexivity| |exact Hw| |exact Hq]; now intros [].
Qed.

Lemma tick_never_blocks (cfg : config) (r : reading) :
  List.filter blocking_sample (trace (tick cfg r)) = [].
Proof.
  destruct (tick_trace_cases cfg r) as (calls & written & -> & Hq & Hw).
  rewrite !List.filter_app, (quiet_filter blocking_sample calls),
    (writes_filter blocking_sample written);
    [reflexivity| |exact Hw| |exact Hq].
  - now intros [].
  - intros [[t|] b| | | | | |]; try reflexivity.
    unfold quiet. cbn. now destruct (Qle_bool t 0).
Qed.

Lemma ticks_sleeps (cfg : config) (rs : list reading) :
  List.filter is_sleep (ticks cfg rs)
  = repeat (Sleep (MONITOR_INTERVAL cfg)) (length rs).
Proof.
  induction rs as [|r rs IH]; [reflexivity|].
  now rewrite ticks_cons, List.filter_app, tick_sleeps_once, IH.
Qed.

Lemma loop_sleeps (cfg : config) (rs : list reading) :
  List.filter is_sleep (trace (loop cfg rs))
  = repeat (Sleep (MONITOR_INTERVAL cfg)) (length (ticks_run cfg rs)).
Proof. rewrite loop_unroll. apply ticks_sleeps. Qed.

Lemma loop_never_blocks (cfg : config) (rs : list reading) :
  List.filter blocking_sample (trace (loop cfg rs)) = [].
Proof.
  rewrite loop_unroll. induction (ticks_run cfg rs) as [|r l IH]; [reflexivity|].
  now rewrite ticks_cons, List.filter_app, tick_never_blocks, IH.
Qed.




(** C10.  When all providers return and the CPU or the memory ranking is
    empty, the four category records are logged, then indexing element 0
    raises [IndexError]; the handler of the loop reports it, and no summary
    line reaches the main logger or the console.  The tick then ends as
    its [time.sleep] does. *)
Theorem empty_ranking_skips_summary (cfg : config) (r : reading)
        (cpu : cpu_stats) (mem : mem_stats) (disk : disk_stats) (net : net_stats) :
  result (get_cpu_stats (PROCESS_COUNT cfg) r) = Ok cpu ->
  result (get_memory_stats (PROCESS_COUNT cfg) r) = Ok mem ->
  result (get_disk_io r) = Ok disk ->
  result (get_network_stats r) = Ok net ->
  cpu_top_processes cpu = [] \/ mem_top_processes mem = [] ->
  trace (tick cfg r)
  = provider_calls cfg r ++ category_logs cfg r cpu mem disk net
    ++ error_report IndexError ++ [Sleep (MONITOR_INTERVAL cfg)]
  /\ List.filter is_log (trace (tick cfg r))
     = category_logs cfg r cpu mem disk net
       ++ [LogRecord "main" "ERROR"
             (MStr "Error in monitoring loop: list index out of range")]
  /\ List.filter is_print (trace (tick cfg r))
     = [Print "ERROR: Error in monitoring loop: list index out of range"]
  /\ result (tick cfg r) = result (time_sleep (MONITOR_INTERVAL cfg)).
Proof.
  intros H1 H2 H3 H4 Hempty.
  assert (tick_try cfg r
          = (provider_calls cfg r ++ category_logs cfg r cpu mem disk net,
             Raise IndexError)) as Htry.
  { rewrite (tick_try_sampled cfg r cpu mem disk net H1 H2 H3 H4).
    destruct Hempty as [-> | ->]; [reflexivity|].
    now destruct (cpu_top_processes cpu). }
  assert (trace (tick cfg r)
          = provider_calls cfg r ++ category_logs cfg r cpu mem disk net
            ++ error_report IndexError ++ [Sleep (MONITOR_INTERVAL cfg)]) as Htrace.
  { rewrite tick_shape, Htry. cbn [trace result fst snd]. now rewrite <- app_assoc. }
  split; [exact Htrace|].
  pose proof (provider_calls_quiet cfg r) as Hq.
  rewrite Htrace, !List.filter_app.
  rewrite (quiet_filter is_log _ ltac:(now intros []) Hq).
  rewrite (quiet_filter is_print _ ltac:(now intros []) Hq).
  repeat split; try reflexivity. apply tick_result.
Qed.

Lemma empty_ranking_skips_summary_witness :
  List.filter is_print (trace (tick default_config (sample_reading [])))
  = [Print "ERROR: Error in monitoring loop: list index out of range"].
Proof.
  refine (proj1 (proj2 (proj2
    (empty_ranking_skips_summary default_config (sample_reading [])
       _ _ _ _ eq_refl eq_refl eq_refl eq_refl (or_introl eq_refl))))).
Defined.

(** With PROCESS_COUNT = 0 every tick takes this path. *)
Example process_count_zero :
  List.filter is_print
    (trace (tick {| LOG_DIR := "/var/log/monitor";
                    MONITOR_MODE := "host"; MONITOR_INTERVAL := 5;
                    PING_HOST := "8.8.8.8"; CONSOLE_OUTPUT := "true";
                    PROCESS_COUNT := 0; LOG_FORMAT := "both" |}
                 (sample_reading two_procs)))
  = [Print "ERROR: Error in monitoring loop: list index out of range"].
Proof. reflexivity. Qed.

(** ** Rows of the cumulative counters *)

Lemma get_disk_io_ok (r : reading) (disk : disk_stats) :
  result (get_disk_io r) = Ok disk ->
  exists io, os_disk_io r = Ok (Some io)
             /\ disk_record disk = disk_totals_row io (os_per_disk r).
Proof.
  unfold get_disk_io, bind, call, lift, ret, try_except, result.
  destruct (os_disk_io r) as [[io|]|]; destruct (os_per_disk r) as [per|];
    cbn [snd]; try discriminate; intros [= <-]; exists io; (split; [reflexivity|]).
  - unfold disk_record, disk_totals_row. cbn [read_mb write_mb read_count write_count per_disk_io].
    rewrite map_map. erewrite map_ext; [reflexivity|]. now intros [d x].
  - reflexivity.
Qed.

Lemma get_network_stats_ok (r : reading) (net : net_stats) (host : string)
      (ping : ping_dict) :
  result (get_network_stats r) = Ok net ->
  exists io, os_net_io r = Ok io
             /\ network_record host net ping = network_totals_row host io ping.
Proof.
  unfold get_network_stats, bind, call, ret, result.
  destruct (os_net_io r) as [io|]; cbn [snd]; [|discriminate].
  intros [= <-]. exists io. split; reflexivity.
Qed.

Lemma writes_main_rows (name : string) (t : list event) :
  String.eqb "main" name = false ->
  forallb (fun e => match e with
                    | LogRecord l _ _ => String.eqb l "main"
                    | Print _ => true
                    | _ => false
                    end) t = true ->
  rows name t = [].
Proof.
  intros Hname. induction t as [|e t IH]; cbn [forallb rows flat_map]; [reflexivity|].
  intros [He Ht]%andb_true_iff. fold (rows name t). rewrite (IH Ht).
  destruct e; try discriminate He; [|reflexivity].
  apply String.eqb_eq in He as ->. now rewrite Hname.
Qed.

Lemma summary_events_rows (name : string) (cfg : config) (r : reading)
      (lines : list string) :
  String.eqb "main" name = false -> rows name (summary_events cfg r lines) = [].
Proof.
  intros Hname. apply writes_main_rows; [exact Hname|].
  unfold summary_events. rewrite forallb_app.
  assert (forall l, forallb (fun e => match e with
                    | LogRecord l _ _ => String.eqb l "main"
                    | Print _ => true
                    | _ => false
                    end) (map (fun l => LogRecord "main" "INFO" (MStr l)) l) = true) as ->
    by (induction l; cbn; auto).
  destruct (console_output cfg); [|reflexivity].
  rewrite forallb_app.
  assert (forall l, forallb (fun e => match e with
                    | LogRecord l _ _ => String.eqb l "main"
                    | Print _ => true
                    | _ => false
                    end) (map (fun l => Print (stamped (os_now r) l)) l) = true) as ->
    by (induction l; cbn; auto).
  reflexivity.
Qed.

Lemma error_report_rows (name : string) (e : exn) :
  String.eqb "main" name = false -> rows name (error_report e) = [].
Proof. intros H. unfold error_report, rows. cbn [flat_map]. now rewrite H. Qed.

(** The rows a tick hands to a category logger: those of [category_logs]
    when every provider returned, none otherwise. *)
Lemma tick_rows (cfg : config) (r : reading) (name : string) :
  String.eqb "main" name = false ->
  (provider_fails cfg r /\ rows name (trace (tick cfg r)) = [])
  \/ exists cpu mem disk net,
       result (get_cpu_stats (PROCESS_COUNT cfg) r) = Ok cpu
       /\ result (get_memory_stats (PROCESS_COUNT cfg) r) = Ok mem
       /\ result (get_disk_io r) = Ok disk
       /\ result (get_network_stats r) = Ok net
       /\ rows name (trace (tick cfg r))
          = rows name (category_logs cfg r cpu mem disk net).
Proof.
  intros Hname.
  destruct (providers_cases cfg r) as [Hfail|(cpu & mem & disk & net & H1 & H2 & H3 & H4)].
  - left. split; [exact Hfail|].
    destruct (tick_try_provider_fails cfg r Hfail) as (e & He & Hq).
    rewrite tick_shape, He. cbn [trace fst].
    now rewrite !rows_app, (quiet_rows _ _ Hq), (error_report_rows _ _ Hname).
  - right. exists cpu, mem, disk, net. repeat (split; [assumption|]).
    rewrite tick_shape, (tick_try_sampled cfg r cpu mem disk net H1 H2 H3 H4).
    pose proof (quiet_rows name _ (provider_calls_quiet cfg r)) as Hq.
    destruct (cpu_top_processes cpu) as [|ct ?]; [|destruct (mem_top_processes mem) as [|mt ?]];
      cbn [trace result fst snd];
      rewrite !rows_app, Hq, ?summary_events_rows, ?error_report_rows by exact Hname;
      cbn [app]; now rewrite ?app_nil_r.
Qed.

Lemma to_mb_is_megabytes (b : Z) : is_megabytes b (to_mb b).
Proof.
  split; [eexists; reflexivity|].
  change 1048576%Q with (inject_Z MiB). apply round2_close.
Qed.

Lemma disk_totals_row_holds (io : sdiskio) (per_disk : res (list (string * sdiskio))) :
  holds_disk_totals io per_disk (disk_totals_row io per_disk).
Proof.
  unfold holds_disk_totals, disk_totals_row.
  eexists. eexists. eexists. split; [reflexivity|].
  split; [apply to_mb_is_megabytes|]. split; [apply to_mb_is_megabytes|].
  destruct per_disk as [l|e]; [|constructor].
  induction l as [|[d x] l IH]; cbn [map]; constructor; [|exact IH].
  split; [reflexivity|]. unfold holds_totals, disk_totals_dict. cbn [snd].
  eexists. eexists. split; [reflexivity|].
  split; apply to_mb_is_megabytes.
Qed.

Lemma network_totals_row_holds (host : string) (io : snetio) (ping : ping_dict) :
  holds_network_totals host io ping (network_totals_row host io ping).
Proof.
  unfold holds_network_totals, network_totals_row.
  eexists. eexists. split; [reflexivity|]. split; apply to_mb_is_megabytes.
Qed.

Lemma ticks_rows_in (cfg : config) (name : string) (l : list reading) (m : message) :
  In m (rows name (ticks cfg l)) ->
  exists r, In r l /\ In m (rows name (trace (tick cfg r))).
Proof.
  induction l as [|r l IH]; [intros []|].
  rewrite ticks_cons, rows_app. intros [Hm|Hm]%in_app_or.
  - exists r. split; [now left | exact Hm].
  - destruct (IH Hm) as (r' & Hr' & Hm'). exists r'. split; [now right | exact Hm'].
Qed.

Lemma ticks_run_in (cfg : config) (rs : list reading) (r : reading) :
  In r (ticks_run cfg rs) -> In r rs.
Proof.
  unfold ticks_run. destruct (sleep_returns (MONITOR_INTERVAL cfg)); [auto|].
  destruct rs as [|x rs]; cbn [firstn]; [auto|]. intros [<-|[]]. now left.
Qed.

(** C8.  Every row a tick hands to the disk or network logger holds the
    totals that psutil reported in that tick: each megabyte figure is the
    byte counter of the reading in MB with two decimals (a multiple of 0.01
    within 0.005 of the counter divided by 1024**2), each count is the
    counter itself, and the per-disk dicts hold the totals of each disk in
    the same way.  A tick whose body runs through writes exactly one row
    for each.  Every disk or network row of a run is the row of the totals
    of one reading of that run: no row is made of two readings. *)
Theorem disk_and_network_rows_are_totals (cfg : config) (r : reading)
        (rs : list reading) :
  (forall m, In m (rows "disk" (trace (tick cfg r))) ->
     exists io, os_disk_io r = Ok (Some io)
                /\ m = disk_totals_row io (os_per_disk r)
                /\ holds_disk_totals io (os_per_disk r) m)
  /\ (forall m, In m (rows "network" (trace (tick cfg r))) ->
     exists io, os_net_io r = Ok io
                /\ m = network_totals_row (PING_HOST cfg) io
                         (ping_network (PING_HOST cfg) (os_ping r))
                /\ holds_network_totals (PING_HOST cfg) io
                     (ping_network (PING_HOST cfg) (os_ping r)) m)
  /\ (result (tick_try cfg r) = Ok tt ->
      exists dio nio,
        os_disk_io r = Ok (Some dio) /\ os_net_io r = Ok nio
        /\ rows "disk" (trace (tick cfg r)) = [disk_totals_row dio (os_per_disk r)]
        /\ rows "network" (trace (tick cfg r))
           = [network_totals_row (PING_HOST cfg) nio
                (ping_network (PING_HOST cfg) (os_ping r))])
  /\ (forall m, In m (rows "disk" (trace (loop cfg rs))) ->
     exists r' io, In r' rs /\ os_disk_io r' = Ok (Some io)
                   /\ holds_disk_totals io (os_per_disk r') m)
  /\ (forall m, In m (rows "network" (trace (loop cfg rs))) ->
     exists r' io, In r' rs /\ os_net_io r' = Ok io
                   /\ holds_network_totals (PING_HOST cfg) io
                        (ping_network (PING_HOST cfg) (os_ping r')) m)
  /\ (forall bytes, is_megabytes bytes (to_mb bytes)).
Proof.
  assert (forall r0 m, In m (rows "disk" (trace (tick cfg r0))) ->
            exists io, os_disk_io r0 = Ok (Some io)
                       /\ m = disk_totals_row io (os_per_disk r0)) as Hdisk.
  { intros r0 m Hm.
    destruct (tick_rows cfg r0 "disk" eq_refl)
      as [[_ Hnone]|(cpu & mem & disk & net & _ & _ & H3 & _ & Hrows)].
    + rewrite Hnone in Hm. destruct Hm.
    + rewrite Hrows in Hm. cbn in Hm. destruct Hm as [<-|[]].
      exact (get_disk_io_ok r0 disk H3). }
  assert (forall r0 m, In m (rows "network" (trace (tick cfg r0))) ->
            exists io, os_net_io r0 = Ok io
                       /\ m = network_totals_row (PING_HOST cfg) io
                                (ping_network (PING_HOST cfg) (os_ping r0))) as Hnet.
  { intros r0 m Hm.
    destruct (tick_rows cfg r0 "network" eq_refl)
      as [[_ Hnone]|(cpu & mem & disk & net & _ & _ & _ & H4 & Hrows)].
    + rewrite Hnone in Hm. destruct Hm.
    + rewrite Hrows in Hm. cbn in Hm. destruct Hm as [<-|[]].
      exact (get_network_stats_ok r0 net _ _ H4). }
  split; [|split; [|split; [|split; [|split]]]].
  - intros m Hm. destruct (Hdisk r m Hm) as (io & Hio & ->).
    exists io. split; [exact Hio|]. split; [reflexivity|]. apply disk_totals_row_holds.
  - intros m Hm. destruct (Hnet r m Hm) as (io & Hio & ->).
    exists io. split; [exact Hio|]. split; [reflexivity|].
    apply network_totals_row_holds.
  - intros Hok.
    destruct (tick_rows cfg r "disk" eq_refl)
      as [[Hfail _]|(cpu & mem & disk & net & H1 & H2 & H3 & H4 & Hrows)].
    { destruct (tick_try_provider_fails cfg r Hfail) as (e & He & _). congruence. }
    destruct (tick_rows cfg r "network" eq_refl)
      as [[Hfail _]|(cpu' & mem' & disk' & net' & _ & _ & _ & H4' & Hrows')].
    { destruct (tick_try_provider_fails cfg r Hfail) as (e & He & _). congruence. }
    destruct (get_disk_io_ok r disk H3) as (dio & Hd & Hdr).
    destruct (get_network_stats_ok r net' (PING_HOST cfg)
                (ping_network (PING_HOST cfg) (os_ping r)) H4') as (nio & Hn & Hnr).
    exists dio, nio. repeat (split; [assumption|]).
    rewrite Hrows, Hrows'. cbn. now rewrite Hdr, Hnr.
  - intros m Hm. rewrite loop_unroll in Hm.
    destruct (ticks_rows_in cfg "disk" _ m Hm) as (r' & Hr' & Hm').
    destruct (Hdisk r' m Hm') as (io & Hio & ->).
    exists r', io. split; [now apply (ticks_run_in cfg)|]. split; [exact Hio|].
    apply disk_totals_row_holds.
  - intros m Hm. rewrite loop_unroll in Hm.
    destruct (ticks_rows_in cfg "network" _ m Hm) as (r' & Hr' & Hm').
    destruct (Hnet r' m Hm') as (io & Hio & ->).
    exists r', io. split; [now apply (ticks_run_in cfg)|]. split; [exact Hio|].
    apply network_totals_row_holds.
  - exact to_mb_is_megabytes.
Qed.

Lemma disk_and_network_rows_are_totals_witness :
  exists dio nio,
    os_disk_io (sample_reading two_procs) = Ok (Some dio)
    /\ os_net_io (sample_reading two_procs) = Ok nio
    /\ rows "disk" (trace (tick default_config (sample_reading two_procs)))
       = [disk_totals_row dio (os_per_disk (sample_reading two_procs))]
    /\ rows "network" (trace (tick default_config (sample_reading two_procs)))
       = [network_totals_row "8.8.8.8" nio
            (ping_network "8.8.8.8" (os_ping (sample_reading two_procs)))].
Proof.
  exact (proj1 (proj2 (proj2 (disk_and_network_rows_are_totals default_config
                                (sample_reading two_procs) []))) eq_refl).
Defined.

(** The sample counters, 5 MiB read and 7 MiB written, are logged as 5.0
    and 7.0. *)
Example sample_disk_row_figures :
  rows "disk" (trace (tick default_config (sample_reading two_procs)))
  = [MDict [("read_mb", PFloat (500 # 100)); ("write_mb", PFloat (700 # 100));
            ("read_count", PInt 120); ("write_count", PInt 340);
            ("per_disk_io",
             PDict [("sda", PDict [("read_mb", PFloat (500 # 100));
                                   ("write_mb", PFloat (700 # 100));
                                   ("read_count", PInt 120);
                                   ("write_count", PInt 340)])])]].
Proof. reflexivity. Qed.

(** Two ticks over unchanged counters log the same totals twice; a
    per-interval delta would be zero the second time. *)
Example unchanged_counters_logged_again :
  rows "disk" (trace (loop default_config
                        [sample_reading two_procs; sample_reading two_procs]))
  = [ disk_totals_row sample_disk (Ok [("sda", sample_disk)]);
      disk_totals_row sample_disk (Ok [("sda", sample_disk)]) ].
Proof. reflexivity. Qed.

(** ** CPU sampling *)

Lemma main_trace (cfg : config) (rs : list reading) :
  exists startup,
    trace (main cfg rs) = CpuPercent None true :: startup ++ trace (loop cfg rs)
    /\ List.filter is_cpu_percent startup = []
    /\ List.filter is_sleep startup = []
    /\ List.filter blocking_sample startup = [].
Proof.
  unfold main. destruct (loop cfg rs) as [t res].
  cbn [bind call emit log_info fst snd trace app].
  exists [ Psutil "disk_io_counters"; SetupLogging (MONITOR_MODE cfg);
           LogRecord "main" "INFO"
             (MStr ("Starting monitor in " +:+ MONITOR_MODE cfg +:+ " mode"));
           LogRecord "main" "INFO"
             (MStr ("Logging Format Set To: " +:+ py_upper (log_format cfg)));
           LogRecord "main" "INFO"
             (MStr ("CSV Logging: "
                    +:+ enabled_word (string_in (log_format cfg) ["csv"; "both"])));
           LogRecord "main" "INFO"
             (MStr ("Flat Logging: "
                    +:+ enabled_word (string_in (log_format cfg) ["log"; "both"])));
           LogRecord "main" "INFO" (MStr (dashes 80));
           Print ("Starting monitor in " +:+ MONITOR_MODE cfg +:+ " mode");
           Print ("Logging Format Set To: " +:+ py_upper (log_format cfg));
           Print (dashes 80) ].
  repeat split.
Qed.

Lemma get_cpu_stats_samples (N : Z) (r : reading) :
  List.filter is_cpu_percent (trace (get_cpu_stats N r))
  = CpuPercent None false
    :: match sorted_by_cpu (os_procs_cpu r) with
       | Ok _ => [CpuPercent None true]
       | Raise _ => []
       end.
Proof.
  unfold get_cpu_stats, bind, call, lift, ret.
  now destruct (sorted_by_cpu (os_procs_cpu r)).
Qed.

(** C7.  [main] calls [psutil.cpu_percent(interval=None, percpu=True)]
    once, first of all, before the loop.  Every later CPU sample is taken
    by [get_cpu_stats] with [interval=None]: no call of the run waits for
    an interval.  The only sleeps of a run are the scheduler's
    [time.sleep(interval)], one per tick that runs (every tick; the first
    one only when [time.sleep] raises, for a negative interval or one
    beyond the clock, and ends the loop). *)
Theorem cpu_sampling_is_primed_and_never_blocks (cfg : config) (rs : list reading) :
  (exists rest, trace (main cfg rs) = CpuPercent None true :: rest)
  /\ List.filter is_cpu_percent (trace (main cfg [])) = [CpuPercent None true]
  /\ List.filter blocking_sample (trace (main cfg rs)) = []
  /\ List.filter is_sleep (trace (main cfg rs))
     = repeat (Sleep (MONITOR_INTERVAL cfg)) (length (ticks_run cfg rs))
  /\ (forall r,
        List.filter blocking_sample (trace (get_cpu_stats (PROCESS_COUNT cfg) r)) = []
        /\ exists more,
             List.filter is_cpu_percent (trace (get_cpu_stats (PROCESS_COUNT cfg) r))
             = CpuPercent None false :: more
             /\ (more = [] \/ more = [CpuPercent None true])).
Proof.
  destruct (main_trace cfg rs) as (startup & Ht & Hc & Hs & Hb).
  split; [eauto|].
  split.
  { destruct (main_trace cfg []) as (s0 & Ht0 & Hc0 & _ & _).
    rewrite Ht0. cbn [List.filter is_cpu_percent loop trace ret fst].
    now rewrite app_nil_r, Hc0. }
  split.
  { rewrite Ht. cbn [List.filter blocking_sample].
    now rewrite List.filter_app, Hb, loop_never_blocks. }
  split.
  { rewrite Ht. cbn [List.filter is_sleep].
    now rewrite List.filter_app, Hs, loop_sleeps. }
  intros r. split.
  - apply quiet_filter; [|apply get_cpu_stats_quiet].
    intros [[t|] b| | | | | |]; try reflexivity.
    unfold quiet. cbn. now destruct (Qle_bool t 0).
  - rewrite get_cpu_stats_samples. eexists. split; [reflexivity|].
    destruct (sorted_by_cpu (os_procs_cpu r)); auto.
Qed.

(** The older copy of the script measures inside the provider: two blocking
    samples of one second per tick. *)
Example legacy_cpu_sampling_blocks (r : reading) :
  List.filter blocking_sample (trace (Legacy.get_cpu_stats r))
  = [CpuPercent (Some 1%Q) false; CpuPercent (Some 1%Q) true].
Proof. reflexivity. Qed.

(** ** The handlers of [setup_logging] *)

Example handlers_both :
  map (fun '(name, hs) => (name, length hs)) (setup_logging default_config)
  = [("main", 2); ("cpu", 2); ("memory", 2); ("disk", 2); ("network", 2)]%nat.
Proof. reflexivity. Qed.

(** C9.  When the lower-cased LOG_FORMAT is none of [log], [csv], [both],
    [setup_logging] still returns its five loggers, none of them with a
    flat-file or CSV handler (the main logger keeps its console handler when
    console output is on).  Nothing is raised, and the start-up messages of
    [main] report the state at level INFO: no record of the run's start has
    level ERROR. *)
Theorem unknown_log_format_disables_files (cfg : config) :
  string_in (log_format cfg) ["log"; "csv"; "both"] = false ->
  map fst (setup_logging cfg) = ["main"; "cpu"; "memory"; "disk"; "network"]
  /\ (forall name hs, In (name, hs) (setup_logging cfg) ->
        List.filter is_file_handler hs = []
        /\ (name <> "main" -> hs = []))
  /\ In (LogRecord "main" "INFO" (MStr "CSV Logging: DISABLED")) (trace (main cfg []))
  /\ In (LogRecord "main" "INFO" (MStr "Flat Logging: DISABLED")) (trace (main cfg []))
  /\ (forall logger m, ~ In (LogRecord logger "ERROR" m) (trace (main cfg [])))
  /\ result (main cfg []) = Ok tt.
Proof.
  intros Hfmt.
  assert (string_in (log_format cfg) ["log"; "both"] = false
          /\ string_in (log_format cfg) ["csv"; "both"] = false) as [Hlog Hcsv].
  { unfold string_in in *. cbn [existsb] in *.
    destruct (String.eqb (log_format cfg) "log"),
             (String.eqb (log_format cfg) "csv"),
             (String.eqb (log_format cfg) "both"); try discriminate; auto. }
  split; [reflexivity|].
  split.
  { intros name hs Hin. unfold setup_logging, log_fields in Hin.
    cbn [map] in Hin. unfold handlers_for in Hin. rewrite Hlog, Hcsv in Hin.
    cbn [andb app] in Hin.
    repeat (destruct Hin as [[= <- <-]|Hin]); try destruct Hin;
      cbn; (split; [|congruence]); try reflexivity.
    now destruct (console_output cfg). }
  unfold main. cbn [loop bind call emit log_info ret trace fst snd result app].
  rewrite Hlog, Hcsv. cbn [enabled_word].
  split; [cbn; tauto|]. split; [cbn; tauto|]. split; [|reflexivity].
  intros logger m Hin. cbn in Hin.
  repeat (destruct Hin as [Hin|Hin]; [discriminate Hin|]). exact Hin.
Qed.

Lemma unknown_log_format_disables_files_witness :
  In (LogRecord "main" "INFO" (MStr "CSV Logging: DISABLED")) (trace (main json_config []))
  /\ In (LogRecord "main" "INFO" (MStr "Flat Logging: DISABLED"))
        (trace (main json_config [])).
Proof.
  pose proof (unknown_log_format_disables_files json_config eq_refl)
    as (_ & _ & Hcsv & Hflat & _).
  exact (conj Hcsv Hflat).
Defined.

Example unknown_log_format_handlers :
  setup_logging json_config
  = [ ("main", [ConsoleHandler "%(asctime)s - %(name)s - %(message)s"]);
      ("cpu", []); ("memory", []); ("disk", []); ("network", []) ].
Proof. reflexivity. Qed.

(** The comparison ignores case. *)
Example log_format_upper_case :
  map (fun '(name, hs) => (name, length hs))
      (setup_logging {| LOG_DIR := "/var/log/monitor"; MONITOR_MODE := "host";
                        MONITOR_INTERVAL := 5; PING_HOST := "8.8.8.8";
                        CONSOLE_OUTPUT := "false"; PROCESS_COUNT := 5;
                        LOG_FORMAT := "CSV" |})
  = [("main", 0); ("cpu", 1); ("memory", 1); ("disk", 1); ("network", 1)]%nat.
Proof. reflexivity. Qed.

(** ** Rotation *)

Lemma shift_step_lookup (i j : nat) (fs : gmap nat (list string)) :
  shift_step i fs !! j
  = if decide (j = i) then None
    else if decide (j = S i)
         then match fs !! i with Some f => Some f | None => fs !! S i end
         else fs !! j.
Proof.
  unfold shift_step. destruct (fs !! i) as [f|] eqn:E; repeat case_decide; subst;
    try lia; simplify_map_eq; try done.
Qed.

(** After [for i in range(k, 0, -1)]: generations 1 to k have moved up. *)
Lemma shift_from_lookup (k j : nat) (fs : gmap nat (list string)) :
  shift_from k fs !! j
  = if decide (j = 0)%nat then fs !! 0%nat
    else if decide (j <= k)%nat
         then (if decide (j = 1)%nat then None else fs !! (j - 1)%nat)
    else if decide (j = S k)
         then (if decide (k = 0)%nat then fs !! j
               else match fs !! k with Some f => Some f | None => fs !! j end)
         else fs !! j.
Proof.
  revert fs. induction k as [|k IH]; intros fs; cbn [shift_from].
  - repeat case_decide; subst; try lia; try done.
  - rewrite IH, !shift_step_lookup.
    repeat case_decide; subst; try lia; try done.
    all: try (replace (S k - 1)%nat with k by lia).
    all: try (rewrite shift_step_lookup; repeat case_decide; try lia; try done).
    all: try (destruct (fs !! k); done).
    all: try (f_equal; lia).
Qed.

Lemma open_append_lookup (j : nat) (fs : gmap nat (list string)) :
  open_append fs !! j
  = if decide (j = 0)%nat
    then Some (active fs)
    else fs !! j.
Proof.
  unfold open_append, active. destruct (fs !! 0%nat) as [f|] eqn:E;
    case_decide; subst; simplify_map_eq; done.
Qed.

(** What [doRollover] leaves in each generation. *)
Lemma doRollover_lookup (h : rotating) (j : nat) (fs : gmap nat (list string)) :
  (0 < backupCount h)%nat ->
  doRollover h fs !! j
  = if decide (j = 0)%nat then Some []
    else if decide (j = 1)%nat then fs !! 0%nat
    else if decide (j < backupCount h)%nat then fs !! (j - 1)%nat
    else if decide (j = backupCount h)
         then match fs !! (backupCount h - 1)%nat with
              | Some f => Some f
              | None => fs !! j
              end
         else fs !! j.
Proof.
  intros Hbc. unfold doRollover.
  apply Nat.ltb_lt in Hbc as Hb. rewrite Hb. cbv zeta.
  set (k := (backupCount h - 1)%nat).
  assert (backupCount h = S k) as -> by (unfold k; lia). clearbody k.
  rewrite open_append_lookup. unfold active.
  destruct (delete 1%nat (shift_from k fs) !! 0%nat) as [f|] eqn:E0.
  - rewrite lookup_delete_ne, shift_from_lookup in E0 by lia.
    case_decide; [|lia].
    repeat case_decide; subst; try lia; simplify_map_eq; try done.
    all: rewrite ?lookup_delete_ne by lia; rewrite ?shift_from_lookup.
    all: repeat case_decide; subst; try lia; try done.
    all: try (replace (S k - 1)%nat with k by lia; done).
  - rewrite lookup_delete_ne, shift_from_lookup in E0 by lia.
    case_decide; [|lia].
    rewrite E0.
    repeat case_decide; subst; try lia; simplify_map_eq; try done.
    all: rewrite ?lookup_delete_ne by lia; rewrite ?shift_from_lookup.
    all: repeat case_decide; subst; try lia; try done.
    all: try (replace (S k - 1)%nat with k by lia; done).
    all: try (rewrite E0; done).
Qed.

Lemma bounded_lookup (n : nat) (fs : gmap nat (list string)) :
  bounded n fs <-> forall k f, fs !! k = Some f -> (k <= n)%nat.
Proof. apply map_Forall_lookup. Qed.

Lemma doRollover_bounded (h : rotating) (fs : gmap nat (list string)) :
  (0 < backupCount h)%nat ->
  bounded (backupCount h) fs -> bounded (backupCount h) (doRollover h fs).
Proof.
  intros Hbc Hfs. apply bounded_lookup. intros k f.
  rewrite (doRollover_lookup h k fs Hbc).
  repeat case_decide; subst; try lia.
  intros Hk. exact (proj1 (bounded_lookup _ _) Hfs k f Hk).
Qed.

Lemma emit_file_bounded (h : rotating) (fs : gmap nat (list string)) (msg : string) :
  (0 < backupCount h)%nat ->
  bounded (backupCount h) fs -> bounded (backupCount h) (emit_file h fs msg).
Proof.
  intros Hbc Hfs. unfold emit_file.
  apply map_Forall_insert_2; [lia|].
  destruct (shouldRollover h fs msg); [now apply doRollover_bounded | exact Hfs].
Qed.

Lemma emits_bounded (h : rotating) (msgs : list string) (fs : gmap nat (list string)) :
  (0 < backupCount h)%nat ->
  bounded (backupCount h) fs ->
  bounded (backupCount h) (fold_left (emit_file h) msgs fs).
Proof.
  intros Hbc. revert fs. induction msgs as [|m msgs IH]; intros fs Hfs; [exact Hfs|].
  cbn [fold_left]. now apply IH, emit_file_bounded.
Qed.

(** At most [n] old generations next to the active file. *)
Lemma bounded_size (n : nat) (fs : gmap nat (list string)) :
  bounded n fs -> (size (delete 0%nat fs) <= n)%nat.
Proof.
  intros Hfs.
  assert (dom (delete 0%nat fs) ⊆ (list_to_set (seq 1 n) : gset nat)) as Hsub.
  { intros k Hk. apply elem_of_dom in Hk as [f Hf].
    apply lookup_delete_Some in Hf as [Hk0 Hf].
    apply elem_of_list_to_set, list_elem_of_In, in_seq.
    pose proof (proj1 (bounded_lookup _ _) Hfs k f Hf). lia. }
  apply subseteq_size in Hsub. rewrite size_dom in Hsub.
  etransitivity; [exact Hsub|].
  rewrite size_list_to_set by apply NoDup_ListNoDup, seq_NoDup.
  now rewrite length_seq.
Qed.

Lemma rollovers_fill (h : rotating) (n k : nat) (fs : gmap nat (list string)) :
  (0 < backupCount h)%nat -> is_Some (fs !! 0%nat) ->
  (k <= n)%nat -> (k <= backupCount h)%nat ->
  is_Some (rollovers h n fs !! k).
Proof.
  intros Hbc H0. revert k. induction n as [|n IH]; intros k Hkn Hkb.
  - assert (k = 0%nat) as -> by lia. exact H0.
  - unfold rollovers in *. rewrite Nat.iter_succ.
    rewrite (doRollover_lookup h k _ Hbc).
    repeat case_decide; subst; try lia; try done.
    + apply (IH 0%nat); lia.
    + apply IH; lia.
    + destruct (IH (backupCount h - 1)%nat) as [f ->]; [lia..|]. done.
Qed.

Lemma file_handlers_of_setup (cfg : config) (name : string) (hs : list handler)
      (file : rotating) :
  In (name, hs) (setup_logging cfg) ->
  (exists fmt, In (FlatHandler file fmt) hs)
  \/ (exists fields, In (CsvHandler file fields) hs) ->
  maxBytes file = 10485760 /\ backupCount file = 5%nat.
Proof.
  unfold setup_logging. intros Hin%in_map_iff.
  destruct Hin as ([n fields] & [= <- <-] & _). unfold handlers_for.
  intros [[fmt Hh]|[fs Hh]];
    repeat (apply in_app_or in Hh as [Hh|Hh]);
    repeat match type of Hh with
           | In _ (if ?b then _ else _) => destruct b
           end;
    cbn in Hh; try tauto;
    destruct Hh as [Hh|[]]; try discriminate Hh; injection Hh as <-; auto.
Qed.

(** C5.  Every file handler that [setup_logging] creates rotates at
    10 MiB (10485760 bytes) and keeps 5 old generations.  Starting from
    files within that bound, any sequence of writes leaves at most 5 old
    generations next to the active file.  A rollover moves every generation
    below the fifth up by one, which overwrites the fifth (the oldest), and
    starts an empty active file; once five rollovers have happened, all
    five old generations exist.  A write rolls over exactly when the size
    of the active file in bytes plus the length of the record and its
    newline reaches the limit. *)
Theorem backlog_is_bounded (cfg : config) (name ext : string)
        (fs : gmap nat (list string)) (msgs : list string) :
  bounded 5 fs ->
  maxBytes (rotating_file (log_path cfg name ext)) = 10 * 1024 * 1024
  /\ backupCount (rotating_file (log_path cfg name ext)) = 5%nat
  /\ (forall logger hs file,
        In (logger, hs) (setup_logging cfg) ->
        (exists fmt, In (FlatHandler file fmt) hs)
        \/ (exists fields, In (CsvHandler file fields) hs) ->
        maxBytes file = 10485760 /\ backupCount file = 5%nat)
  /\ bounded 5 (fold_left (emit_file (rotating_file (log_path cfg name ext))) msgs fs)
  /\ (size (delete 0%nat
              (fold_left (emit_file (rotating_file (log_path cfg name ext))) msgs fs))
      <= 5)%nat
  /\ (forall i f, (i < 5)%nat -> fs !! i = Some f ->
        doRollover (rotating_file (log_path cfg name ext)) fs !! S i = Some f)
  /\ doRollover (rotating_file (log_path cfg name ext)) fs !! 0%nat = Some []
  /\ (forall n k, is_Some (fs !! 0%nat) -> (5 <= n)%nat -> (k <= 5)%nat ->
        is_Some (rollovers (rotating_file (log_path cfg name ext)) n fs !! k))
  /\ (forall msg,
        emit_file (rotating_file (log_path cfg name ext)) fs msg
        = if 10485760 <=? file_size (active fs) + (Z.of_nat (String.length msg) + 1)
          then <[0%nat := [msg]]> (doRollover (rotating_file (log_path cfg name ext)) fs)
          else <[0%nat := active fs ++ [msg]]> fs).
Proof.
  intros Hfs. set (h := rotating_file (log_path cfg name ext)).
  assert (0 < backupCount h)%nat as Hbc by (cbn; lia).
  split; [reflexivity|]. split; [reflexivity|].
  split; [apply file_handlers_of_setup|].
  split; [exact (emits_bounded h msgs fs Hbc Hfs)|].
  split; [exact (bounded_size 5 _ (emits_bounded h msgs fs Hbc Hfs))|].
  split.
  { intros i f Hi Hf. rewrite (doRollover_lookup h (S i) fs Hbc).
    change (backupCount h) with 5%nat.
    repeat case_decide; subst; try lia; try done.
    - assert (i = 0%nat) as -> by lia. exact Hf.
    - now replace (S i - 1)%nat with i by lia.
    - assert (i = 4%nat) as -> by lia. cbn. now rewrite Hf. }
  split; [now rewrite (doRollover_lookup h 0 fs Hbc)|].
  split.
  { intros n k H0 Hn Hk. apply rollovers_fill; auto; cbn; lia. }
  intros msg. unfold emit_file, shouldRollover.
  change (maxBytes h) with 10485760. change (0 <? 10485760) with true. cbn [andb].
  destruct (10485760 <=? _); [|reflexivity].
  unfold active at 1. now rewrite (doRollover_lookup h 0 fs Hbc).
Qed.

Lemma backlog_is_bounded_witness :
  (size (delete 0%nat
           (fold_left (emit_file (rotating_file (log_path default_config "cpu" ".csv")))
                      [a_row; a_row]
                      (open_csv_file cpu_fields ∅)))
   <= 5)%nat.
Proof.
  refine (proj1 (proj2 (proj2 (proj2 (proj2
    (backlog_is_bounded default_config "cpu" ".csv"
       (open_csv_file cpu_fields ∅) [a_row; a_row] _)))))).
  unfold bounded. apply (bool_decide_unpack _). vm_compute. exact I.
Defined.

Lemma utf8_length_bounds (s : string) :
  Z.of_nat (String.length s) <= utf8_length s <= 2 * Z.of_nat (String.length s).
Proof.
  induction s as [|c s IH]; [cbn; lia|].
  cbn [utf8_length String.length]. destruct c as [? ? ? ? ? ? ? []]; cbn [utf8_bytes]; lia.
Qed.

Lemma file_size_nonneg (f : list string) : 0 <= file_size f.
Proof.
  induction f as [|t f IH]; cbn [file_size fold_right]; [lia|].
  fold (file_size f). pose proof (utf8_length_bounds t). lia.
Qed.

Lemma file_size_zero (f : list string) : file_size f = 0 <-> f = [].
Proof.
  split; [|now intros ->].
  destruct f as [|t f]; [reflexivity|]. cbn [file_size fold_right].
  fold (file_size f). pose proof (file_size_nonneg f).
  pose proof (utf8_length_bounds t). lia.
Qed.

Lemma file_size_cons (text : string) (f : list string) :
  file_size (text :: f) = utf8_length text + 1 + file_size f.
Proof. reflexivity. Qed.

Lemma file_size_repeat (row : string) (n : nat) :
  file_size (repeat row n) = Z.of_nat n * (utf8_length row + 1).
Proof.
  induction n as [|n IH]; [reflexivity|].
  cbn [repeat]. rewrite file_size_cons, IH. lia.
Qed.

(** C4, as the code has it.  The header is written by [setup_logging], when
    it opens the CSV file of a category: a file that is missing or empty at
    that moment then holds the header as its only line; a file with content
    is left as it is.  Writes never add a header.  A write that reaches the
    size limit causes one rollover: the old active file becomes generation
    1, and the fresh active file holds the written record alone.  A write
    below the limit appends to the active file. *)
Theorem csv_header_written_at_setup (cfg : config) (name : string)
        (fields : list string) (fs : gmap nat (list string)) (msg : string) :
  (active fs = [] ->
     open_csv_file fields fs = <[0%nat := [csv_header fields]]> fs
     /\ first_line (open_csv_file fields fs) = Some (csv_header fields))
  /\ (active fs <> [] -> open_csv_file fields fs = fs)
  /\ (shouldRollover (rotating_file (log_path cfg name ".csv")) fs msg = true ->
        emit_file (rotating_file (log_path cfg name ".csv")) fs msg !! 0%nat = Some [msg]
        /\ emit_file (rotating_file (log_path cfg name ".csv")) fs msg !! 1%nat
           = fs !! 0%nat
        /\ first_line (emit_file (rotating_file (log_path cfg name ".csv")) fs msg)
           = Some msg)
  /\ (shouldRollover (rotating_file (log_path cfg name ".csv")) fs msg = false ->
        emit_file (rotating_file (log_path cfg name ".csv")) fs msg
        = <[0%nat := active fs ++ [msg]]> fs
        /\ (active fs <> [] ->
            first_line (emit_file (rotating_file (log_path cfg name ".csv")) fs msg)
            = first_line fs)).
Proof.
  set (h := rotating_file (log_path cfg name ".csv")).
  assert (0 < backupCount h)%nat as Hbc by (cbn; lia).
  assert (active (open_append fs) = active fs) as Hact.
  { unfold active at 1. now rewrite open_append_lookup. }
  assert (is_Some (open_append fs !! 0%nat)) as Hsome
    by (rewrite open_append_lookup; eauto).
  split; [|split; [|split]].
  - intros Hempty. unfold open_csv_file. cbv zeta.
    rewrite Hact, Hempty. cbn [file_size fold_right]. rewrite orb_true_r.
    assert (<[0%nat := [csv_header fields]]> (open_append fs)
            = <[0%nat := [csv_header fields]]> fs) as ->.
    { unfold open_append. destruct (fs !! 0%nat); [reflexivity|].
      apply insert_insert_eq. }
    split; [reflexivity|]. unfold first_line, active. now rewrite lookup_insert_eq.
  - intros Hne. unfold open_csv_file. cbv zeta. rewrite Hact.
    rewrite (bool_decide_eq_true_2 _ Hsome). cbn [negb orb].
    destruct (Z.eqb_spec (file_size (active fs)) 0) as [Hz|_];
      [now apply file_size_zero in Hz|].
    unfold open_append, active in *. destruct (fs !! 0%nat); [reflexivity | congruence].
  - intros Hroll. unfold emit_file. rewrite Hroll.
    assert (active (doRollover h fs) = []) as ->
      by (unfold active; now rewrite (doRollover_lookup h 0 fs Hbc)).
    cbn [app]. rewrite lookup_insert_eq, lookup_insert_ne by lia.
    rewrite (doRollover_lookup h 1 fs Hbc). cbn.
    split; [reflexivity|]. split; [reflexivity|].
    unfold first_line, active. now rewrite lookup_insert_eq.
  - intros Hroll. unfold emit_file. rewrite Hroll. split; [reflexivity|].
    intros Hne. unfold first_line at 1. unfold active at 1.
    rewrite lookup_insert_eq. unfold first_line.
    destruct (active fs); [congruence | reflexivity].
Qed.

(** C4 as stated fails after a rotation.  The CPU file, created with its
    header, is a few bytes short of 10 MiB; the next row rolls it over, and
    the fresh file starts with that row, not with the header. *)
Lemma rotated_csv_file_starts_without_header :
  first_line nearly_full = Some (csv_header cpu_fields)
  /\ shouldRollover (rotating_file (log_path default_config "cpu" ".csv"))
       nearly_full a_row = true
  /\ first_line (emit_file (rotating_file (log_path default_config "cpu" ".csv"))
                   nearly_full a_row)
     = Some a_row
  /\ Some a_row <> Some (csv_header cpu_fields).
Proof.
  set (h := rotating_file (log_path default_config "cpu" ".csv")).
  assert (shouldRollover h nearly_full a_row = true) as Hroll.
  { unfold shouldRollover, nearly_full, active. rewrite lookup_singleton_eq.
    rewrite file_size_cons, file_size_repeat, Z2Nat.id by lia.
    reflexivity. }
  split; [reflexivity|]. split; [exact Hroll|].
  split; [|discriminate].
  unfold emit_file. rewrite Hroll.
  assert (active (doRollover h nearly_full) = []) as ->.
  { unfold active. now rewrite (doRollover_lookup h 0 nearly_full ltac:(cbn; lia)). }
  unfold first_line, active. now rewrite lookup_insert_eq.
Qed.

Example csv_file_created_with_header :
  open_csv_file cpu_fields ∅
  = {[ 0%nat := ["timestamp,level,cpu_percent,cpu_count,per_cpu,top_processes"] ]}.
Proof. reflexivity. Qed.

(** ** Reading back what the CSV writer wrote *)

Lemma special_chars (c : ascii) :
  csv_special c = false ->
  Ascii.eqb c comma = false /\ Ascii.eqb c dquote = false
  /\ (Ascii.eqb c cr || Ascii.eqb c lf) = false.
Proof.
  unfold csv_special.
  destruct (Ascii.eqb c comma), (Ascii.eqb c dquote), (Ascii.eqb c cr),
    (Ascii.eqb c lf); cbn; intros; try discriminate; auto.
Qed.

Lemma append_cons_r (a : string) (c : ascii) (b : string) :
  (a +:+ String c EmptyString) +:+ b = a +:+ String c b.
Proof. now rewrite append_assoc. Qed.

(** The rest of an unquoted field. *)
Lemma csv_read_plain (f cur rest : string) :
  needs_quotes f = false ->
  csv_read InField cur (f +:+ rest) = csv_read InField (cur +:+ f) rest.
Proof.
  revert cur. induction f as [|c f IH]; intros cur Hplain.
  - now rewrite append_nil_r.
  - cbn [needs_quotes] in Hplain. apply orb_false_iff in Hplain as [Hc Hf].
    destruct (special_chars c Hc) as (H1 & _ & H3).
    change (String c f +:+ rest) with (String c (f +:+ rest)).
    cbn [csv_read]. rewrite H1, H3, (IH _ Hf). now rewrite append_cons_r.
Qed.

(** A quoted field, after its opening quote, up to its closing quote. *)
Lemma csv_read_quoted (f cur rest : string) :
  csv_read InQuoted cur (double_quotes f +:+ String dquote rest)
  = csv_read QuoteInQuoted (cur +:+ f) rest.
Proof.
  revert cur. induction f as [|c f IH]; intros cur.
  - rewrite append_nil_r. cbn [double_quotes String.append csv_read].
    now rewrite Ascii.eqb_refl.
  - cbn [double_quotes]. destruct (Ascii.eqb c dquote) eqn:Hc.
    + apply Ascii.eqb_eq in Hc as ->.
      cbn [String.append csv_read]. rewrite !Ascii.eqb_refl.
      rewrite IH. now rewrite append_cons_r.
    + cbn [String.append csv_read]. rewrite Hc, IH. now rewrite append_cons_r.
Qed.

Lemma comma_is_not_quote : Ascii.eqb comma dquote = false.
Proof. reflexivity. Qed.

Lemma line_end_chars (c : ascii) :
  (Ascii.eqb c cr || Ascii.eqb c lf) = true ->
  Ascii.eqb c dquote = false /\ Ascii.eqb c comma = false.
Proof.
  intros [H|H]%orb_true_iff; apply Ascii.eqb_eq in H; subst; split; reflexivity.
Qed.

(** A field followed by a comma. *)
Lemma csv_read_field (st : reader_state) (f more : string) :
  fresh st ->
  csv_read st EmptyString (csv_quote f +:+ String comma more)
  = f :: csv_read StartField EmptyString more.
Proof.
  intros Hst. unfold csv_quote. destruct (needs_quotes f) eqn:Hq.
  - change (String dquote (double_quotes f +:+ String dquote EmptyString)
            +:+ String comma more)
      with (String dquote ((double_quotes f +:+ String dquote EmptyString)
                           +:+ String comma more)).
    rewrite append_cons_r.
    assert (csv_read st EmptyString
              (String dquote (double_quotes f +:+ String dquote (String comma more)))
            = csv_read InQuoted EmptyString
                (double_quotes f +:+ String dquote (String comma more))) as ->.
    { destruct Hst as [-> | ->]; cbn [csv_read]; now rewrite Ascii.eqb_refl. }
    rewrite csv_read_quoted. cbn [String.append csv_read].
    now rewrite comma_is_not_quote, Ascii.eqb_refl.
  - destruct f as [|c f].
    + cbn [String.append]. destruct Hst as [-> | ->]; cbn [csv_read];
        now rewrite comma_is_not_quote, Ascii.eqb_refl.
    + cbn [needs_quotes] in Hq. apply orb_false_iff in Hq as [Hc Hf].
      destruct (special_chars c Hc) as (H1 & H2 & H3).
      change (String c f +:+ String comma more)
        with (String c (f +:+ String comma more)).
      assert (csv_read st EmptyString (String c (f +:+ String comma more))
              = csv_read InField (String c EmptyString) (f +:+ String comma more))
        as ->.
      { destruct Hst as [-> | ->]; cbn [csv_read]; now rewrite H1, H2, H3. }
      rewrite (csv_read_plain _ _ _ Hf). cbn [String.append csv_read].
      now rewrite Ascii.eqb_refl.
Qed.

(** The last field of a record. *)
Lemma csv_read_last (st : reader_state) (f rest : string) :
  fresh st -> line_end rest = true ->
  st = StartField \/ String.length (csv_quote f) <> 0%nat ->
  csv_read st EmptyString (csv_quote f +:+ rest) = [f].
Proof.
  intros Hst Hrest Hne. unfold csv_quote in *. destruct (needs_quotes f) eqn:Hq.
  - change (String dquote (double_quotes f +:+ String dquote EmptyString) +:+ rest)
      with (String dquote ((double_quotes f +:+ String dquote EmptyString) +:+ rest)).
    rewrite append_cons_r.
    assert (csv_read st EmptyString
              (String dquote (double_quotes f +:+ String dquote rest))
            = csv_read InQuoted EmptyString
                (double_quotes f +:+ String dquote rest)) as ->.
    { destruct Hst as [-> | ->]; cbn [csv_read]; now rewrite Ascii.eqb_refl. }
    rewrite csv_read_quoted. cbn [String.append].
    destruct rest as [|c rest]; [reflexivity|].
    cbn [line_end] in Hrest. destruct (line_end_chars c Hrest) as [H1 H2].
    cbn [csv_read]. now rewrite H1, H2, Hrest.
  - destruct f as [|c f].
    + cbn [String.append]. destruct Hne as [-> | Hne]; [|now cbn in Hne].
      destruct rest as [|c rest]; [reflexivity|].
      cbn [line_end] in Hrest. destruct (line_end_chars c Hrest) as [H1 H2].
      cbn [csv_read]. now rewrite H1, H2, Hrest.
    + cbn [needs_quotes] in Hq. apply orb_false_iff in Hq as [Hc Hf].
      destruct (special_chars c Hc) as (H1 & H2 & H3).
      change (String c f +:+ rest) with (String c (f +:+ rest)).
      assert (csv_read st EmptyString (String c (f +:+ rest))
              = csv_read InField (String c EmptyString) (f +:+ rest)) as ->.
      { destruct Hst as [-> | ->]; cbn [csv_read]; now rewrite H1, H2, H3. }
      rewrite (csv_read_plain _ _ _ Hf). cbn [String.append].
      destruct rest as [|c' rest]; [reflexivity|].
      cbn [line_end] in Hrest. destruct (line_end_chars c' Hrest) as [H1' H2'].
      cbn [csv_read]. now rewrite H2', Hrest.
Qed.

Lemma csv_read_join (cells : list string) (rest : string) :
  line_end rest = true ->
  forall st, fresh st ->
    cells <> [] ->
    st = StartField \/ cells <> [EmptyString] ->
    csv_read st EmptyString (csv_join cells +:+ rest) = cells.
Proof.
  intros Hrest. induction cells as [|c cells IH]; intros st Hst Hne Hsingle;
    [congruence|].
  destruct cells as [|c2 cells].
  - cbn [csv_join]. apply csv_read_last; [assumption..|].
    destruct Hsingle as [-> | Hs]; [now left|]. right.
    unfold csv_quote. destruct (needs_quotes c); [discriminate|].
    destruct c; [congruence | discriminate].
  - change (csv_join (c :: c2 :: cells))
      with (csv_quote c +:+ String comma (csv_join (c2 :: cells))).
    rewrite append_assoc.
    change (String comma (csv_join (c2 :: cells)) +:+ rest)
      with (String comma (csv_join (c2 :: cells) +:+ rest)).
    rewrite (csv_read_field st _ _ Hst). f_equal.
    apply IH; [now right | discriminate | now left].
Qed.

(** What [csv.writer] writes, [csv.reader] reads back field by field. *)
Lemma csv_writerow_read_back (data : list scalar) :
  csv_parse (csv_writerow data) = map csv_field_text data.
Proof.
  unfold csv_parse, csv_writerow.
  destruct (map csv_field_text data) as [|c cells] eqn:E; [reflexivity|].
  destruct c as [|a c]; [destruct cells as [|c2 cells]|]; try reflexivity.
  - apply (csv_read_join (EmptyString :: c2 :: cells));
      [reflexivity | now left | discriminate | right; discriminate].
  - apply (csv_read_join (String a c :: cells));
      [reflexivity | now left | discriminate | right; discriminate].
Qed.

(** ** [strip] on a written row *)

Lemma py_lstrip_clean (s : string) : starts_clean s = true -> py_lstrip s = s.
Proof.
  destruct s as [|c s]; [discriminate|]. cbn [starts_clean py_lstrip].
  now intros ->%negb_true_iff.
Qed.

Lemma py_rstrip_crlf (body : string) :
  ends_clean body = true ->
  py_rstrip (body +:+ String cr (String lf EmptyString)) = body.
Proof.
  induction body as [|c body IH]; [discriminate|].
  destruct body as [|c2 body].
  - cbn [ends_clean]. intros Hc%negb_true_iff.
    change (py_rstrip (String c (String cr (String lf EmptyString))) = String c EmptyString).
    cbn [py_rstrip]. change (is_space lf) with true. change (is_space cr) with true.
    cbv iota. now rewrite Hc.
  - intros Hb. change (ends_clean (String c (String c2 body)))
      with (ends_clean (String c2 body)) in Hb.
    change (String c (String c2 body) +:+ String cr (String lf EmptyString))
      with (String c (String c2 body +:+ String cr (String lf EmptyString))).
    cbn [py_rstrip]. now rewrite (IH Hb).
Qed.

Lemma starts_clean_app (a b : string) :
  starts_clean a = true -> starts_clean (a +:+ b) = true.
Proof. now destruct a. Qed.

Lemma ends_clean_app (a b : string) :
  ends_clean b = true -> ends_clean (a +:+ b) = true.
Proof.
  intros Hb. induction a as [|c a IH]; [exact Hb|].
  change (String c a +:+ b) with (String c (a +:+ b)).
  cbn [ends_clean]. destruct (a +:+ b) eqn:E; [|exact IH].
  discriminate IH.
Qed.

Lemma starts_clean_quote (f : string) :
  starts_clean f = true -> starts_clean (csv_quote f) = true.
Proof. unfold csv_quote. now destruct (needs_quotes f). Qed.

Lemma ends_clean_quote (f : string) :
  ends_clean f = true -> ends_clean (csv_quote f) = true.
Proof.
  unfold csv_quote. destruct (needs_quotes f); [|auto]. intros _.
  change (String dquote (double_quotes f +:+ String dquote EmptyString))
    with (String dquote (double_quotes f) +:+ String dquote EmptyString).
  now apply ends_clean_app.
Qed.

Lemma starts_clean_join (c : string) (cells : list string) :
  starts_clean c = true -> starts_clean (csv_join (c :: cells)) = true.
Proof.
  intros Hc%starts_clean_quote. destruct cells; [exact Hc|].
  now apply starts_clean_app.
Qed.

Lemma ends_clean_join (cells : list string) :
  cells <> [] -> ends_clean (List.last cells EmptyString) = true ->
  ends_clean (csv_join cells) = true.
Proof.
  induction cells as [|c cells IH]; [congruence|]. intros _ Hlast.
  destruct cells as [|c2 cells]; [now apply ends_clean_quote|].
  change (csv_join (c :: c2 :: cells))
    with (csv_quote c +:+ String comma (csv_join (c2 :: cells))).
  apply ends_clean_app.
  change (ends_clean (String comma (csv_join (c2 :: cells))))
    with (match csv_join (c2 :: cells) with
          | EmptyString => negb (is_space comma)
          | String _ _ => ends_clean (csv_join (c2 :: cells))
          end).
  specialize (IH ltac:(discriminate) Hlast).
  now destruct (csv_join (c2 :: cells)).
Qed.

(** The formatted row is the joined fields: [strip] removes the line
    terminator and nothing else. *)
Lemma CSVFormatter_format_joined (fields : list string) (asctime levelname : string)
      (m : message) :
  starts_clean asctime = true ->
  ends_clean (csv_field_text (List.last (csv_data fields asctime levelname m) SNone)) = true ->
  CSVFormatter_format fields asctime levelname m
  = csv_join (map csv_field_text (csv_data fields asctime levelname m)).
Proof.
  intros Hstart Hend. unfold CSVFormatter_format, csv_writerow, py_strip.
  change (csv_field_text SNone) with EmptyString in *.
  assert (List.last (map csv_field_text (csv_data fields asctime levelname m)) EmptyString
          = csv_field_text (List.last (csv_data fields asctime levelname m) SNone)) as Hlast.
  { generalize (csv_data fields asctime levelname m). intros l.
    induction l as [|x [|y l] IH]; try reflexivity. exact IH. }
  rewrite <- Hlast in Hend.
  unfold csv_data in *. cbn [app map] in *.
  set (tail := map csv_field_text _) in *.
  cbn [csv_field_text] in *.
  assert (match asctime :: levelname :: tail with
          | [EmptyString] => String dquote (String dquote EmptyString)
          | cells => csv_join cells
          end = csv_join (asctime :: levelname :: tail)) as ->
    by (now destruct asctime).
  rewrite py_lstrip_clean by now apply starts_clean_app, starts_clean_join.
  apply py_rstrip_crlf, ends_clean_join; [discriminate | exact Hend].
Qed.

Lemma ends_clean_cons (c : ascii) (s : string) :
  ends_clean s = true -> ends_clean (String c s) = true.
Proof. intros Hs. apply (ends_clean_app (String c EmptyString) s Hs). Qed.

(** The JSON text of a list or of a dict ends with its closing bracket. *)
Lemma json_list_ends_clean (l : list pyval) : ends_clean (json_dumps (PList l)) = true.
Proof.
  cbn [json_dumps]. do 2 apply ends_clean_app. reflexivity.
Qed.

Lemma json_dict_ends_clean (m : list (string * pyval)) :
  ends_clean (json_dumps (PDict m)) = true.
Proof.
  cbn [json_dumps]. do 2 apply ends_clean_app. reflexivity.
Qed.

(** The reader gives back the cells of a formatted row. *)
Lemma CSVFormatter_format_read_back (fields : list string) (asctime levelname : string)
      (m : message) :
  starts_clean asctime = true ->
  ends_clean (csv_field_text (List.last (csv_data fields asctime levelname m) SNone)) = true ->
  csv_parse (CSVFormatter_format fields asctime levelname m)
  = map csv_field_text (csv_data fields asctime levelname m).
Proof.
  intros Hstart Hend. rewrite (CSVFormatter_format_joined _ _ _ _ Hstart Hend).
  unfold csv_parse.
  rewrite <- (append_nil_r (csv_join _)).
  apply csv_read_join; [reflexivity | now left | discriminate |].
  right. unfold csv_data. discriminate.
Qed.






(** The same on a hand-made record. *)
Example none_is_an_empty_cell :
  CSVFormatter_format cpu_fields "2024-05-01 12:00:00" "INFO"
    (MDict [("cpu_percent", PFloat (125 # 10)); ("cpu_count", PNone);
            ("per_cpu", PList []); ("top_processes", PList [])])
  = "2024-05-01 12:00:00,INFO,12.5,,[],[]".
Proof. vm_compute. reflexivity. Qed.

(** A missing key gives [N/A] in its column. *)
Example missing_key_is_na :
  CSVFormatter_format cpu_fields "2024-05-01 12:00:00" "INFO"
    (MDict [("cpu_percent", PFloat (125 # 10));
            ("per_cpu", PList []); ("top_processes", PList [])])
  = "2024-05-01 12:00:00,INFO,12.5,N/A,[],[]".
Proof. vm_compute. reflexivity. Qed.

(** A ranking of two processes holds commas and quotes; the writer quotes
    the cell and the row still has six cells. *)
Example ranking_is_one_quoted_cell :
  length (csv_parse (CSVFormatter_format cpu_fields "2024-05-01 12:00:00" "INFO"
                       (MDict sample_cpu_record))) = 6%nat
  /\ needs_quotes (json_dumps (PList [PDict [("pid", PInt 10); ("name", PStr "P1");
                                             ("cpu_percent", PFloat 40)]])) = true.
Proof. vm_compute. split; reflexivity. Qed.

(* ------------------------------------------------------------------ *)
(** * Further properties of the two scripts *)

(** ** The older copy: one tick *)

Lemma ping_network_shape (host : string) (run : run_result) :
  ping_network host run = ping_failed host
  \/ (exists tok, tokenb tok = true /\ ping_network host run = ping_success host tok)
  \/ exists detail, ping_network host run = ping_errored host detail.
Proof.
  destruct run as [rc out|e]; [|right; right; eexists; reflexivity].
  unfold ping_network, ping_try.
  destruct (rc =? 0); [|now left].
  destruct (ping_scan_shape host (py_split nl out))
    as [->|[(tok & Htok & ->)|[e ->]]]; cbn [res_bind].
  - now left.
  - right; left; eauto.
  - right; right; eexists; reflexivity.
Qed.

(** The ping test of the older loop never raises: it logs one line, at
    level INFO for a success and at level WARNING otherwise. *)
Lemma legacy_ping_report_trace (cfg : config) (r : reading) (host : string)
      (run : run_result) :
  exists lvl line,
    Legacy.ping_report cfg r (ping_network host run)
    = ([LogRecord "network" lvl (MStr line); LogRecord "main" lvl (MStr line)]
       ++ (if console_output cfg then [Print (stamped (os_now r) line)] else []),
       Ok tt)
    /\ ((lvl = "INFO" /\ ping_status (ping_network host run) = "success")
        \/ (lvl = "WARNING" /\ ping_status (ping_network host run) <> "success"
            /\ line = "Ping to " +:+ host +:+ ": "
                      +:+ ping_status (ping_network host run))).
Proof.
  destruct (ping_network_shape host run) as [->|[(tok & _ & ->)|[detail ->]]];
    unfold Legacy.ping_report, ping_failed, ping_success, ping_errored;
    cbn [ping_status ping_latency_ms ping_host String.eqb Ascii.eqb Bool.eqb];
    cbv iota; cbn [bind lift log_info log_warning emit ret fst snd app].
  - exists "WARNING", ("Ping to " +:+ host +:+ ": " +:+ "failed").
    split; [now destruct (console_output cfg)|].
    right. repeat split; discriminate.
  - exists "INFO", ("Ping to " +:+ host +:+ ": " +:+ tok +:+ " ms - SUCCESS").
    split; [now destruct (console_output cfg)|]. now left.
  - exists "WARNING", ("Ping to " +:+ host +:+ ": " +:+ "error").
    split; [now destruct (console_output cfg)|].
    right. repeat split; discriminate.
Qed.

Lemma legacy_get_disk_io_raises (r : reading) (e : exn) :
  result (Legacy.get_disk_io r) = Raise e ->
  Legacy.get_disk_io r = ([Psutil "disk_io_counters"], Raise e)
  /\ result (get_disk_io r) = Raise e.
Proof.
  unfold Legacy.get_disk_io, get_disk_io, bind, call, lift, ret, try_except, result.
  destruct (os_disk_io r) as [[io|]|e0]; cbn [snd fst app]; try discriminate;
    intros [= <-]; (split; [reflexivity|]).
  - now destruct (os_per_disk r).
  - reflexivity.
Qed.

(** X1.  In the older copy the disk figures have a [try] of their own.
    When [get_disk_io] raises (no disk is found, or psutil fails) while
    memory and network figures can be read, the body of the loop still runs
    to its end: the disk logger and the main logger get the line
    [Disk I/O: Error - ...] at level ERROR, and the network figures and the
    ping line are logged after it.  In [monitor.py] the same reading makes
    [get_disk_io] raise the same exception, and no category logger gets
    anything in that tick. *)
Theorem legacy_disk_failure_is_contained (cfg : config) (r : reading)
        (vm : svmem) (nio : snetio) (e : exn) :
  os_virtual_memory r = Ok vm ->
  os_net_io r = Ok nio ->
  result (Legacy.get_disk_io r) = Raise e ->
  result (Legacy.tick_try cfg r) = Ok tt
  /\ logged "disk" (trace (Legacy.tick cfg r))
     = [("ERROR", MStr ("Disk I/O: Error - " +:+ exn_str e))]
  /\ In ("ERROR", MStr ("Disk I/O: Error - " +:+ exn_str e))
        (logged "main" (trace (Legacy.tick cfg r)))
  /\ (exists lvl line,
        logged "network" (trace (Legacy.tick cfg r))
        = [ ("INFO", MStr (Legacy.net_msg
                             {| sent_mb := to_mb (io_bytes_sent nio);
                                recv_mb := to_mb (io_bytes_recv nio);
                                packets_sent := io_packets_sent nio;
                                packets_recv := io_packets_recv nio |}));
            (lvl, MStr line) ])
  /\ result (get_disk_io r) = Raise e
  /\ (forall name, String.eqb "main" name = false ->
        rows name (trace (tick cfg r)) = []).
Proof.
  intros Hvm Hnet Hdisk.
  destruct (legacy_get_disk_io_raises r e Hdisk) as [Hlegacy Hnow].
  destruct (legacy_ping_report_trace cfg r (PING_HOST cfg) (os_ping r))
    as (lvl & line & Hping & _).
  assert (forall name, String.eqb "main" name = false ->
            rows name (trace (tick cfg r)) = []) as Hrows.
  { intros name Hname.
    destruct (tick_rows cfg r name Hname)
      as [[_ Hnone]|(cpu & mem & disk & net & _ & _ & H3 & _)]; [exact Hnone|].
    congruence. }
  unfold Legacy.tick, Legacy.tick_try, Legacy.disk_try, Legacy.disk_except,
    Legacy.get_cpu_stats, Legacy.get_memory_stats, Legacy.get_network_stats.
  rewrite Hlegacy, Hvm, Hnet.
  cbn [bind call lift ret emit log_info log_error try_except fst snd app].
  rewrite Hping.
  destruct (console_output cfg);
    cbn [bind call lift ret emit log_info log_error try_except fst snd app
         trace result];
    (split; [reflexivity|]); (split; [reflexivity|]);
    (split; [cbn; tauto|]); (split; [exists lvl, line; reflexivity|]);
    (split; [exact Hnow | exact Hrows]).
Qed.

Lemma legacy_disk_failure_is_contained_witness :
  logged "disk" (trace (Legacy.tick default_config (diskless (sample_reading two_procs))))
  = [("ERROR",
      MStr "Disk I/O: Error - 'NoneType' object has no attribute 'read_bytes'")]
  /\ rows "network" (trace (tick default_config (diskless (sample_reading two_procs))))
     = [].
Proof.
  destruct (legacy_disk_failure_is_contained default_config
              (diskless (sample_reading two_procs)) sample_mem sample_net
              (AttributeError "'NoneType' object has no attribute 'read_bytes'")
              eq_refl eq_refl eq_refl)
    as (_ & Hdisk & _ & _ & _ & Hrows).
  split; [exact Hdisk | exact (Hrows "network" eq_refl)].
Defined.

(** X2.  The older loop logs each category as soon as it is sampled.  When
    [psutil.virtual_memory()] raises, the CPU line of that tick is already
    in the CPU log and the main log; the handler of the loop then reports
    the error, and nothing is sampled after it; the tick then ends as its
    [time.sleep] does.  In [monitor.py] the same reading leaves the CPU
    logger without a record. *)
Theorem legacy_memory_failure_keeps_cpu_line (cfg : config) (r : reading) (e : exn) :
  os_virtual_memory r = Raise e ->
  List.filter is_log (trace (Legacy.tick cfg r))
  = [ LogRecord "cpu" "INFO"
        (MStr (Legacy.cpu_msg (os_cpu_percent r, os_cpu_count r, os_per_cpu r)));
      LogRecord "main" "INFO"
        (MStr (Legacy.cpu_msg (os_cpu_percent r, os_cpu_count r, os_per_cpu r)));
      LogRecord "main" "ERROR" (MStr ("Error in monitoring loop: " +:+ exn_str e)) ]
  /\ result (Legacy.tick cfg r) = result (time_sleep (MONITOR_INTERVAL cfg))
  /\ rows "cpu" (trace (tick cfg r)) = [].
Proof.
  intros Hvm. split; [|split].
  - unfold Legacy.tick, Legacy.tick_try, Legacy.get_cpu_stats, Legacy.get_memory_stats,
      tick_except.
    rewrite Hvm.
    destruct (console_output cfg);
      cbn [bind call lift ret emit log_info log_error try_except fst snd app trace];
      reflexivity.
  - unfold Legacy.tick, try_except, bind, time_sleep, call, result.
    destruct (Legacy.tick_try cfg r) as [t [[]|e']]; [reflexivity|].
    unfold tick_except. cbn [bind log_error emit fst snd app]. reflexivity.
  - destruct (tick_rows cfg r "cpu" eq_refl)
      as [[_ Hnone]|(cpu & mem & disk & net & _ & H2 & _)]; [exact Hnone|].
    unfold get_memory_stats, bind, call, result in H2. rewrite Hvm in H2.
    discriminate H2.
Qed.

Lemma legacy_memory_failure_keeps_cpu_line_witness :
  List.filter is_log
    (trace (Legacy.tick default_config (memory_down (sample_reading two_procs))))
  = [ LogRecord "cpu" "INFO"
        (MStr "CPU Usage: 12.5% | Cores: 4 | Per-Core: [10.0, 15.0, 5.0, 20.0]");
      LogRecord "main" "INFO"
        (MStr "CPU Usage: 12.5% | Cores: 4 | Per-Core: [10.0, 15.0, 5.0, 20.0]");
      LogRecord "main" "ERROR"
        (MStr "Error in monitoring loop: cannot read /proc/meminfo") ].
Proof.
  exact (proj1 (legacy_memory_failure_keeps_cpu_line default_config
                  (memory_down (sample_reading two_procs))
                  (Exn "OSError" "cannot read /proc/meminfo") eq_refl)).
Defined.






(** X4.  In the older loop a probe that does not succeed is reported at
    level WARNING, to the network logger and to the main logger, as
    [Ping to <host>: <status>]; it does not end the tick.  A success is
    reported at level INFO.  This holds whether the disk figures could be
    read or not. *)
Theorem legacy_failed_ping_is_a_warning (cfg : config) (r : reading)
        (vm : svmem) (nio : snetio) :
  os_virtual_memory r = Ok vm ->
  os_net_io r = Ok nio ->
  result (Legacy.tick_try cfg r) = Ok tt
  /\ (ping_status (ping_network (PING_HOST cfg) (os_ping r)) <> "success" ->
      last (logged "network" (trace (Legacy.tick cfg r)))
      = Some ("WARNING",
              MStr ("Ping to " +:+ PING_HOST cfg +:+ ": "
                    +:+ ping_status (ping_network (PING_HOST cfg) (os_ping r))))
      /\ In ("WARNING",
             MStr ("Ping to " +:+ PING_HOST cfg +:+ ": "
                   +:+ ping_status (ping_network (PING_HOST cfg) (os_ping r))))
            (logged "main" (trace (Legacy.tick cfg r))))
  /\ (ping_status (ping_network (PING_HOST cfg) (os_ping r)) = "success" ->
      exists line, last (logged "network" (trace (Legacy.tick cfg r)))
                   = Some ("INFO", MStr line)).
Proof.
  intros Hvm Hnet.
  destruct (legacy_ping_report_trace cfg r (PING_HOST cfg) (os_ping r))
    as (lvl & line & Hping & Hlvl).
  unfold Legacy.tick, Legacy.tick_try, Legacy.disk_try, Legacy.disk_except,
    Legacy.get_cpu_stats, Legacy.get_memory_stats, Legacy.get_disk_io,
    Legacy.get_network_stats, tick_except.
  rewrite Hvm, Hnet.
  destruct (os_disk_io r) as [[io|]|e2];
    cbn [bind call lift ret emit log_info log_error try_except fst snd app];
    rewrite Hping;
    destruct (console_output cfg);
    cbn [bind call lift ret emit log_info log_error try_except fst snd app
         trace result];
    (split; [reflexivity|]);
    (split;
     [ intros Hfail; destruct Hlvl as [[_ Hs]|(-> & _ & ->)]; [congruence|];
       split; [reflexivity | cbn; tauto]
     | intros Hs; destruct Hlvl as [[-> _]|(_ & Hne & _)]; [|congruence];
       exists line; reflexivity ]).
Qed.

Lemma legacy_failed_ping_is_a_warning_witness :
  last (logged "network"
          (trace (Legacy.tick default_config
                    (with_ping (Completed 1 EmptyString) (sample_reading two_procs)))))
  = Some ("WARNING", MStr "Ping to 8.8.8.8: failed").
Proof.
  refine (proj1 (proj1 (proj2 (legacy_failed_ping_is_a_warning default_config
                    (with_ping (Completed 1 EmptyString) (sample_reading two_procs))
                    sample_mem sample_net eq_refl eq_refl)) _)).
  discriminate.
Defined.

(** ** The files of the two [setup_logging] *)

Lemma append_inv_head (a x y : string) : a +:+ x = a +:+ y -> x = y.
Proof.
  induction a as [|c a IH]; [auto|].
  change (String c a +:+ x) with (String c (a +:+ x)).
  change (String c a +:+ y) with (String c (a +:+ y)).
  intros [= H]. auto.
Qed.

(** X5.  With LOG_FORMAT set to [log], [setup_logging] of [monitor.py]
    gives the four category loggers exactly the handlers of the older copy:
    the same files, limits and formats.  The main logger keeps its format,
    its limits and its console handler, but its file is
    [main-<mode>.log], where the older copy wrote [monitor-<mode>.log]:
    the two paths differ. *)
Theorem log_format_log_keeps_the_category_files (cfg : config) :
  log_format cfg = "log" ->
  exists console categories,
    setup_logging cfg
    = ("main",
       FlatHandler (rotating_file (LOG_DIR cfg +:+ "/main-" +:+ MONITOR_MODE cfg +:+ ".log"))
                   "%(asctime)s - %(levelname)s - %(message)s" :: console)
      :: categories
    /\ Legacy.setup_logging cfg
       = ("main",
          FlatHandler (rotating_file (LOG_DIR cfg +:+ "/monitor-" +:+ MONITOR_MODE cfg
                                      +:+ ".log"))
                      "%(asctime)s - %(levelname)s - %(message)s" :: console)
         :: categories
    /\ map fst categories = ["cpu"; "memory"; "disk"; "network"]
    /\ LOG_DIR cfg +:+ "/main-" +:+ MONITOR_MODE cfg +:+ ".log"
       <> LOG_DIR cfg +:+ "/monitor-" +:+ MONITOR_MODE cfg +:+ ".log".
Proof.
  intros Hfmt.
  exists (if console_output cfg
          then [ConsoleHandler "%(asctime)s - %(name)s - %(message)s"] else []).
  eexists. split; [|split; [reflexivity|split]].
  - unfold setup_logging, log_fields, handlers_for. rewrite Hfmt.
    cbn [map string_in existsb String.eqb Ascii.eqb Bool.eqb orb andb negb app].
    unfold log_path, rotating_file.
    destruct (console_output cfg); reflexivity.
  - reflexivity.
  - intros H%append_inv_head. discriminate H.
Qed.

Lemma log_format_log_keeps_the_category_files_witness :
  exists console categories,
    setup_logging flat_config
    = ("main",
       FlatHandler (rotating_file "/var/log/monitor/main-host.log")
                   "%(asctime)s - %(levelname)s - %(message)s" :: console)
      :: categories
    /\ Legacy.setup_logging flat_config
       = ("main",
          FlatHandler (rotating_file "/var/log/monitor/monitor-host.log")
                      "%(asctime)s - %(levelname)s - %(message)s" :: console)
         :: categories.
Proof.
  destruct (log_format_log_keeps_the_category_files flat_config eq_refl)
    as (console & categories & Hnow & Hold & _).
  exists console, categories. split; [exact Hnow | exact Hold].
Defined.

(** ** Ticks that end in the handler of the loop *)

(** When the body of the loop raises, it has logged nothing to the main
    logger and printed nothing. *)
Lemma tick_try_raises_trace (cfg : config) (r : reading) (e : exn) :
  result (tick_try cfg r) = Raise e ->
  rows "main" (trace (tick_try cfg r)) = []
  /\ List.filter is_print (trace (tick_try cfg r)) = [].
Proof.
  intros He.
  destruct (providers_cases cfg r) as [Hfail|(cpu & mem & disk & net & H1 & H2 & H3 & H4)].
  - destruct (tick_try_provider_fails cfg r Hfail) as (e' & _ & Hq).
    split; [now apply quiet_rows | apply quiet_filter; [now intros [] | exact Hq]].
  - rewrite (tick_try_sampled cfg r cpu mem disk net H1 H2 H3 H4) in He |- *.
    pose proof (provider_calls_quiet cfg r) as Hq.
    assert (rows "main" (provider_calls cfg r ++ category_logs cfg r cpu mem disk net) = []
            /\ List.filter is_print
                 (provider_calls cfg r ++ category_logs cfg r cpu mem disk net) = [])
      as Hnone.
    { rewrite rows_app, List.filter_app, (quiet_rows _ _ Hq),
        (quiet_filter is_print _ ltac:(now intros []) Hq).
      split; reflexivity. }
    destruct (cpu_top_processes cpu) as [|ct ?]; [exact Hnone|].
    destruct (mem_top_processes mem) as [|mt ?]; [exact Hnone|].
    discriminate He.
Qed.

Lemma failed_tick_report (cfg : config) (r : reading) (e : exn) :
  result (tick_try cfg r) = Raise e ->
  rows "main" (trace (tick cfg r)) = [MStr (loop_error e)]
  /\ List.filter is_print (trace (tick cfg r)) = [Print ("ERROR: " +:+ loop_error e)].
Proof.
  intros He. destruct (tick_try_raises_trace cfg r e He) as [Hrows Hprints].
  rewrite tick_shape, He. cbn [trace fst].
  rewrite !rows_app, !List.filter_app, Hrows, Hprints. split; reflexivity.
Qed.



(** X6.  When a process of the table has a CPU figure of [None] (psutil
    could not read it) and the table holds two processes or more, sorting
    the table raises [TypeError]: [get_cpu_stats] fails, no other provider
    is called in that tick, and the only record of the tick is the error
    line of the main logger. *)
Theorem none_cpu_metric_fails_the_tick (cfg : config) (r : reading) (p : proc) :
  (2 <= length (os_procs_cpu r))%nat ->
  In p (os_procs_cpu r) ->
  info_cpu_percent p = IsNone ->
  exists e,
    exn_class e = "TypeError"
    /\ result (get_cpu_stats (PROCESS_COUNT cfg) r) = Raise e
    /\ trace (tick cfg r)
       = [CpuPercent None false; Psutil "cpu_count"; Psutil "process_iter"]
         ++ error_report e ++ [Sleep (MONITOR_INTERVAL cfg)]
    /\ List.filter is_log (trace (tick cfg r))
       = [LogRecord "main" "ERROR" (MStr (loop_error e))].
Proof.
  intros Hlen Hin Hnone.
  assert (sorted_by_cpu (os_procs_cpu r)
          = Raise (TypeError
              "'<' not supported between instances of 'NoneType' and 'float'")) as Hsort.
  { unfold sorted_by_cpu.
    assert ((2 <=? length (os_procs_cpu r))%nat = true) as -> by now apply Nat.leb_le.
    assert (existsb (fun p => is_none (cpu_key p)) (os_procs_cpu r) = true) as ->.
    { apply existsb_exists. exists p. split; [exact Hin|].
      unfold cpu_key. now rewrite Hnone. }
    reflexivity. }
  eexists. split; [|split; [|split]].
  2: { unfold get_cpu_stats, bind, call, lift, result. rewrite Hsort. reflexivity. }
  - reflexivity.
  - unfold tick, tick_try, get_cpu_stats, tick_except. unfold bind at 5 6 7.
    unfold call, lift. rewrite Hsort. reflexivity.
  - unfold tick, tick_try, get_cpu_stats, tick_except. unfold bind at 5 6 7.
    unfold call, lift. rewrite Hsort. reflexivity.
Qed.

Lemma none_cpu_metric_fails_the_tick_witness :
  exists e,
    exn_class e = "TypeError"
    /\ List.filter is_log (trace (tick default_config (sample_reading unread_procs)))
       = [LogRecord "main" "ERROR" (MStr (loop_error e))].
Proof.
  destruct (none_cpu_metric_fails_the_tick default_config (sample_reading unread_procs)
              (a_proc 7 "ghost" IsNone Missing))
    as (e & Hclass & _ & _ & Hlogs).
  - simpl. lia.
  - simpl. now left.
  - reflexivity.
  - exists e. split; [exact Hclass | exact Hlogs].
Defined.





(** ** The console switch *)

Lemma summary_events_logs (cfg : config) (r : reading) (lines : list string) :
  List.filter is_log (summary_events cfg r lines)
  = map (fun l => LogRecord "main" "INFO" (MStr l)) lines.
Proof.
  unfold summary_events. rewrite List.filter_app.
  assert (forall l, List.filter is_log (map (fun l => LogRecord "main" "INFO" (MStr l)) l)
                    = map (fun l => LogRecord "main" "INFO" (MStr l)) l) as ->
    by (induction l as [|x l IH]; cbn [map List.filter is_log]; [|rewrite IH]; reflexivity).
  destruct (console_output cfg); [|now rewrite app_nil_r].
  rewrite List.filter_app.
  assert (forall l, List.filter is_log (map (fun l => Print (stamped (os_now r) l)) l) = [])
    as -> by (induction l as [|x l IH]; cbn [map List.filter is_log]; auto).
  cbn. now rewrite app_nil_r.
Qed.

Lemma summary_events_prints (cfg : config) (r : reading) (lines : list string) :
  List.filter is_print (summary_events cfg r lines)
  = if console_output cfg
    then map (fun l => Print (stamped (os_now r) l)) lines ++ [Print (dashes 80)]
    else [].
Proof.
  unfold summary_events. rewrite List.filter_app.
  assert (forall l, List.filter is_print
                      (map (fun l => LogRecord "main" "INFO" (MStr l)) l) = []) as ->
    by (induction l as [|x l IH]; cbn [map List.filter is_print]; auto).
  destruct (console_output cfg); [|reflexivity].
  rewrite List.filter_app.
  assert (forall l, List.filter is_print (map (fun l => Print (stamped (os_now r) l)) l)
                    = map (fun l => Print (stamped (os_now r) l)) l) as ->
    by (induction l as [|x l IH]; cbn [map List.filter is_print]; [|rewrite IH]; reflexivity).
  reflexivity.
Qed.

(** The records and the console lines of a tick. *)
Lemma tick_logs_and_prints (cfg : config) (r : reading) :
  (exists e, result (tick_try cfg r) = Raise e
             /\ (forall s, result (tick_try (with_console s cfg) r) = Raise e)
             /\ (forall s, List.filter is_log (trace (tick_try (with_console s cfg) r))
                           = List.filter is_log (trace (tick_try cfg r))))
  \/ (exists lines,
        result (tick_try cfg r) = Ok tt
        /\ (forall s, result (tick_try (with_console s cfg) r) = Ok tt)
        /\ (forall s, List.filter is_log (trace (tick_try (with_console s cfg) r))
                      = List.filter is_log (trace (tick_try cfg r)))
        /\ length lines = 5%nat
        /\ List.filter is_print (trace (tick_try cfg r))
           = if console_output cfg
             then map (fun l => Print (stamped (os_now r) l)) lines ++ [Print (dashes 80)]
             else []).
Proof.
  pose proof (provider_calls_quiet cfg r) as Hq.
  destruct (providers_cases cfg r) as [Hfail|(cpu & mem & disk & net & H1 & H2 & H3 & H4)].
  - left. destruct (tick_try_provider_fails cfg r Hfail) as (e & He & Hquiet).
    exists e. split; [exact He|].
    assert (forall s, tick_try (with_console s cfg) r = tick_try cfg r) as Hsame.
    { intros s. unfold tick_try in *.
      change (PROCESS_COUNT (with_console s cfg)) with (PROCESS_COUNT cfg).
      change (PING_HOST (with_console s cfg)) with (PING_HOST cfg).
      unfold provider_fails in Hfail.
      destruct (get_cpu_stats (PROCESS_COUNT cfg) r) as [t1 [c|e1]]; [|reflexivity].
      destruct (get_memory_stats (PROCESS_COUNT cfg) r) as [t2 [m|e2]]; [|reflexivity].
      destruct (get_disk_io r) as [t3 [d|e3]]; [|reflexivity].
      destruct (get_network_stats r) as [t4 [n|e4]]; [|reflexivity].
      exfalso. cbn [result snd] in Hfail.
      destruct Hfail as [[? ?]|[[? ?]|[[? ?]|[? ?]]]]; discriminate. }
    split; intros s; now rewrite Hsame.
  - pose proof (tick_try_sampled cfg r cpu mem disk net H1 H2 H3 H4) as Hnow.
    assert (forall s, tick_try (with_console s cfg) r
              = match cpu_top_processes cpu, mem_top_processes mem with
                | cpu_top :: _, mem_top :: _ =>
                    (provider_calls cfg r ++ category_logs cfg r cpu mem disk net
                     ++ summary_events (with_console s cfg) r
                          (summary_lines cfg r cpu mem disk net cpu_top mem_top),
                     Ok tt)
                | _, _ =>
                    (provider_calls cfg r ++ category_logs cfg r cpu mem disk net,
                     Raise IndexError)
                end) as Hother.
    { intros s.
      exact (tick_try_sampled (with_console s cfg) r cpu mem disk net H1 H2 H3 H4). }
    destruct (cpu_top_processes cpu) as [|ct ?];
      [left; exists IndexError; rewrite Hnow; split; [reflexivity|];
       split; intros s; now rewrite Hother|].
    destruct (mem_top_processes mem) as [|mt ?];
      [left; exists IndexError; rewrite Hnow; split; [reflexivity|];
       split; intros s; now rewrite Hother|].
    right. exists (summary_lines cfg r cpu mem disk net ct mt).
    rewrite Hnow. split; [reflexivity|].
    split; [intros s; now rewrite Hother|].
    split.
    { intros s. rewrite Hother. cbn [trace fst].
      now rewrite !List.filter_app, !summary_events_logs. }
    split; [reflexivity|].
    cbn [trace fst]. rewrite !List.filter_app, summary_events_prints.
    rewrite (quiet_filter is_print _ ltac:(now intros []) Hq). reflexivity.
Qed.

(** X9.  CONSOLE_OUTPUT changes what a tick prints and nothing else: the
    records handed to the loggers are the same for every value of it.  With
    console output off, a tick whose body runs through prints nothing, but a
    tick that ends in the handler of the loop still prints its [ERROR:]
    line, and the three lines of the start-up banner are printed whatever
    the setting. *)
Theorem console_switch_only_affects_stdout (cfg : config) (r : reading) (s : string) :
  List.filter is_log (trace (tick (with_console s cfg) r))
  = List.filter is_log (trace (tick cfg r))
  /\ (console_output cfg = false ->
      List.filter is_print (trace (tick cfg r))
      = match result (tick_try cfg r) with
        | Ok _ => []
        | Raise e => [Print ("ERROR: " +:+ loop_error e)]
        end)
  /\ List.filter is_print (trace (main cfg []))
     = [ Print ("Starting monitor in " +:+ MONITOR_MODE cfg +:+ " mode");
         Print ("Logging Format Set To: " +:+ py_upper (log_format cfg));
         Print (dashes 80) ].
Proof.
  split; [|split; [|reflexivity]].
  - rewrite !tick_shape. cbn [trace fst]. rewrite !List.filter_app.
    destruct (tick_logs_and_prints cfg r)
      as [(e & He & Hres & Hlogs)|(lines & Hok & Hres & Hlogs & _)];
      now rewrite (Hres s), (Hlogs s), ?He, ?Hok.
  - intros Hoff.
    destruct (tick_logs_and_prints cfg r)
      as [(e & He & _)|(lines & Hok & _ & _ & _ & Hprints)].
    + rewrite He. exact (proj2 (failed_tick_report cfg r e He)).
    + rewrite tick_shape, Hok. cbn [trace fst].
      rewrite !List.filter_app, Hprints, Hoff. reflexivity.
Qed.

(** ** Records, schemas and CSV rows *)

Lemma category_rows (cfg : config) (r : reading) (name : string) (m : message) :
  String.eqb "main" name = false ->
  In m (rows name (trace (tick cfg r))) ->
  exists cpu mem disk net,
    result (get_cpu_stats (PROCESS_COUNT cfg) r) = Ok cpu
    /\ result (get_memory_stats (PROCESS_COUNT cfg) r) = Ok mem
    /\ result (get_disk_io r) = Ok disk
    /\ result (get_network_stats r) = Ok net
    /\ In m (rows name (category_logs cfg r cpu mem disk net)).
Proof.
  intros Hname Hin.
  destruct (tick_rows cfg r name Hname)
    as [[_ Hnone]|(cpu & mem & disk & net & H1 & H2 & H3 & H4 & Hrows)].
  - rewrite Hnone in Hin. destruct Hin.
  - rewrite Hrows in Hin. eauto 10.
Qed.

(** X10.  Every record a tick hands to a category logger is a dict whose
    keys are exactly the columns of that category's CSV schema after
    [timestamp] and [level], in the order of the schema.  So the CSV
    formatter finds every column in the record (its [N/A] default is never
    used for a record of the loop) and no key of the record is left out of
    the row. *)
Theorem category_records_match_their_schema (cfg : config) (r : reading)
        (name : string) (fields : list string) (m : message) :
  In (name, fields) log_fields ->
  String.eqb "main" name = false ->
  In m (rows name (trace (tick cfg r))) ->
  exists d,
    m = MDict d
    /\ map fst d = skipn 2 fields
    /\ (forall field, In field (skipn 2 fields) -> dict_get d field <> None)
    /\ map (csv_cell d) (skipn 2 fields)
       = map (fun field => match dict_get d field with
                           | Some (PList l) => SStr (json_dumps (PList l))
                           | Some (PDict x) => SStr (json_dumps (PDict x))
                           | Some PNone | None => SNone
                           | Some (PInt z) => SInt z
                           | Some (PFloat q) => SFloat q
                           | Some (PStr t) => SStr t
                           end) (skipn 2 fields).
Proof.
  intros Hschema Hname Hin.
  destruct (category_rows cfg r name m Hname Hin)
    as (cpu & mem & disk & net & _ & _ & _ & _ & Hm).
  unfold log_fields in Hschema. cbn [In] in Hschema.
  destruct Hschema as [[= <- <-]|[[= <- <-]|[[= <- <-]|[[= <- <-]|[[= <- <-]|[]]]]]];
    [discriminate Hname|..];
    cbn in Hm; destruct Hm as [<-|[]]; eexists; (split; [reflexivity|]);
    (split; [reflexivity|]);
    (split; [intros field Hf; cbn in Hf;
             repeat (destruct Hf as [<-|Hf]; [discriminate|]); destruct Hf
            | reflexivity]).
Qed.

Lemma category_records_match_their_schema_witness :
  exists d,
    nth 0 (rows "cpu" (trace (tick default_config (sample_reading two_procs)))) (MStr "")
    = MDict d
    /\ map fst d = ["cpu_percent"; "cpu_count"; "per_cpu"; "top_processes"].
Proof.
  destruct (category_records_match_their_schema default_config
              (sample_reading two_procs) "cpu" cpu_fields
              (nth 0 (rows "cpu" (trace (tick default_config (sample_reading two_procs))))
                   (MStr "")))
    as (d & Hd & Hkeys & _).
  - simpl. tauto.
  - reflexivity.
  - vm_compute. left. reflexivity.
  - exists d. split; [exact Hd | exact Hkeys].
Defined.

(** X11.  The rows of a category's CSV file line up with its header.  The
    header that [setup_logging] writes reads back as the columns of the
    schema, and the row that the CSV formatter makes of a record of the
    loop reads back as one cell per column, the cells being the timestamp,
    the level and the values of the record in the order of the schema.
    (The timestamp begins with a character that [strip] keeps; for the
    network category, whose last column is the ping host, so does the end
    of PING_HOST.) *)
Theorem csv_rows_line_up_with_the_header (cfg : config) (r : reading)
        (name : string) (fields : list string) (asctime : string) (m : message) :
  In (name, fields) log_fields ->
  String.eqb "main" name = false ->
  starts_clean asctime = true ->
  (name = "network" -> ends_clean (PING_HOST cfg) = true) ->
  In m (rows name (trace (tick cfg r))) ->
  csv_parse (csv_header fields) = fields
  /\ length (csv_parse (CSVFormatter_format fields asctime "INFO" m))
     = length (csv_parse (csv_header fields))
  /\ csv_parse (CSVFormatter_format fields asctime "INFO" m)
     = map csv_field_text (csv_data fields asctime "INFO" m).
Proof.
  intros Hschema Hname Hstart Hhost Hin.
  destruct (category_rows cfg r name m Hname Hin)
    as (cpu & mem & disk & net & _ & _ & _ & _ & Hm).
  unfold log_fields in Hschema. cbn [In] in Hschema.
  destruct Hschema as [[= <- <-]|[[= <- <-]|[[= <- <-]|[[= <- <-]|[[= <- <-]|[]]]]]];
    [discriminate Hname|..];
    cbn in Hm; destruct Hm as [<-|[]];
    (split; [reflexivity|]);
    match goal with
    | |- _ /\ csv_parse (CSVFormatter_format ?f ?a ?l ?msg) = _ =>
        assert (csv_parse (CSVFormatter_format f a l msg)
                = map csv_field_text (csv_data f a l msg)) as Hback
    end.
  1, 3, 5, 7: apply CSVFormatter_format_read_back; [exact Hstart|].
  - apply json_list_ends_clean.
  - apply json_list_ends_clean.
  - apply json_dict_ends_clean.
  - exact (Hhost eq_refl).
  - split; [now rewrite Hback | exact Hback].
  - split; [now rewrite Hback | exact Hback].
  - split; [now rewrite Hback | exact Hback].
  - split; [now rewrite Hback | exact Hback].
Qed.

Lemma csv_rows_line_up_with_the_header_witness :
  csv_parse (csv_header cpu_fields) = cpu_fields
  /\ length (csv_parse (CSVFormatter_format cpu_fields "2024-05-01 12:00:00" "INFO"
               (nth 0 (rows "cpu" (trace (tick default_config (sample_reading two_procs))))
                    (MStr ""))))
     = length (csv_parse (csv_header cpu_fields)).
Proof.
  destruct (csv_rows_line_up_with_the_header default_config (sample_reading two_procs)
              "cpu" cpu_fields "2024-05-01 12:00:00"
              (nth 0 (rows "cpu" (trace (tick default_config (sample_reading two_procs))))
                   (MStr "")))
    as (Hheader & Hlen & _).
  - simpl. tauto.
  - reflexivity.
  - reflexivity.
  - discriminate.
  - vm_compute. left. reflexivity.
  - split; [exact Hheader | exact Hlen].
Defined.

(** X12.  A record whose message is not a dict is written as three cells
    whatever the schema of the formatter is: the timestamp, the level and
    the message text itself (quoted by the writer where it holds a comma, a
    quote or a line break).  The columns of the schema play no part. *)
Theorem csv_row_of_a_text_message (fields : list string)
        (asctime levelname text : string) :
  starts_clean asctime = true ->
  ends_clean text = true ->
  csv_parse (CSVFormatter_format fields asctime levelname (MStr text))
  = [asctime; levelname; text]
  /\ CSVFormatter_format fields asctime levelname (MStr text)
     = csv_quote asctime +:+ String comma
         (csv_quote levelname +:+ String comma (csv_quote text)).
Proof.
  intros Hstart Hend. split.
  - now rewrite CSVFormatter_format_read_back.
  - now rewrite CSVFormatter_format_joined.
Qed.

Lemma csv_row_of_a_text_message_witness :
  csv_parse (CSVFormatter_format cpu_fields "2024-05-01 12:00:00" "ERROR"
               (MStr "Error in monitoring loop: list index out of range, again"))
  = ["2024-05-01 12:00:00"; "ERROR";
     "Error in monitoring loop: list index out of range, again"].
Proof.
  exact (proj1 (csv_row_of_a_text_message cpu_fields "2024-05-01 12:00:00" "ERROR"
                  "Error in monitoring loop: list index out of range, again"
                  eq_refl eq_refl)).
Defined.

(** ** The handlers that [setup_logging] creates *)

Ltac differ H :=
  apply append_inv_head in H; cbn [String.append] in H;
  first [ discriminate H
        | injection H as H; apply append_inv_head in H; discriminate H ].

Lemma setup_logging_names_distinct (cfg : config) :
  List.NoDup (log_files (setup_logging cfg)).
Proof.
  unfold setup_logging, log_fields, handlers_for, log_path, rotating_file.
  destruct (string_in (log_format cfg) ["log"; "both"]);
    destruct (string_in (log_format cfg) ["csv"; "both"]);
    destruct (console_output cfg);
    cbn [map log_files handler_files flat_map app filename
         String.eqb Ascii.eqb Bool.eqb andb negb];
    repeat (constructor;
            [ cbn [In]; intros Hin;
              repeat (destruct Hin as [Hin|Hin]; [differ Hin|]); exact Hin |]);
    constructor.
Qed.

Lemma legacy_names_distinct (cfg : config) :
  List.NoDup (log_files (Legacy.setup_logging cfg)).
Proof.
  unfold Legacy.setup_logging.
  destruct (console_output cfg);
    cbn [map log_files handler_files flat_map app filename];
    repeat (constructor;
            [ cbn [In]; intros Hin;
              repeat (destruct Hin as [Hin|Hin]; [differ Hin|]); exact Hin |]);
    constructor.
Qed.

(** Splitting at a character splits both sides of an occurrence. *)
Lemma py_split_char_app (c : ascii) (a b : string) :
  py_split (String c "") (a +:+ String c b)
  = py_split (String c "") a ++ py_split (String c "") b.
Proof.
  unfold py_split. induction a as [|d a IH].
  - change ("" +:+ String c b) with (String c b). cbn [split_go].
    rewrite prefix_char. destruct (ascii_dec c c); [reflexivity | congruence].
  - change (String d a +:+ String c b) with (String d (a +:+ String c b)).
    cbn [split_go]. rewrite !prefix_char.
    destruct (ascii_dec c d).
    + cbn [String.length Nat.sub]. rewrite IH. reflexivity.
    + rewrite IH.
      destruct (split_go (String c "") 0 a) as [|p ps] eqn:Ha;
        [now apply split_go_nonempty in Ha | reflexivity].
Qed.

Lemma py_split_char_none (c : ascii) (b : string) :
  py_in (String c "") b = false -> py_split (String c "") b = [b].
Proof.
  intros Hb. unfold py_split.
  rewrite <- (append_nil_r b) at 1.
  rewrite (split_go_glue (String c "") b "" "" []);
    [now rewrite append_nil_r | now apply no_start_char | reflexivity].
Qed.

Lemma concat_snoc (sep : string) (acc : list string) (x : string) :
  String.concat sep (acc ++ [x])
  = match acc with
    | [] => x
    | _ :: _ => String.concat sep acc +:+ sep +:+ x
    end.
Proof.
  induction acc as [|a acc IH]; [reflexivity|].
  destruct acc as [|b acc]; [reflexivity|].
  change ((a :: b :: acc) ++ [x]) with (a :: ((b :: acc) ++ [x])).
  change (String.concat sep (a :: (b :: acc) ++ [x]))
    with (a +:+ sep +:+ String.concat sep ((b :: acc) ++ [x])).
  rewrite IH.
  change (String.concat sep (a :: b :: acc))
    with (a +:+ sep +:+ String.concat sep (b :: acc)).
  now rewrite !append_assoc.
Qed.

Lemma prefix_nil (s : string) : String.prefix "" s = true.
Proof. now destruct s. Qed.

Lemma initial_slashes_base (D : string) (c : ascii) (base : string) :
  c <> "/"%char ->
  initial_slashes (D +:+ "/" +:+ String c base) = initial_slashes (D +:+ "/x").
Proof.
  intros Hc. unfold initial_slashes.
  destruct D as [|d1 [|d2 [|d3 D]]]; cbn [String.append String.prefix];
    rewrite ?prefix_nil;
    repeat match goal with
           | |- context [ascii_dec ?a ?b] => destruct (ascii_dec a b)
           end;
    try congruence; try reflexivity; discriminate.
Qed.

Lemma norm_step_plain (initial : bool) (acc : list string) (c : ascii) (base : string) :
  c <> "."%char -> norm_step initial acc (String c base) = acc ++ [String c base].
Proof.
  intros Hdot. unfold norm_step.
  assert (String.eqb (String c base) "" = false) as -> by reflexivity.
  assert (String.eqb (String c base) "." = false) as ->.
  { apply String.eqb_neq. intros [= -> _]. congruence. }
  assert (String.eqb (String c base) ".." = false) as ->.
  { apply String.eqb_neq. intros [= -> _]. congruence. }
  reflexivity.
Qed.

(** [normpath] keeps a plain last component, and what stands before it in
    the result depends on the directory alone. *)
Lemma normpath_in_directory (D : string) :
  exists dir, forall c base,
    c <> "/"%char -> c <> "."%char -> py_in "/" base = false ->
    normpath (D +:+ "/" +:+ String c base) = dir +:+ String c base.
Proof.
  set (k := initial_slashes (D +:+ "/x")).
  set (acc := fold_left (norm_step (0 <? k)%nat) (py_split "/" D) []).
  exists (match k with O => "" | S O => "/" | _ => "//" end
          +:+ match acc with
              | [] => ""
              | _ :: _ => String.concat "/" acc +:+ "/"
              end).
  intros c base Hc Hdot Hbase. unfold normpath.
  assert (String.eqb (D +:+ "/" +:+ String c base) "" = false) as ->
    by (apply String.eqb_neq; destruct D; discriminate).
  rewrite (initial_slashes_base D c base Hc). fold k.
  assert (py_in "/" (String c base) = false) as Hplain.
  { cbn [py_in]. rewrite prefix_char, Hbase.
    destruct (ascii_dec "/" c); [congruence | reflexivity]. }
  change (D +:+ "/" +:+ String c base) with (D +:+ String "/" (String c base)).
  rewrite py_split_char_app, (py_split_char_none _ _ Hplain), fold_left_app.
  fold acc. cbn [fold_left].
  rewrite (norm_step_plain _ acc c base Hdot), concat_snoc.
  set (lead := match k with O => "" | S O => "/" | _ => "//" end).
  assert (lead +:+ match acc with
                   | [] => String c base
                   | _ :: _ => String.concat "/" acc +:+ "/" +:+ String c base
                   end
          = (lead +:+ match acc with
                      | [] => ""
                      | _ :: _ => String.concat "/" acc +:+ "/"
                      end) +:+ String c base) as ->.
  { destruct acc; [now rewrite append_nil_r | now rewrite !append_assoc]. }
  match goal with
  | |- (if String.eqb ?p "" then _ else _) = _ =>
      assert (String.eqb p "" = false) as ->; [|reflexivity]
  end.
  apply String.eqb_neq.
  match goal with |- ?q +:+ _ <> _ => destruct q; discriminate end.
Qed.

(** The same for [abspath]. *)
Lemma abspath_in_directory (cwd D : string) :
  exists dir, forall c base,
    c <> "/"%char -> c <> "."%char -> py_in "/" base = false ->
    abspath cwd (D +:+ "/" +:+ String c base) = dir +:+ String c base.
Proof.
  unfold abspath.
  assert (forall c base,
            String.prefix "/" (D +:+ "/" +:+ String c base)
            = String.prefix "/" (D +:+ "/")) as Hfirst.
  { intros c base. change (D +:+ "/" +:+ String c base)
      with (D +:+ String "/" (String c base)).
    destruct D as [|d D]; [reflexivity|]. cbn [String.append].
    now rewrite !prefix_char. }
  destruct (String.prefix "/" (D +:+ "/")) eqn:Habs.
  - destruct (normpath_in_directory D) as [dir Hdir]. exists dir.
    intros c base Hc Hdot Hbase. rewrite Hfirst. now apply Hdir.
  - destruct (String.eqb cwd "" || ends_with_slash cwd) eqn:Hcwd.
    + destruct (normpath_in_directory (cwd +:+ D)) as [dir Hdir]. exists dir.
      intros c base Hc Hdot Hbase. rewrite Hfirst.
      unfold path_join. rewrite Hfirst, Hcwd.
      rewrite <- append_assoc. now apply Hdir.
    + destruct (normpath_in_directory (cwd +:+ "/" +:+ D)) as [dir Hdir]. exists dir.
      intros c base Hc Hdot Hbase. rewrite Hfirst.
      unfold path_join. rewrite Hfirst, Hcwd.
      replace (cwd +:+ "/" +:+ D +:+ "/" +:+ String c base)
        with ((cwd +:+ "/" +:+ D) +:+ "/" +:+ String c base)
        by now rewrite !append_assoc.
      now apply Hdir.
Qed.

(** Every file name of the two [setup_logging] is the log directory, a
    slash, and a name that begins with a letter. *)
Lemma log_files_shape (cfg : config) (file : string) :
  In file (log_files (setup_logging cfg) ++ log_files (Legacy.setup_logging cfg)) ->
  exists name ext,
    (py_in "/" (MONITOR_MODE cfg) = false ->
     py_in "/" (name +:+ "-" +:+ MONITOR_MODE cfg +:+ ext) = false
     /\ forall dir cwd,
          (forall c base, c <> "/"%char -> c <> "."%char -> py_in "/" base = false ->
             abspath cwd (LOG_DIR cfg +:+ "/" +:+ String c base) = dir +:+ String c base) ->
          abspath cwd (LOG_DIR cfg +:+ "/" +:+ name +:+ "-" +:+ MONITOR_MODE cfg +:+ ext)
          = dir +:+ name +:+ "-" +:+ MONITOR_MODE cfg +:+ ext)
    /\ file = LOG_DIR cfg +:+ "/" +:+ name +:+ "-" +:+ MONITOR_MODE cfg +:+ ext.
Proof.
  assert (forall name ext,
            In name ["main"; "cpu"; "memory"; "disk"; "network"; "monitor"] ->
            In ext [".log"; ".csv"] ->
            py_in "/" (MONITOR_MODE cfg) = false ->
            py_in "/" (name +:+ "-" +:+ MONITOR_MODE cfg +:+ ext) = false
            /\ forall dir cwd,
                 (forall c base, c <> "/"%char -> c <> "."%char ->
                    py_in "/" base = false ->
                    abspath cwd (LOG_DIR cfg +:+ "/" +:+ String c base)
                    = dir +:+ String c base) ->
                 abspath cwd (LOG_DIR cfg +:+ "/" +:+ name +:+ "-"
                              +:+ MONITOR_MODE cfg +:+ ext)
                 = dir +:+ name +:+ "-" +:+ MONITOR_MODE cfg +:+ ext) as Hgood.
  { intros name ext Hname Hext Hmode.
    assert (py_in "/" (name +:+ "-" +:+ MONITOR_MODE cfg +:+ ext) = false) as Hslash.
    { rewrite !py_in_char_app, Hmode.
      cbn [In] in Hname, Hext.
      destruct Hname as [<-|[<-|[<-|[<-|[<-|[<-|[]]]]]]];
        destruct Hext as [<-|[<-|[]]]; reflexivity. }
    split; [exact Hslash|]. intros dir cwd Hdir.
    cbn [In] in Hname.
    destruct Hname as [<-|[<-|[<-|[<-|[<-|[<-|[]]]]]]];
      cbn [String.append] in Hslash |- *;
      (apply Hdir; [discriminate | discriminate |]);
      cbn [py_in] in Hslash; rewrite prefix_char in Hslash;
      match type of Hslash with
      | (if (if ?d then _ else _) then _ else _) = _ => destruct d; [discriminate|]
      end; exact Hslash. }
  intros Hin. apply in_app_or in Hin as [Hin|Hin].
  - unfold setup_logging, log_fields, handlers_for, log_path, rotating_file in Hin.
    destruct (string_in (log_format cfg) ["log"; "both"]);
      destruct (string_in (log_format cfg) ["csv"; "both"]);
      destruct (console_output cfg);
      cbn [map log_files handler_files flat_map app filename
           String.eqb Ascii.eqb Bool.eqb andb negb In] in Hin;
      repeat (destruct Hin as [Hin|Hin];
              [match type of Hin with
               | _ +:+ "/" +:+ ?name +:+ "-" +:+ _ +:+ ?ext = _ =>
                   exists name, ext; split;
                   [apply Hgood; cbn [In]; tauto | now rewrite Hin]
               end|]);
      destruct Hin.
  - unfold Legacy.setup_logging in Hin.
    destruct (console_output cfg);
      cbn [map log_files handler_files flat_map app filename In] in Hin;
      repeat (destruct Hin as [Hin|Hin];
              [match type of Hin with
               | _ +:+ ?x +:+ _ +:+ ".log" = _ =>
                   exists (substring 1 (String.length x - 2) x), ".log"; split;
                   [apply Hgood; cbn; tauto | now rewrite <- Hin]
               end|]);
      destruct Hin.
Qed.

(** X13.  No two handlers of [setup_logging] write to the same file.  The
    names of the flat and CSV files of all loggers are pairwise distinct,
    for every LOG_DIR, mode and LOG_FORMAT, and so are the five names of the
    older copy.  A handler opens [os.path.abspath] of its name: when
    MONITOR_MODE holds no slash, the files that are opened are pairwise
    distinct as well, whatever the working directory, each being the same
    directory followed by the last component of its name.  (A mode with a
    slash can make them the same file.) *)
Theorem setup_logging_files_are_distinct (cfg : config) (cwd : string) :
  List.NoDup (log_files (setup_logging cfg))
  /\ List.NoDup (log_files (Legacy.setup_logging cfg))
  /\ length (log_files (setup_logging cfg))
     = ((if string_in (log_format cfg) ["log"; "both"] then 5 else 0)
        + (if string_in (log_format cfg) ["csv"; "both"] then 4 else 0))%nat
  /\ (py_in "/" (MONITOR_MODE cfg) = false ->
      List.NoDup (map (abspath cwd) (log_files (setup_logging cfg)))
      /\ List.NoDup (map (abspath cwd) (log_files (Legacy.setup_logging cfg)))
      /\ exists dir,
           forall file, In file (log_files (setup_logging cfg)
                                 ++ log_files (Legacy.setup_logging cfg)) ->
             exists base, file = LOG_DIR cfg +:+ "/" +:+ base
                          /\ py_in "/" base = false
                          /\ abspath cwd file = dir +:+ base).
Proof.
  split; [apply setup_logging_names_distinct|].
  split; [apply legacy_names_distinct|].
  split.
  { unfold setup_logging, log_fields, handlers_for.
    destruct (string_in (log_format cfg) ["log"; "both"]);
      destruct (string_in (log_format cfg) ["csv"; "both"]);
      destruct (console_output cfg); reflexivity. }
  intros Hmode.
  destruct (abspath_in_directory cwd (LOG_DIR cfg)) as [dir Hdir].
  assert (forall file, In file (log_files (setup_logging cfg)
                                ++ log_files (Legacy.setup_logging cfg)) ->
            exists base, file = LOG_DIR cfg +:+ "/" +:+ base
                         /\ py_in "/" base = false
                         /\ abspath cwd file = dir +:+ base) as Hfiles.
  { intros file Hin.
    destruct (log_files_shape cfg file Hin) as (name & ext & Hname & ->).
    exists (name +:+ "-" +:+ MONITOR_MODE cfg +:+ ext).
    destruct (Hname Hmode) as (Hslash & Hplain).
    split; [reflexivity|]. split; [exact Hslash|].
    exact (Hplain dir cwd Hdir). }
  assert (forall l, (forall f, In f l -> In f (log_files (setup_logging cfg)
                                               ++ log_files (Legacy.setup_logging cfg))) ->
            List.NoDup l -> List.NoDup (map (abspath cwd) l)) as Hmap.
  { intros l Hsub Hl. apply List.NoDup_map_NoDup_ForallPairs; [|exact Hl].
    intros x y Hx Hy Heq.
    destruct (Hfiles x (Hsub x Hx)) as (bx & -> & _ & Hbx).
    destruct (Hfiles y (Hsub y Hy)) as (by' & -> & _ & Hby).
    rewrite Hbx, Hby in Heq. apply append_inv_head in Heq. now rewrite Heq. }
  split; [|split].
  - apply Hmap; [|apply setup_logging_names_distinct].
    intros f Hf. apply in_or_app. now left.
  - apply Hmap; [|apply legacy_names_distinct].
    intros f Hf. apply in_or_app. now right.
  - exists dir. exact Hfiles.
Qed.

Lemma setup_logging_files_are_distinct_witness :
  List.NoDup (map (abspath "/app") (log_files (setup_logging default_config))).
Proof.
  exact (proj1 (proj2 (proj2 (proj2
           (setup_logging_files_are_distinct default_config "/app"))) eq_refl)).
Defined.

(** With the mode [/../x] every flat file of the loggers is the same file,
    [x.log] in the log directory. *)
Example climbing_mode_shares_a_file :
  map (abspath "/app") (log_files (Legacy.setup_logging climbing_config))
  = repeat "/var/log/monitor/x.log" 5.
Proof. vm_compute. reflexivity. Qed.

(** X14.  The start-up banner tells which handlers exist.  [main] logs
    [CSV Logging: ENABLED] exactly when [setup_logging] gave some logger a
    CSV handler, and [Flat Logging: ENABLED] exactly when it gave some
    logger a flat-file handler; otherwise it logs [DISABLED].  The main
    logger never has a CSV handler, and only the main logger can have the
    console handler. *)
Theorem banner_reports_the_handlers (cfg : config) :
  In (LogRecord "main" "INFO"
        (MStr ("CSV Logging: "
               +:+ enabled_word (has_handler is_csv_handler (setup_logging cfg)))))
     (trace (main cfg []))
  /\ In (LogRecord "main" "INFO"
           (MStr ("Flat Logging: "
                  +:+ enabled_word (has_handler is_flat_handler (setup_logging cfg)))))
        (trace (main cfg []))
  /\ (forall name hs h,
        In (name, hs) (setup_logging cfg) -> In h hs ->
        (is_csv_handler h = true -> name <> "main")
        /\ (is_file_handler h = false -> name = "main" /\ console_output cfg = true)).
Proof.
  assert (has_handler is_csv_handler (setup_logging cfg)
          = string_in (log_format cfg) ["csv"; "both"]) as ->.
  { unfold setup_logging, log_fields, handlers_for, has_handler.
    destruct (string_in (log_format cfg) ["log"; "both"]);
      destruct (string_in (log_format cfg) ["csv"; "both"]);
      destruct (console_output cfg); reflexivity. }
  assert (has_handler is_flat_handler (setup_logging cfg)
          = string_in (log_format cfg) ["log"; "both"]) as ->.
  { unfold setup_logging, log_fields, handlers_for, has_handler.
    destruct (string_in (log_format cfg) ["log"; "both"]);
      destruct (string_in (log_format cfg) ["csv"; "both"]);
      destruct (console_output cfg); reflexivity. }
  split; [|split].
  - unfold main. cbn [loop bind call emit log_info ret trace fst snd app].
    cbn [In]. tauto.
  - unfold main. cbn [loop bind call emit log_info ret trace fst snd app].
    cbn [In]. tauto.
  - intros name hs h Hin Hh. unfold setup_logging, log_fields in Hin.
    cbn [map In] in Hin. unfold handlers_for in Hin.
    destruct (string_in (log_format cfg) ["log"; "both"]);
      destruct (string_in (log_format cfg) ["csv"; "both"]);
      destruct (console_output cfg);
      cbn [String.eqb Ascii.eqb Bool.eqb andb negb app] in Hin;
      repeat (destruct Hin as [[= <- <-]|Hin]); try destruct Hin;
      cbn [In] in Hh;
      repeat (destruct Hh as [<-|Hh]); try destruct Hh;
      split; intros Hk; try discriminate Hk; try discriminate;
      try (split; reflexivity).
Qed.

(** ** More on the probe *)

Lemma py_split_no_sep (sep line : string) :
  no_start sep line EmptyString -> py_split sep line = [line].
Proof.
  intros Hns. unfold py_split.
  rewrite <- (append_nil_r line) at 1.
  rewrite (split_go_glue sep line EmptyString EmptyString [] Hns eq_refl).
  now rewrite append_nil_r.
Qed.

Lemma ping_scan_first (host line : string) (rest : list string) :
  py_in "time=" line = true ->
  ping_scan host (line :: rest) = ping_scan host [line].
Proof.
  intros Hin. cbn [ping_scan]. rewrite Hin.
  destruct (py_index (py_split "time=" line) 1) as [after|e]; cbn [res_bind];
    [|reflexivity].
  now destruct (py_index (py_split_ws after) 0).
Qed.

Lemma ping_scan_skip (host : string) (l1 l2 : list string) :
  List.Forall (fun line => py_in "time=" line = false) l1 ->
  ping_scan host (l1 ++ l2) = ping_scan host l2.
Proof.
  induction 1 as [|line l1 Hline _ IH]; [reflexivity|].
  cbn [app ping_scan]. now rewrite Hline.
Qed.

(** X15.  The first line of the output that holds [time=] decides the
    outcome of the probe, wherever it stands: the lines before it (the
    header that ping prints, say) hold no [time=] and are passed over, and
    whatever follows that line is never looked at.  A first reply line
    whose latency cannot be parsed is not made good by a later line. *)
Theorem first_reply_line_decides (host before line rest : string) :
  py_in "time=" before = false ->
  before = "" \/ (exists b, before = b +:+ nl) ->
  py_in nl line = false ->
  py_in "time=" line = true ->
  ping_network host (Completed 0 (before +:+ line +:+ nl +:+ rest))
  = ping_network host (Completed 0 line).
Proof.
  intros Hbefore Hlines Hline Hmark.
  assert (ping_scan host (py_split nl (line +:+ nl +:+ rest))
          = ping_scan host (py_split nl line)) as Hscan.
  { rewrite (py_split_at_sep nl line rest ltac:(discriminate)
               (no_start_char _ _ _ Hline)).
    rewrite (py_split_no_sep nl line (no_start_char _ _ _ Hline)).
    now rewrite (ping_scan_first host line _ Hmark). }
  unfold ping_network, ping_try.
  change (0 =? 0) with true. cbv iota.
  destruct Hlines as [->|[b ->]].
  - change ("" +:+ line +:+ nl +:+ rest) with (line +:+ nl +:+ rest).
    now rewrite Hscan.
  - rewrite append_assoc.
    change (b +:+ nl +:+ line +:+ nl +:+ rest)
      with (b +:+ String (ascii_of_nat 10) (line +:+ nl +:+ rest)).
    unfold nl at 1. rewrite py_split_char_app. fold nl.
    rewrite ping_scan_skip; [now rewrite Hscan|].
    apply List.Forall_forall. intros piece Hpiece.
    destruct (split_go_piece _ _ _ _ Hpiece) as (x & y & ->).
    apply (py_in_false_sub "time=" "" _ nl) in Hbefore.
    exact (py_in_false_sub _ _ _ _ Hbefore).
Qed.

Lemma first_reply_line_decides_witness :
  ping_network "8.8.8.8"
    (Completed 0 (("PING 8.8.8.8 (8.8.8.8): 56 data bytes" +:+ nl)
                  +:+ "64 bytes from 8.8.8.8: time=" +:+ nl
                  +:+ "64 bytes from 8.8.8.8: time=12.3 ms"))
  = ping_errored "8.8.8.8" "list index out of range".
Proof.
  exact (first_reply_line_decides "8.8.8.8"
           ("PING 8.8.8.8 (8.8.8.8): 56 data bytes" +:+ nl)
           "64 bytes from 8.8.8.8: time="
           "64 bytes from 8.8.8.8: time=12.3 ms"
           eq_refl (or_intror (ex_intro _ "PING 8.8.8.8 (8.8.8.8): 56 data bytes" eq_refl))
           eq_refl eq_refl).
Defined.

Lemma category_logs_rows (cfg : config) (r : reading) (cpu : cpu_stats)
      (mem : mem_stats) (disk : disk_stats) (net : net_stats) :
  rows "cpu" (category_logs cfg r cpu mem disk net) = [cpu_record cpu]
  /\ rows "memory" (category_logs cfg r cpu mem disk net) = [memory_record mem]
  /\ rows "disk" (category_logs cfg r cpu mem disk net) = [disk_record disk]
  /\ rows "network" (category_logs cfg r cpu mem disk net)
     = [network_record (PING_HOST cfg) net (ping_network (PING_HOST cfg) (os_ping r))].
Proof. repeat split. Qed.

(** X16.  The outcome of the probe never decides whether a tick runs
    through: [ping_network] returns a dict for every answer of the
    subprocess, also when the subprocess cannot be started.  With any other
    answer of the ping subprocess, the body of the loop ends the same way,
    the CPU, memory and disk loggers get the same records, and the network
    logger gets a record exactly when it got one before; that record
    carries the status of the probe and, for a probe without success, the
    latency [N/A]. *)
Theorem probe_outcome_never_fails_the_tick (cfg : config) (r : reading)
        (run : run_result) :
  result (tick_try cfg (with_ping run r)) = result (tick_try cfg r)
  /\ rows "cpu" (trace (tick cfg (with_ping run r))) = rows "cpu" (trace (tick cfg r))
  /\ rows "memory" (trace (tick cfg (with_ping run r)))
     = rows "memory" (trace (tick cfg r))
  /\ rows "disk" (trace (tick cfg (with_ping run r))) = rows "disk" (trace (tick cfg r))
  /\ length (rows "network" (trace (tick cfg (with_ping run r))))
     = length (rows "network" (trace (tick cfg r)))
  /\ (forall m, In m (rows "network" (trace (tick cfg (with_ping run r)))) ->
        exists d,
          m = MDict d
          /\ dict_get d "ping_status"
             = Some (PStr (ping_status (ping_network (PING_HOST cfg) run)))
          /\ (ping_status (ping_network (PING_HOST cfg) run) <> "success" ->
              dict_get d "ping_latency" = Some (PStr "N/A"))).
Proof.
  assert (forall name, String.eqb "main" name = false ->
            (rows name (trace (tick cfg (with_ping run r))) = []
             /\ rows name (trace (tick cfg r)) = []
             /\ exists e, result (tick_try cfg r) = Raise e
                          /\ result (tick_try cfg (with_ping run r)) = Raise e)
            \/ exists cpu mem disk net,
                 rows name (trace (tick cfg (with_ping run r)))
                 = rows name (category_logs cfg (with_ping run r) cpu mem disk net)
                 /\ rows name (trace (tick cfg r))
                    = rows name (category_logs cfg r cpu mem disk net)
                 /\ result (tick_try cfg (with_ping run r)) = result (tick_try cfg r))
    as Hcases.
  { intros name Hname.
    destruct (tick_rows cfg r name Hname)
      as [[Hfail Hnone]|(cpu & mem & disk & net & H1 & H2 & H3 & H4 & Hrows)].
    - left.
      destruct (tick_rows cfg (with_ping run r) name Hname)
        as [[_ Hnone']|(cpu & mem & disk & net & H1 & H2 & H3 & H4 & _)].
      + split; [exact Hnone'|]. split; [exact Hnone|].
        unfold tick_try.
        change (get_cpu_stats (PROCESS_COUNT cfg) (with_ping run r))
          with (get_cpu_stats (PROCESS_COUNT cfg) r).
        change (get_memory_stats (PROCESS_COUNT cfg) (with_ping run r))
          with (get_memory_stats (PROCESS_COUNT cfg) r).
        change (get_disk_io (with_ping run r)) with (get_disk_io r).
        change (get_network_stats (with_ping run r)) with (get_network_stats r).
        unfold provider_fails in Hfail.
        destruct (get_cpu_stats (PROCESS_COUNT cfg) r) as [t1 [c|e1]];
          [|eexists; split; reflexivity].
        destruct (get_memory_stats (PROCESS_COUNT cfg) r) as [t2 [m|e2]];
          [|eexists; split; reflexivity].
        destruct (get_disk_io r) as [t3 [d|e3]]; [|eexists; split; reflexivity].
        destruct (get_network_stats r) as [t4 [n|e4]]; [|eexists; split; reflexivity].
        exfalso. cbn [result snd] in Hfail.
        destruct Hfail as [[? ?]|[[? ?]|[[? ?]|[? ?]]]]; discriminate.
      + exfalso. unfold provider_fails in Hfail.
        change (get_cpu_stats (PROCESS_COUNT cfg) (with_ping run r))
          with (get_cpu_stats (PROCESS_COUNT cfg) r) in H1.
        change (get_memory_stats (PROCESS_COUNT cfg) (with_ping run r))
          with (get_memory_stats (PROCESS_COUNT cfg) r) in H2.
        change (get_disk_io (with_ping run r)) with (get_disk_io r) in H3.
        change (get_network_stats (with_ping run r)) with (get_network_stats r) in H4.
        destruct Hfail as [[? ?]|[[? ?]|[[? ?]|[? ?]]]]; congruence.
    - right. exists cpu, mem, disk, net.
      destruct (tick_rows cfg (with_ping run r) name Hname)
        as [[Hfail _]|(cpu' & mem' & disk' & net' & H1' & H2' & H3' & H4' & Hrows')].
      + exfalso. unfold provider_fails in Hfail.
        change (get_cpu_stats (PROCESS_COUNT cfg) (with_ping run r))
          with (get_cpu_stats (PROCESS_COUNT cfg) r) in Hfail.
        change (get_memory_stats (PROCESS_COUNT cfg) (with_ping run r))
          with (get_memory_stats (PROCESS_COUNT cfg) r) in Hfail.
        change (get_disk_io (with_ping run r)) with (get_disk_io r) in Hfail.
        change (get_network_stats (with_ping run r)) with (get_network_stats r) in Hfail.
        destruct Hfail as [[? ?]|[[? ?]|[[? ?]|[? ?]]]]; congruence.
      + change (get_cpu_stats (PROCESS_COUNT cfg) (with_ping run r))
          with (get_cpu_stats (PROCESS_COUNT cfg) r) in H1'.
        change (get_memory_stats (PROCESS_COUNT cfg) (with_ping run r))
          with (get_memory_stats (PROCESS_COUNT cfg) r) in H2'.
        change (get_disk_io (with_ping run r)) with (get_disk_io r) in H3'.
        change (get_network_stats (with_ping run r)) with (get_network_stats r) in H4'.
        assert (cpu' = cpu) as -> by congruence.
        assert (mem' = mem) as -> by congruence.
        assert (disk' = disk) as -> by congruence.
        assert (net' = net) as -> by congruence.
        split; [exact Hrows'|]. split; [exact Hrows|].
        rewrite (tick_try_sampled cfg r cpu mem disk net H1 H2 H3 H4),
          (tick_try_sampled cfg (with_ping run r) cpu mem disk net H1 H2 H3 H4).
        destruct (cpu_top_processes cpu); [reflexivity|].
        destruct (mem_top_processes mem); reflexivity. }
  split.
  { destruct (Hcases "cpu" eq_refl) as [(_ & _ & e & He & He')|(? & ? & ? & ? & _ & _ & H)];
      congruence. }
  split.
  { destruct (Hcases "cpu" eq_refl) as [(-> & -> & _)|(? & ? & ? & ? & -> & -> & _)];
      reflexivity. }
  split.
  { destruct (Hcases "memory" eq_refl) as [(-> & -> & _)|(? & ? & ? & ? & -> & -> & _)];
      reflexivity. }
  split.
  { destruct (Hcases "disk" eq_refl) as [(-> & -> & _)|(? & ? & ? & ? & -> & -> & _)];
      reflexivity. }
  split.
  { destruct (Hcases "network" eq_refl) as [(-> & -> & _)|(? & ? & ? & ? & -> & -> & _)];
      reflexivity. }
  intros m Hm.
  destruct (Hcases "network" eq_refl) as [(Hnone & _)|(cpu & mem & disk & net & Hrows & _)].
  { rewrite Hnone in Hm. destruct Hm. }
  rewrite Hrows in Hm.
  rewrite (proj2 (proj2 (proj2 (category_logs_rows cfg (with_ping run r) cpu mem disk net))))
    in Hm.
  destruct Hm as [<-|[]].
  change (os_ping (with_ping run r)) with run.
  eexists. split; [reflexivity|]. split; [reflexivity|].
  intros Hfail.
  destruct (ping_network_shape (PING_HOST cfg) run) as [->|[(tok & _ & Hs)|[detail ->]]];
    [reflexivity | | reflexivity].
  rewrite Hs in Hfail. now contradiction Hfail.
Qed.

(** ** Rounded sizes *)

(** X17.  The megabyte figures of the network record follow the byte
    counters: each is within 0.005 of the counter divided by 1024**2, and
    when a counter has not decreased from one reading to the next, its
    figure has not decreased either.  The packet counts are passed on
    unchanged. *)
Theorem megabytes_follow_the_byte_counters (r1 r2 : reading) (o1 o2 : snetio) :
  os_net_io r1 = Ok o1 ->
  os_net_io r2 = Ok o2 ->
  io_bytes_sent o1 <= io_bytes_sent o2 ->
  io_bytes_recv o1 <= io_bytes_recv o2 ->
  exists n1 n2,
    result (get_network_stats r1) = Ok n1
    /\ result (get_network_stats r2) = Ok n2
    /\ (sent_mb n1 <= sent_mb n2)%Q
    /\ (recv_mb n1 <= recv_mb n2)%Q
    /\ (inject_Z (io_bytes_sent o1) / inject_Z MiB - (1 # 200) <= sent_mb n1)%Q
    /\ (sent_mb n1 <= inject_Z (io_bytes_sent o1) / inject_Z MiB + (1 # 200))%Q
    /\ (inject_Z (io_bytes_recv o1) / inject_Z MiB - (1 # 200) <= recv_mb n1)%Q
    /\ (recv_mb n1 <= inject_Z (io_bytes_recv o1) / inject_Z MiB + (1 # 200))%Q
    /\ packets_sent n1 = io_packets_sent o1
    /\ packets_recv n1 = io_packets_recv o1.
Proof.
  intros H1 H2 Hsent Hrecv.
  unfold get_network_stats, bind, call, ret, result. rewrite H1, H2. cbn [snd].
  eexists. eexists. split; [reflexivity|]. split; [reflexivity|].
  cbn [sent_mb recv_mb packets_sent packets_recv].
  split; [now apply to_mb_mono|]. split; [now apply to_mb_mono|].
  unfold to_mb.
  split; [apply round2_close|]. split; [apply round2_close|].
  split; [apply round2_close|]. split; [apply round2_close|].
  split; reflexivity.
Qed.

Lemma megabytes_follow_the_byte_counters_witness :
  exists n1 n2,
    result (get_network_stats (sample_reading two_procs)) = Ok n1
    /\ result (get_network_stats (sample_reading [])) = Ok n2
    /\ (sent_mb n1 <= sent_mb n2)%Q.
Proof.
  destruct (megabytes_follow_the_byte_counters (sample_reading two_procs)
              (sample_reading []) sample_net sample_net eq_refl eq_refl)
    as (n1 & n2 & Hn1 & Hn2 & Hsent & _).
  - lia.
  - lia.
  - exists n1, n2. split; [exact Hn1|]. split; [exact Hn2 | exact Hsent].
Defined.

Lemma Forall2_Forall_right {A B} (R : A -> B -> Prop) (P : A -> Prop) (Q : B -> Prop)
      (l : list A) (es : list B) :
  (forall a b, P a -> R a b -> Q b) ->
  Forall2 R l es -> List.Forall P l -> List.Forall Q es.
Proof.
  intros HPQ HF. induction HF as [|a b l es Hab HF IH]; intros HP; [constructor|].
  inversion HP as [|? ? Ha Hl]; subst.
  constructor; [eapply HPQ; eauto | auto].
Qed.

(** X18.  The share that [get_memory_stats] reports for a process is a
    percentage: when physical memory has a positive total and no process
    holds more resident memory than that total (nor a negative amount),
    every entry of the memory ranking has a [percent] between 0 and 100 and
    non-negative sizes, whatever PROCESS_COUNT is. *)
Theorem memory_shares_are_percentages (N : Z) (r : reading) (vm : svmem)
        (mem : mem_stats) :
  os_virtual_memory r = Ok vm ->
  0 < vm_total vm ->
  List.Forall (fun p => forall m, info_memory_info p = Has m ->
                                  0 <= rss m <= vm_total vm /\ 0 <= vms m)
              (os_procs_mem r) ->
  result (get_memory_stats N r) = Ok mem ->
  List.Forall (fun e => (0 <= me_percent e)%Q /\ (me_percent e <= 100)%Q
                        /\ (0 <= me_rss_mb e)%Q /\ (0 <= me_vms_mb e)%Q)
              (mem_top_processes mem).
Proof.
  intros Hvm Htotal Hprocs.
  unfold get_memory_stats, result, bind, call, lift, ret. rewrite Hvm.
  set (ranked := sorted_desc _ (os_procs_mem r)).
  destruct (mem_entries (vm_total vm) (py_take N ranked)) as [es|] eqn:Hes;
    [|discriminate].
  cbn [snd]. intros [= <-]. cbn [mem_top_processes].
  pose proof (mem_entries_spec _ _ _ Hes) as HF.
  refine (Forall2_Forall_right _
            (fun p => forall m, info_memory_info p = Has m ->
                                0 <= rss m <= vm_total vm /\ 0 <= vms m)
            _ _ _ _ HF _).
  - intros p e Hp (m & Hm & Hrss & Hvms & Hpct).
    destruct (Hp m Hm) as [[Hlo Hhi] Hv].
    rewrite Hpct, Hrss, Hvms.
    assert (0 <= round2 0)%Q as R0 by (vm_compute; discriminate).
    assert (round2 100 <= 100)%Q as R100 by (vm_compute; discriminate).
    assert (0 <= to_mb 0)%Q as M0 by (vm_compute; discriminate).
    split; [|split; [|split]].
    + apply (Qle_trans _ _ _ R0), round2_mono.
      pose proof (share_mono 0 (rss m) (vm_total vm) Htotal Hlo) as Hs.
      assert (inject_Z 0 / inject_Z (vm_total vm) * 100 == 0)%Q as E
        by (unfold Qdiv; rewrite Qmult_0_l, Qmult_0_l; reflexivity).
      rewrite E in Hs. exact Hs.
    + refine (Qle_trans _ _ _ _ R100). apply round2_mono.
      pose proof (share_mono (rss m) (vm_total vm) (vm_total vm) Htotal Hhi) as Hs.
      assert (inject_Z (vm_total vm) / inject_Z (vm_total vm) * 100 == 100)%Q as E.
      { unfold Qdiv. rewrite Qmult_inv_r; [reflexivity|].
        intros H. unfold Qeq in H. simpl in H. lia. }
      rewrite E in Hs. exact Hs.
    + apply (Qle_trans _ _ _ M0). now apply to_mb_mono.
    + apply (Qle_trans _ _ _ M0). now apply to_mb_mono.
  - apply List.Forall_forall. intros p Hp.
    apply List.filter_In in Hp as [Hp _].
    apply (proj1 (List.Forall_forall _ _) Hprocs).
    apply (Permutation_in (l := ranked)); [apply sorted_desc_perm|].
    destruct (py_take_prefix N ranked) as (k & Hk & _). rewrite Hk in Hp.
    rewrite <- (firstn_skipn k ranked). apply in_or_app. now left.
Qed.

Lemma memory_shares_are_percentages_witness :
  exists mem,
    result (get_memory_stats 5 (sample_reading two_procs)) = Ok mem
    /\ List.Forall (fun e => (0 <= me_percent e)%Q /\ (me_percent e <= 100)%Q
                             /\ (0 <= me_rss_mb e)%Q /\ (0 <= me_vms_mb e)%Q)
                   (mem_top_processes mem).
Proof.
  eexists. split; [reflexivity|].
  apply (memory_shares_are_percentages 5 (sample_reading two_procs) sample_mem).
  - reflexivity.
  - reflexivity.
  - apply List.Forall_cons; [|apply List.Forall_cons; [|apply List.Forall_nil]];
      intros m [= <-]; vm_compute; repeat split; discriminate.
  - reflexivity.
Defined.

(** ** Slicing the ranking *)

(** X19.  A negative PROCESS_COUNT does not empty the CPU ranking: the
    slice [[:N]] then drops the last [-N] processes of the sorted table.
    The ranking holds all processes but the [-N] with the lowest figures
    (none when the table has no more than [-N] processes), still in
    non-increasing order. *)
Theorem negative_process_count_cuts_the_tail (N : Z) (r : reading) (cpu : cpu_stats) :
  N < 0 ->
  result (get_cpu_stats N r) = Ok cpu ->
  length (cpu_top_processes cpu) = (length (os_procs_cpu r) - Z.to_nat (- N))%nat
  /\ StronglySorted cpu_order (cpu_top_processes cpu)
  /\ exists ranked dropped,
       cpu_top_processes cpu = map cpu_entry_of ranked
       /\ Permutation (ranked ++ dropped) (os_procs_cpu r)
       /\ length dropped = Nat.min (Z.to_nat (- N)) (length (os_procs_cpu r))
       /\ (forall a b, In a ranked -> In b dropped ->
             cpu_order (cpu_entry_of a) (cpu_entry_of b)).
Proof.
  intros HN. unfold get_cpu_stats, result, bind, call, lift, ret.
  destruct (sorted_by_cpu (os_procs_cpu r)) as [ranked|] eqn:Hsort; [|discriminate].
  cbn [snd]. intros [= <-]. cbn [cpu_top_processes].
  destruct (sorted_by_cpu_spec _ _ Hsort) as [Hperm Hsorted].
  pose proof (Permutation_length Hperm) as Hlen.
  unfold py_take. destruct (Z.leb_spec 0 N) as [|_]; [lia|].
  set (k := (length ranked - Z.to_nat (- N))%nat).
  split; [rewrite length_map, length_firstn; unfold k; lia|].
  split.
  { apply StronglySorted_map. unfold cpu_order.
    eapply StronglySorted_impl; [|apply StronglySorted_firstn, Hsorted].
    intros a b Hab. cbv beta in Hab. now rewrite !ce_metric_of. }
  exists (firstn k ranked), (skipn k ranked).
  split; [reflexivity|].
  split; [now rewrite firstn_skipn|].
  split; [rewrite length_skipn; unfold k; lia|].
  intros a b Ha Hb. unfold cpu_order. rewrite !ce_metric_of.
  rewrite <- (firstn_skipn k ranked) in Hsorted.
  exact (StronglySorted_app_cross _ _ _ Hsorted a b Ha Hb).
Qed.

Lemma negative_process_count_cuts_the_tail_witness :
  exists cpu,
    result (get_cpu_stats (-1) (sample_reading two_procs)) = Ok cpu
    /\ length (cpu_top_processes cpu) = 1%nat.
Proof.
  eexists. split; [reflexivity|].
  refine (proj1 (negative_process_count_cuts_the_tail (-1) (sample_reading two_procs)
                   _ _ eq_refl)).
  lia.
Defined.

(** ** The size of the rotated files *)

Lemma file_size_app (f : list string) (msg : string) :
  file_size (f ++ [msg]) = file_size f + (utf8_length msg + 1).
Proof.
  induction f as [|t f IH]; cbn [app file_size fold_right]; [lia|].
  fold (file_size (f ++ [msg])). fold (file_size f). lia.
Qed.

Lemma utf8_length_isascii (s : string) :
  isascii s = true -> utf8_length s = Z.of_nat (String.length s).
Proof.
  induction s as [|c s IH]; [reflexivity|].
  cbn [isascii utf8_length String.length].
  intros [Hc Hs]%andb_prop. rewrite (IH Hs).
  destruct c as [? ? ? ? ? ? ? []]; cbn [utf8_bytes]; [|lia].
  exfalso. revert Hc.
  repeat match goal with b : bool |- _ => destruct b end; vm_compute; discriminate.
Qed.

(** One write: the files stay below the limit plus the bytes that the
    record takes beyond one per character. *)
Lemma emit_file_sizes (h : rotating) (fs : gmap nat (list string)) (msg : string)
      (extra : Z) :
  (0 < backupCount h)%nat ->
  0 < maxBytes h ->
  Z.of_nat (String.length msg) + 1 < maxBytes h ->
  utf8_length msg - Z.of_nat (String.length msg) <= extra ->
  (forall i f, fs !! i = Some f -> file_size f < maxBytes h + extra) ->
  forall i f, emit_file h fs msg !! i = Some f -> file_size f < maxBytes h + extra.
Proof.
  intros Hbc Hmax Hmsg Hextra Hfs i f. unfold emit_file, shouldRollover.
  apply Z.ltb_lt in Hmax as Hm. rewrite Hm. cbn [andb].
  destruct (Z.leb_spec (maxBytes h)
              (file_size (active fs) + (Z.of_nat (String.length msg) + 1)))
    as [Hroll|Hfit].
  - assert (active (doRollover h fs) = []) as ->
      by (unfold active; now rewrite (doRollover_lookup h 0 fs Hbc)).
    destruct (decide (i = 0%nat)) as [->|Hi].
    + rewrite lookup_insert_eq. intros [= <-]. cbn [app file_size fold_right]. lia.
    + rewrite lookup_insert_ne by lia. rewrite (doRollover_lookup h i fs Hbc).
      repeat case_decide; try lia; try apply Hfs.
      destruct (fs !! (backupCount h - 1)%nat) as [g|] eqn:Hg; [|apply Hfs].
      intros [= <-]. exact (Hfs _ _ Hg).
  - destruct (decide (i = 0%nat)) as [->|Hi].
    + rewrite lookup_insert_eq. intros [= <-]. rewrite file_size_app. lia.
    + rewrite lookup_insert_ne by lia. apply Hfs.
Qed.

(** X20.  The handler decides on a rollover from the size of the active
    file in bytes plus the length of the record and its newline in
    characters, so a file can pass 10 MiB only by the bytes that one record
    takes beyond one per character.  With the limits that [setup_logging]
    gives its handlers: if every record is shorter than the limit and takes
    at most [extra] bytes more than it has characters, and the files were
    below [10485760 + extra] bytes to begin with, then after any sequence
    of writes the active file and every kept generation are below
    [10485760 + extra] bytes, and there are at most five kept generations.
    Records of ASCII text take one byte per character ([extra] is 0: the
    files stay below 10 MiB).  A record that is not shorter than the limit
    is still written: it gets a fresh file to itself. *)
Theorem rotated_files_stay_below_the_limit (path : string)
        (fs : gmap nat (list string)) (msgs : list string) (extra : Z) :
  bounded 5 fs ->
  (forall i f, fs !! i = Some f -> file_size f < 10485760 + extra) ->
  List.Forall (fun msg => Z.of_nat (String.length msg) + 1 < 10485760
                          /\ utf8_length msg - Z.of_nat (String.length msg) <= extra)
              msgs ->
  (forall i f, fold_left (emit_file (rotating_file path)) msgs fs !! i = Some f ->
     file_size f < 10485760 + extra /\ (i <= 5)%nat)
  /\ (forall msg, isascii msg = true ->
        utf8_length msg - Z.of_nat (String.length msg) = 0)
  /\ (forall big, 10485760 <= Z.of_nat (String.length big) + 1 ->
        emit_file (rotating_file path) fs big !! 0%nat = Some [big]).
Proof.
  intros Hb Hfs Hmsgs. set (h := rotating_file path).
  assert (0 < backupCount h)%nat as Hbc by (cbn; lia).
  split; [|split].
  - intros i f Hf. split.
    + revert fs Hfs Hb Hf.
      induction Hmsgs as [|msg msgs [Hmsg Hextra] _ IH]; intros fs Hfs Hb Hf;
        [exact (Hfs i f Hf)|].
      cbn [fold_left] in Hf. refine (IH _ _ _ Hf).
      * apply (emit_file_sizes h fs msg extra Hbc);
          [reflexivity | exact Hmsg | exact Hextra | exact Hfs].
      * now apply (emit_file_bounded h fs msg Hbc).
    + pose proof (emits_bounded h msgs fs Hbc Hb) as Hall.
      exact (proj1 (bounded_lookup 5 _) Hall i f Hf).
  - intros msg Hmsg. rewrite (utf8_length_isascii msg Hmsg). lia.
  - intros big Hbig. unfold emit_file, shouldRollover.
    change (maxBytes h) with 10485760. change (0 <? 10485760) with true. cbn [andb].
    pose proof (file_size_nonneg (active fs)) as Hpos.
    destruct (Z.leb_spec 10485760
                (file_size (active fs) + (Z.of_nat (String.length big) + 1)));
      [|lia].
    assert (active (doRollover h fs) = []) as ->
      by (unfold active; now rewrite (doRollover_lookup h 0 fs Hbc)).
    now rewrite lookup_insert_eq.
Qed.

Lemma rotated_files_stay_below_the_limit_witness :
  match fold_left (emit_file (rotating_file (log_path default_config "cpu" ".csv")))
                  [a_row; a_row] (open_csv_file cpu_fields ∅) !! 0%nat with
  | Some f => file_size f < 10485760 + 0
  | None => True
  end.
Proof.
  destruct (fold_left (emit_file (rotating_file (log_path default_config "cpu" ".csv")))
                      [a_row; a_row] (open_csv_file cpu_fields ∅) !! 0%nat)
    as [f|] eqn:Hf; [|exact I].
  refine (proj1 (proj1 (rotated_files_stay_below_the_limit
                          (log_path default_config "cpu" ".csv")
                          (open_csv_file cpu_fields ∅) [a_row; a_row] 0 _ _ _)
                   0%nat f Hf)).
  - unfold bounded. apply (bool_decide_unpack _). vm_compute. exact I.
  - intros i g.
    change (open_csv_file cpu_fields ∅)
      with ({[ 0%nat := [csv_header cpu_fields] ]} : gmap nat (list string)).
    intros [_ <-]%lookup_singleton_Some. vm_compute. reflexivity.
  - repeat constructor; vm_compute; congruence.
Defined.

(** The bound cannot be the limit itself: a record of two characters of
    two bytes each is appended to a file of four bytes under a limit of
    eight, and the file then holds nine. *)
Example wide_characters_pass_the_limit :
  shouldRollover tiny_handler {[ 0%nat := ["abc"] ]} two_wide = false
  /\ emit_file tiny_handler {[ 0%nat := ["abc"] ]} two_wide
     = {[ 0%nat := ["abc"; two_wide] ]}
  /\ file_size ["abc"; two_wide] = 9.
Proof. repeat split. Qed.

(** ** The main log of the older copy *)

Lemma logged_app (name : string) (t1 t2 : list event) :
  logged name (t1 ++ t2) = logged name t1 ++ logged name t2.
Proof. unfold logged. apply flat_map_app. Qed.

(** X21.  In the older loop every line that goes to a category logger
    goes to the main logger too, at the same level and in the same order:
    the records of the main logger in a tick are those of the CPU, memory,
    disk and network loggers, one category after the other, followed by
    the error line of the loop when the body was cut short.  No category
    logger gets a record that the main logger does not get. *)
Theorem legacy_main_log_repeats_the_categories (cfg : config) (r : reading) :
  logged "main" (trace (Legacy.tick cfg r))
  = logged "cpu" (trace (Legacy.tick cfg r))
    ++ logged "memory" (trace (Legacy.tick cfg r))
    ++ logged "disk" (trace (Legacy.tick cfg r))
    ++ logged "network" (trace (Legacy.tick cfg r))
    ++ match result (Legacy.tick_try cfg r) with
       | Ok _ => []
       | Raise e => [("ERROR", MStr (loop_error e))]
       end.
Proof.
  destruct (legacy_ping_report_trace cfg r (PING_HOST cfg) (os_ping r))
    as (lvl & line & Hping & _).
  unfold Legacy.tick, Legacy.tick_try, Legacy.disk_try, Legacy.disk_except,
    Legacy.get_cpu_stats, Legacy.get_memory_stats, Legacy.get_disk_io,
    Legacy.get_network_stats, tick_except.
  destruct (os_virtual_memory r) as [vm|e1];
    destruct (os_disk_io r) as [[io|]|e2];
    destruct (os_net_io r) as [nio|e3];
    cbn [bind call lift ret emit log_info log_error try_except fst snd app];
    rewrite ?Hping;
    destruct (console_output cfg);
    cbn [bind call lift ret emit log_info log_error try_except fst snd app
         trace result];
    reflexivity.
Qed.

(** ** One record, one line *)

Lemma no_break_app (a b : string) :
  no_break (a +:+ b) = no_break a && no_break b.
Proof.
  induction a as [|c a IH]; [reflexivity|].
  change (String c a +:+ b) with (String c (a +:+ b)).
  cbn [no_break]. now rewrite IH, andb_assoc.
Qed.

Lemma json_escape_char_no_break (c : ascii) : no_break (json_escape_char c) = true.
Proof. destruct c as [[] [] [] [] [] [] [] []]; vm_compute; reflexivity. Qed.

Lemma json_string_no_break (s : string) : no_break (json_string s) = true.
Proof.
  unfold json_string. cbn [no_break]. rewrite no_break_app.
  change (Ascii.eqb dquote cr || Ascii.eqb dquote lf) with false. cbn [negb andb].
  rewrite andb_true_r.
  induction s as [|c s IH]; [reflexivity|].
  cbn [json_escape]. now rewrite no_break_app, json_escape_char_no_break, IH.
Qed.

Lemma digits_no_break (d : Decimal.uint) :
  no_break (NilEmpty.string_of_uint d) = true.
Proof. induction d; [reflexivity | exact IHd..]. Qed.

Lemma string_of_uint_no_break (d : Decimal.uint) :
  no_break (NilZero.string_of_uint d) = true.
Proof. destruct d; [reflexivity | apply (digits_no_break (_ d))..]. Qed.

Lemma str_int_no_break (z : Z) : no_break (str_int z) = true.
Proof.
  unfold str_int, NilZero.string_of_int.
  destruct (Z.to_int z); cbn [no_break]; apply string_of_uint_no_break.
Qed.

Lemma digit_char_no_break (d : Z) :
  0 <= d < 10 ->
  negb (Ascii.eqb (digit_char d) cr || Ascii.eqb (digit_char d) lf) = true.
Proof.
  intros Hd. assert (d = 0 \/ d = 1 \/ d = 2 \/ d = 3 \/ d = 4 \/ d = 5 \/ d = 6
                     \/ d = 7 \/ d = 8 \/ d = 9) as H by lia.
  repeat (destruct H as [->|H]; [reflexivity|]). now subst.
Qed.

Lemma frac_digits_no_break (fuel : nat) (num den : Z) :
  0 <= num < den -> no_break (frac_digits fuel num den) = true.
Proof.
  revert num. induction fuel as [|fuel IH]; intros num Hnum; [reflexivity|].
  cbn [frac_digits]. cbv zeta. cbn [no_break].
  rewrite digit_char_no_break.
  - destruct (num * 10 mod den =? 0); [reflexivity|].
    apply IH. apply Z.mod_pos_bound. lia.
  - split; [apply Z.div_pos; lia|].
    apply Z.div_lt_upper_bound; lia.
Qed.

Lemma float_repr_no_break (q : Q) : no_break (float_repr q) = true.
Proof.
  unfold float_repr. cbv zeta.
  rewrite !no_break_app, str_int_no_break, frac_digits_no_break.
  - now destruct (Qnum q <? 0).
  - apply Z.mod_pos_bound. reflexivity.
Qed.

Lemma json_dumps_no_break (v : pyval) : no_break (json_dumps v) = true.
Proof.
  revert v. fix IH 1. intros [ | z | q | s | l | d ].
  - reflexivity.
  - apply str_int_no_break.
  - apply float_repr_no_break.
  - apply json_string_no_break.
  - cbn [json_dumps]. rewrite !no_break_app.
    change (no_break "[") with true. change (no_break "]") with true.
    rewrite andb_true_r. cbn [andb].
    induction l as [|x l' IHl]; [reflexivity|].
    destruct l' as [|y l]; [apply IH|].
    rewrite !no_break_app, IH, IHl. reflexivity.
  - cbn [json_dumps]. rewrite !no_break_app.
    change (no_break "{") with true. change (no_break "}") with true.
    rewrite andb_true_r. cbn [andb].
    induction d as [|[k x] d' IHd]; [reflexivity|].
    destruct d' as [|y d].
    + now rewrite !no_break_app, json_string_no_break, IH.
    + rewrite !no_break_app, json_string_no_break, IH, IHd. reflexivity.
Qed.

Lemma double_quotes_no_break (f : string) : no_break (double_quotes f) = no_break f.
Proof.
  induction f as [|c f IH]; [reflexivity|]. cbn [double_quotes].
  destruct (Ascii.eqb c dquote) eqn:Hc.
  - apply Ascii.eqb_eq in Hc as ->. cbn [no_break]. rewrite IH. reflexivity.
  - cbn [no_break]. now rewrite IH.
Qed.

Lemma csv_quote_no_break (f : string) : no_break (csv_quote f) = no_break f.
Proof.
  unfold csv_quote. destruct (needs_quotes f); [|reflexivity].
  cbn [no_break]. rewrite no_break_app, double_quotes_no_break.
  change (Ascii.eqb dquote cr || Ascii.eqb dquote lf) with false.
  cbn [negb andb no_break]. now rewrite andb_true_r.
Qed.

Lemma csv_join_no_break (cells : list string) :
  forallb no_break cells = true -> no_break (csv_join cells) = true.
Proof.
  induction cells as [|c cells IH]; [reflexivity|].
  cbn [forallb]. intros [Hc Hcells]%andb_true_iff.
  destruct cells as [|c2 cells]; [cbn [csv_join]; now rewrite csv_quote_no_break|].
  change (csv_join (c :: c2 :: cells))
    with (csv_quote c +:+ String comma (csv_join (c2 :: cells))).
  rewrite no_break_app, csv_quote_no_break, Hc. cbn [no_break andb].
  rewrite (IH Hcells). reflexivity.
Qed.

(** X22.  A row of the CSV formatter is a single line.  When the
    timestamp, the level and the values of the record that are strings
    hold no line break, the row holds none: a list or a dict never brings
    one in, whatever strings it holds inside, because its JSON text escapes
    them, and numbers and [None] have none.  (The timestamp begins, and the
    last cell ends, on a character that [strip] keeps.) *)
Theorem csv_row_is_a_single_line (fields : list string) (asctime levelname : string)
        (d : list (string * pyval)) :
  starts_clean asctime = true ->
  ends_clean (csv_field_text
                (List.last (csv_data fields asctime levelname (MDict d)) SNone)) = true ->
  no_break asctime = true ->
  no_break levelname = true ->
  (forall field text, In field (skipn 2 fields) ->
                      dict_get d field = Some (PStr text) -> no_break text = true) ->
  no_break (CSVFormatter_format fields asctime levelname (MDict d)) = true
  /\ (forall v, no_break (json_dumps v) = true).
Proof.
  intros Hstart Hend Htime Hlevel Hstrings.
  split; [|exact json_dumps_no_break].
  rewrite (CSVFormatter_format_joined _ _ _ _ Hstart Hend).
  apply csv_join_no_break. unfold csv_data. cbn [app map forallb csv_field_text].
  rewrite Htime, Hlevel. cbn [andb].
  apply forallb_forall. intros cell Hcell.
  apply in_map_iff in Hcell as (v & <- & Hv).
  apply in_map_iff in Hv as (field & <- & Hfield).
  unfold csv_cell.
  destruct (dict_get d field) as [[ | z | q | text | l | x ]|] eqn:Hget;
    cbn [csv_field_text]; try reflexivity.
  - apply str_int_no_break.
  - apply float_repr_no_break.
  - exact (Hstrings field text Hfield Hget).
  - apply json_dumps_no_break.
  - apply json_dumps_no_break.
Qed.

Lemma csv_row_is_a_single_line_witness :
  no_break (CSVFormatter_format cpu_fields "2024-05-01 12:00:00" "INFO"
              (MDict odd_name_record)) = true.
Proof.
  refine (proj1 (csv_row_is_a_single_line cpu_fields "2024-05-01 12:00:00" "INFO"
                   odd_name_record eq_refl _ eq_refl eq_refl _)).
  - vm_compute. reflexivity.
  - intros field text Hin Hget. simpl in Hin.
    repeat (destruct Hin as [<-|Hin]; [discriminate Hget|]). destruct Hin.
Defined.
